(** * ecexams-dl: crawl, classify and download pipeline

    A shallow embedding of the scraper core that is shared by the command
    line tool ([ecexams_scraper.py]) and the web front end ([app.py]):
    name sanitiser, grade and year classifier, index and session
    extractors, single-file download and the job runner.

    Text model.  A Python [str] is a [string] whose characters are the
    code points 0..255 (Latin-1); the character classes below are the ones
    [re] and [str] use on that range.  Library calls whose result the
    pipeline only passes on ([urljoin], [urlparse], [Path.suffix],
    [Path.stem], the HTML parser) are parameters of the development.

    Domain.  The library calls are taken where they return.  [urljoin]
    and [urlparse] raise [ValueError] on a target with a malformed
    authority, and [Path.exists] raises [OSError] on a name the file system
    refuses (one that is too long, say); nothing below [run_job] and [main]
    catches either.  Pages with such targets and paths with such names are
    outside the development: where a statement says that a function
    returns, it says so for the other inputs. *)

From Stdlib Require Import String Ascii List ZArith NArith Bool Lia Permutation.
From stdpp Require Import gmap strings list fin_maps.
Import ListNotations.

Open Scope string_scope.
Open Scope list_scope.

(** ** Characters *)

Module PyChar.

Definition ord (c : ascii) : N := N_of_ascii c.

Definition between (lo hi : N) (c : ascii) : bool :=
  ((lo <=? ord c) && (ord c <=? hi))%N.

(** [str.isspace] and the class [\s]: TAB..CR, FS..US, space, NEL, NBSP. *)
Definition isspace (c : ascii) : bool :=
  between 9 13 c || between 28 32 c || (ord c =? 133)%N || (ord c =? 160)%N.

(** The class [\d]: decimal digits. *)
Definition isdecimal (c : ascii) : bool := between 48 57 c.

Definition isalpha (c : ascii) : bool :=
  between 65 90 c || between 97 122 c
  || (ord c =? 170)%N || (ord c =? 181)%N || (ord c =? 186)%N
  || between 192 214 c || between 216 246 c || between 248 255 c.

(** Superscript digits and vulgar fractions count as alphanumeric. *)
Definition isnumeric_other (c : ascii) : bool :=
  (ord c =? 178)%N || (ord c =? 179)%N || (ord c =? 185)%N || between 188 190 c.

(** The class [\w]: alphanumeric or underscore. *)
Definition isword (c : ascii) : bool :=
  isalpha c || isdecimal c || isnumeric_other c || (ord c =? 95)%N.

(** [str.lower] on one character. *)
Definition lower (c : ascii) : ascii :=
  if between 65 90 c || between 192 214 c || between 216 222 c
  then ascii_of_N (ord c + 32) else c.

(** The character class of the sanitiser: backslash, slash, star,
    question mark, colon, double quote, less-than, greater-than, bar. *)
Definition illegal (c : ascii) : bool :=
  (ord c =? 92)%N || (ord c =? 47)%N || (ord c =? 42)%N || (ord c =? 63)%N
  || (ord c =? 58)%N || (ord c =? 34)%N || (ord c =? 60)%N || (ord c =? 62)%N
  || (ord c =? 124)%N.

Definition space : ascii := " "%char.

End PyChar.

(** ** Operations of [str], on character lists *)

Module PyStr.
Import PyChar.

Definition chars (s : string) : list ascii := list_ascii_of_string s.
Definition str (l : list ascii) : string := string_of_list_ascii l.

Fixpoint lstrip (l : list ascii) : list ascii :=
  match l with
  | c :: r => if isspace c then lstrip r else l
  | [] => []
  end.

Definition rstrip (l : list ascii) : list ascii := rev (lstrip (rev l)).

(** [s.strip()] *)
Definition strip (l : list ascii) : list ascii := rstrip (lstrip l).

(** [p] is a prefix of [l]: the rest of [l] after it. *)
Fixpoint strip_prefix (p l : list ascii) : option (list ascii) :=
  match p, l with
  | [], _ => Some l
  | a :: p', b :: l' => if Ascii.eqb a b then strip_prefix p' l' else None
  | _ :: _, [] => None
  end.

(** [l.startswith(p)] *)
Definition startswith (p l : list ascii) : bool :=
  match strip_prefix p l with Some _ => true | None => false end.

(** [l.endswith(p)] *)
Definition endswith (p l : list ascii) : bool := startswith (rev p) (rev l).

(** [p in l]: [p] occurs in [l] as a contiguous run. *)
Fixpoint contains (p l : list ascii) : bool :=
  startswith p l || match l with
                    | [] => false
                    | _ :: r => contains p r
                    end.

(** [l.lower()] *)
Definition lower (l : list ascii) : list ascii := map PyChar.lower l.

(** Longest run of characters of a class at the head of [l]. *)
Fixpoint span (f : ascii -> bool) (l : list ascii) : list ascii * list ascii :=
  match l with
  | c :: r => if f c then let '(a, b) := span f r in (c :: a, b) else ([], l)
  | [] => ([], [])
  end.

End PyStr.

(** ** The regular expressions of the scraper *)

Module Regex.
Import PyChar PyStr.

(** [re.sub] of the illegal class with the empty string. *)
Definition sub_illegal (l : list ascii) : list ascii :=
  List.filter (fun c => negb (illegal c)) l.

(** [re.sub] of [\s+] with one space: every maximal whitespace run becomes one
    space; [inrun] tells that the run was already replaced. *)
Fixpoint sub_ws_from (inrun : bool) (l : list ascii) : list ascii :=
  match l with
  | [] => []
  | c :: r =>
      if isspace c
      then (if inrun then sub_ws_from true r else space :: sub_ws_from true r)
      else c :: sub_ws_from false r
  end.

Definition sub_ws (l : list ascii) : list ascii := sub_ws_from false l.

Definition isword_opt (c : option ascii) : bool :=
  match c with Some c => isword c | None => false end.

(** [\b] between the characters [before] and [after] (when any). *)
Definition word_boundary (before after : option ascii) : bool :=
  xorb (isword_opt before) (isword_opt after).

(** The patterns the scraper searches for: literals, classes, sequence,
    greedy option, greedy repetition of a class, the capture group and the
    word boundary. *)
Inductive re :=
| Eps
| Chr (c : ascii)
| Cls (f : ascii -> bool)
| Cat (a b : re)
| Opt (a : re)
| Star (f : ascii -> bool)
| Grp (a : re)
| Bnd.

(** A literal word. *)
Fixpoint lit (l : list ascii) : re :=
  match l with
  | [] => Eps
  | [c] => Chr c
  | c :: r => Cat (Chr c) (lit r)
  end.

(** What is left to match: called with the character before the
    position, the text from the position on and group 1 (when set). *)
Definition Cont : Type :=
  option ascii -> list ascii -> option (list ascii) -> option (list ascii).

(** Greedy repetition: one more character of the class first, the rest
    of the pattern from here when that fails. *)
Fixpoint star (f : ascii -> bool) (prev : option ascii) (l : list ascii)
    (cap : option (list ascii)) (k : Cont) : option (list ascii) :=
  match l with
  | c :: r =>
      if f c
      then match star f (Some c) r cap k with
           | Some g => Some g
           | None => k prev l cap
           end
      else k prev l cap
  | [] => k prev l cap
  end.

(** The backtracking matcher of [re]: the first way to match [r] at the
    head of [l], in the order in which [re] tries them, for which the rest
    of the pattern [k] matches too. *)
Fixpoint run (r : re) (prev : option ascii) (l : list ascii)
    (cap : option (list ascii)) (k : Cont) {struct r} : option (list ascii) :=
  match r with
  | Eps => k prev l cap
  | Chr c =>
      match l with
      | x :: t => if Ascii.eqb x c then k (Some x) t cap else None
      | [] => None
      end
  | Cls f =>
      match l with
      | x :: t => if f x then k (Some x) t cap else None
      | [] => None
      end
  | Cat a b => run a prev l cap (fun p t c => run b p t c k)
  | Opt a =>
      match run a prev l cap k with
      | Some g => Some g
      | None => k prev l cap
      end
  | Star f => star f prev l cap k
  | Grp a =>
      run a prev l cap
          (fun p t _ => k p t (Some (firstn (List.length l - List.length t) l)))
  | Bnd => if word_boundary prev (head l) then k prev l cap else None
  end.

(** A match of [r] at the head of [l]: its group 1. *)
Definition match_at (r : re) (prev : option ascii) (l : list ascii)
  : option (list ascii) :=
  run r prev l None (fun _ _ cap => Some (default [] cap)).

(** [re.search]: the match at the leftmost position that has one. *)
Fixpoint search (r : re) (prev : option ascii) (l : list ascii)
  : option (list ascii) :=
  match match_at r prev l with
  | Some g => Some g
  | None => match l with
            | [] => None
            | c :: t => search r (Some c) t
            end
  end.

(** [gr(?:ade)?\.?\s*(\d+)] *)
Definition grade_re : re :=
  Cat (lit (chars "gr"))
      (Cat (Opt (lit (chars "ade")))
           (Cat (Opt (Chr "."))
                (Cat (Star isspace)
                     (Grp (Cat (Cls isdecimal) (Star isdecimal)))))).

(** [\b(20\d{2})\b] *)
Definition year_re : re :=
  Cat Bnd
      (Cat (Grp (Cat (lit (chars "20")) (Cat (Cls isdecimal) (Cls isdecimal))))
           Bnd).

Definition search_grade (l : list ascii) : option (list ascii) :=
  search grade_re None l.

Definition search_year (l : list ascii) : option (list ascii) :=
  search year_re None l.

End Regex.

(** ** Name sanitiser and classifier *)

Import PyStr.

(** [sanitise] of [ecexams_scraper.py], [_sanitise] of [app.py]. *)
Definition sanitise_chars (name : list ascii) : list ascii :=
  let name := Regex.sub_illegal name in
  let name := strip (Regex.sub_ws name) in
  firstn 120 name.

Definition sanitise (name : string) : string := str (sanitise_chars (chars name)).

(** The text of [sanitise] before its last step, the cut to 120. *)
Definition cleaned (name : string) : list ascii :=
  strip (Regex.sub_ws (Regex.sub_illegal (chars name))).

(** [detect_grade] of [ecexams_scraper.py], [_grade] of [app.py]. *)
Definition detect_grade (text : string) : string :=
  let text_lower := PyStr.lower (chars text) in
  match Regex.search_grade text_lower with
  | Some g => "Grade " ++ str g
  | None =>
      if contains (chars "gec") text_lower
         || contains (chars "general education certificate") text_lower
      then "Grade 9 (GEC)"
      else if contains (chars "annual national assessment") text_lower
              || contains (chars " ana") text_lower
      then "ANA (Grades 1-6 & 9)"
      else "Other"
  end.

(** [detect_year] of [ecexams_scraper.py], [_year] of [app.py]. *)
Definition detect_year (text : string) : string :=
  match Regex.search_year (chars text) with
  | Some y => str y
  | None => "Unknown Year"
  end.

(** ** Data model *)

(** One exam sitting of the index page (the dict built by [scrape_index]). *)
Record ExamSession := {
  es_url : string;
  es_title : string;
  es_grade : string;
  es_year : string
}.

(** One downloadable file (the dict built by the session extractor). *)
Record FileInfo := {
  fi_url : string;
  fi_filename : string;
  fi_exam_session : ExamSession
}.

(** An element of [soup.find_all("a", href=True)]: the raw [href] attribute
    and [get_text(separator=" ", strip=True)]. *)
Record Anchor := {
  a_href : string;
  a_text : string
}.

(** A successful HTTP response: the anchors of its parsed text, and its
    payload. *)
Record Response := {
  r_anchors : list Anchor;
  r_content : string
}.

#[global] Instance ExamSession_eq_dec : EqDecision ExamSession.
Proof. solve_decision. Defined.

#[global] Instance FileInfo_eq_dec : EqDecision FileInfo.
Proof. solve_decision. Defined.

(** ** The world the pipeline runs in *)

(** [pathlib] paths, POSIX flavour, as their list of parts; an absolute
    path starts with the part ["/"].  Paths are compared part by part:
    [..] and links are not resolved, so two paths name the same node of the
    file system only when they have the same parts.  On disk a path with a
    [..] part names a node one level up: the file tree below speaks for the
    disk on paths without such a part. *)
Definition Path := list string.

Module PyPath.

(** [s.split("/")] *)
Fixpoint split_slash (cur : list ascii) (l : list ascii) : list string :=
  match l with
  | [] => [str (rev cur)]
  | c :: r => if Ascii.eqb c "/" then str (rev cur) :: split_slash [] r
              else split_slash (c :: cur) r
  end.

(** The parts of a relative path string: empty parts and [.] are dropped. *)
Definition rel_parts (s : string) : list string :=
  List.filter (fun p => negb (String.eqb p "" || String.eqb p "."))
              (split_slash [] (chars s)).

Definition is_absolute (s : string) : bool := startswith (chars "/") (chars s).

(** [Path(s)]; a start of exactly two slashes, which [pathlib] keeps as
    the part [//] (and Linux resolves as [/]), is taken as ["/"]. *)
Definition of_string (s : string) : Path :=
  if is_absolute s then "/" :: rel_parts s else rel_parts s.

(** [p / s]: an absolute right operand replaces the left one. *)
Definition div (p : Path) (s : string) : Path :=
  if is_absolute s then of_string s else p ++ rel_parts s.

(** [p.parent] *)
Definition parent (p : Path) : Path :=
  match p with
  | ["/"] => p
  | _ => removelast p
  end.

End PyPath.

Inductive Node :=
| Dir
| File (content : string).

(** What a request can end in: [requests.RequestException] or a response
    that passed [raise_for_status]. *)
Inductive Reply :=
| Failed (reason : string)
| Ok (r : Response).

(** The remote side: the reply to the [n]-th request of the run, by URL. *)
Definition Net := nat -> string -> Reply.

Inductive Exc :=
| RuntimeError (msg : string)
| OSError (p : Path)
| ValueError (msg : string).

(** Messages of events and log lines, before formatting. *)
Inductive Msg :=
| MFetchingIndex
| MRetry (attempt max_retry : nat) (url reason : string)
| MGivingUp (url : string)
| MNoIndex
| MFound (n : nat)
| MScanning (what : string)
| MFilesFound (n : nat)
| MScanned (n : nat)
| MTotalFiles (n : nat)
| MDryRunMode
| MDest (p : Path)
| MDownloading (p : Path)
| MFailedUrl (url : string)
| MFile (filename : string)
| MProgress (done total : nat)
| MCounts (dl skip fail dry : nat)
| MUnexpected (e : Exc)
| MNoSessions
| MNoFiles
| MSummaryDry (dry : nat)
| MSummary (downloaded skipped failed : nat) (dir : Path).

(** Everything the pipeline does to its surroundings, in order. *)
Inductive Effect :=
| Sleep (ms : N)
| HttpGet (url : string)
| Emit (kind : string) (m : Msg)
| Log (level : string) (m : Msg)
| Print (m : Msg)
| Mkdir (p : Path)
| WriteBytes (p : Path) (content : string)
| StopRequested.

Record World := {
  fs : gmap Path Node;
  requests : nat;
  job_active : bool;
  trace : list Effect
}.

(** A computation: it may raise, and changes the world either way. *)
Definition M (A : Type) : Type := World -> (Exc + A) * World.

#[global] Instance M_ret : MRet M := fun A a w => (inr a, w).
#[global] Instance M_bind : MBind M := fun A B f m w =>
  match m w with
  | (inl e, w') => (inl e, w')
  | (inr a, w') => f a w'
  end.

Definition raise {A} (e : Exc) : M A := fun w => (inl e, w).

(** [try: m except Exception as e: h e] *)
Definition try_except {A} (m : M A) (h : Exc -> M A) : M A := fun w =>
  match m w with
  | (inl e, w') => h e w'
  | r => r
  end.

(** [try: m finally: f] *)
Definition try_finally {A} (m : M A) (f : M unit) : M A := fun w =>
  match m w with
  | (r, w') => match f w' with
               | (inl e, w2) => (inl e, w2)
               | (inr _, w2) => (r, w2)
               end
  end.

Definition effect (e : Effect) : M unit := fun w =>
  (inr tt, {| fs := fs w; requests := requests w; job_active := job_active w;
              trace := trace w ++ [e] |}).

Definition set_job_active (b : bool) : M unit := fun w =>
  (inr tt, {| fs := fs w; requests := requests w; job_active := b;
              trace := trace w |}).

Definition set_fs (f : gmap Path Node) : M unit := fun w =>
  (inr tt, {| fs := f; requests := requests w; job_active := job_active w;
              trace := trace w |}).

Definition get_fs : M (gmap Path Node) := fun w => (inr (fs w), w).

Module FS.

(** The node at a path; the origin of relative paths and the root are
    directories.  The path is looked up as it is written ([..] is a name
    like any other here). *)
Definition node (f : gmap Path Node) (p : Path) : option Node :=
  if decide (p = [] \/ p = ["/"]) then Some Dir else f !! p.

(** [p.exists()] *)
Definition exists_ (f : gmap Path Node) (p : Path) : bool :=
  match node f p with Some _ => true | None => false end.

Definition is_dir (f : gmap Path Node) (p : Path) : bool :=
  match node f p with Some Dir => true | _ => false end.

(** The path and its ancestors, outermost first. *)
Definition lineage (p : Path) : list Path :=
  map (fun n => firstn n p) (seq 1 (length p)).

(** [p.mkdir(parents=True, exist_ok=True)]: every missing directory of
    the lineage is made, outermost first; a file in the way is an error
    and nothing under it is made. *)
Fixpoint mkdir_each (ps : list Path) (f : gmap Path Node)
  : Path + gmap Path Node :=
  match ps with
  | [] => inr f
  | q :: rest =>
      match node f q with
      | Some Dir => mkdir_each rest f
      | Some (File _) => inl q
      | None => mkdir_each rest (<[q := Dir]> f)
      end
  end.

Definition mkdir_parents (p : Path) (f : gmap Path Node)
  : Path + gmap Path Node := mkdir_each (lineage p) f.

(** [p.write_bytes(c)]: needs a directory above and no directory at [p]. *)
Definition write (p : Path) (c : string) (f : gmap Path Node)
  : Path + gmap Path Node :=
  match node f p with
  | Some Dir => inl p
  | _ => if is_dir f (PyPath.parent p) then inr (<[p := File c]> f) else inl p
  end.

End FS.

(** [p.exists()], where it returns: the [OSError] it passes on for a
    name the file system refuses is left out. *)
Definition path_exists (p : Path) : M bool := fun w => (inr (FS.exists_ (fs w) p), w).

(** [p.mkdir(parents=True, exist_ok=True)] *)
Definition mkdir (p : Path) : M unit :=
  _ ← effect (Mkdir p);
  f ← get_fs;
  match FS.mkdir_parents p f with
  | inl q => raise (OSError q)
  | inr f' => set_fs f'
  end.

(** [p.write_bytes(c)] *)
Definition write_bytes (p : Path) (c : string) : M unit :=
  _ ← effect (WriteBytes p c);
  f ← get_fs;
  match FS.write p c f with
  | inl q => raise (OSError q)
  | inr f' => set_fs f'
  end.

(** [time.sleep] *)
Definition sleep (ms : N) : M unit := effect (Sleep ms).

(** [str] operations on [string]. *)
Module S.
Definition strip (s : string) : string := str (PyStr.strip (chars s)).
Definition lower (s : string) : string := str (PyStr.lower (chars s)).
Definition startswith (s p : string) : bool := PyStr.startswith (chars p) (chars s).
Definition endswith (s p : string) : bool := PyStr.endswith (chars p) (chars s).
(** [p in s] *)
Definition contains (p s : string) : bool := PyStr.contains (chars p) (chars s).
(** A [str] is true when it is not empty. *)
Definition truthy (s : string) : bool := negb (String.eqb s "").
(** [x in xs] for a tuple or list of [str]. *)
Definition member (x : string) (xs : list string) : bool :=
  existsb (String.eqb x) xs.
End S.

(** ** The pool of [concurrent.futures]

    [ThreadPoolExecutor] with the loop over [as_completed].  Every submitted
    item waits in a queue until a free worker takes it (dispatch), is then in
    flight, and finishes; the run of an item is taken as one step, placed
    where it finishes, and the loop body of the main thread runs right
    after it.  A raising item makes the main loop leave at that item; the
    pool still runs every other item before the error goes on. *)
Module Pool.

Inductive Tick :=
| Dispatch
| Finish (k : nat)
| External.

Section Pool.
Context {T R Acc : Type}.
(** The submitted callable. *)
Variable task : T -> M R.
(** The body of the loop over finished futures. *)
Variable body : R -> Acc -> M Acc.
(** What another thread of the process may do in between. *)
Variable external : M unit.
Variable max_workers : nat.

Record State := {
  pending : list T;
  in_flight : list T;
  acc : Acc;
  fault : option Exc
}.

(** Item [t] finishes: its effects, then the loop body unless the main
    loop has already left. *)
Definition settle (t : T) (st : State) (rest : list T) (w : World)
  : State * World :=
  match task t w with
  | (inl e, w') =>
      ({| pending := pending st; in_flight := rest; acc := acc st;
          fault := Some (default e (fault st)) |}, w')
  | (inr r, w') =>
      match fault st with
      | Some _ =>
          ({| pending := pending st; in_flight := rest; acc := acc st;
              fault := fault st |}, w')
      | None =>
          match body r (acc st) w' with
          | (inl e, w2) =>
              ({| pending := pending st; in_flight := rest; acc := acc st;
                  fault := Some e |}, w2)
          | (inr a, w2) =>
              ({| pending := pending st; in_flight := rest; acc := a;
                  fault := None |}, w2)
          end
      end
  end.

Definition tick (k : Tick) (sw : State * World) : State * World :=
  let '(st, w) := sw in
  match k with
  | Dispatch =>
      match pending st with
      | t :: q =>
          if (List.length (in_flight st) <? max_workers)%nat
          then ({| pending := q; in_flight := in_flight st ++ [t];
                   acc := acc st; fault := fault st |}, w)
          else sw
      | [] => sw
      end
  | Finish i =>
      match in_flight st !! i with
      | Some t => settle t st (delete i (in_flight st)) w
      | None => sw
      end
  | External => (st, snd (external w))
  end.

Definition run_ticks (ks : list Tick) (sw : State * World) : State * World :=
  fold_left (fun sw k => tick k sw) ks sw.

(** Leaving the [with] block waits for the pool: the oldest item in
    flight finishes, or, when none is in flight, the next queued item is
    taken and finishes; and so on until nothing is left. *)
Definition drain_step (sw : State * World) : State * World :=
  let '(st, w) := sw in
  match in_flight st with
  | t :: rest => settle t st rest w
  | [] =>
      match pending st with
      | t :: q =>
          settle t {| pending := q; in_flight := [t]; acc := acc st;
                      fault := fault st |} [] w
      | [] => sw
      end
  end.

Definition drain (sw : State * World) : State * World :=
  Nat.iter (List.length (pending (fst sw)) + List.length (in_flight (fst sw)))
           drain_step sw.

Definition init (items : list T) (a : Acc) : State :=
  {| pending := items; in_flight := []; acc := a; fault := None |}.

(** Submit [items], loop over the finished futures from [a], leave the
    block.  [ks] is what happens meanwhile, in order. *)
Definition run (ks : list Tick) (items : list T) (a : Acc) : M Acc :=
  fun w =>
    let '(st, w') := drain (run_ticks ks (init items a, w)) in
    match fault st with
    | Some e => (inl e, w')
    | None => (inr (acc st), w')
    end.

End Pool.

(** [ThreadPoolExecutor(max_workers=n)] refuses [n <= 0]. *)
Definition executor (n : Z) : M nat :=
  if (n <=? 0)%Z then raise (ValueError "max_workers must be greater than 0")
  else mret (Z.to_nat n).

End Pool.

(** ** Requests *)

Section Http.
Variable net : Net.

(** [session.get(url, timeout=...)] followed by [raise_for_status]. *)
Definition session_get (url : string) : M Reply := fun w =>
  (inr (net (requests w) url),
   {| fs := fs w; requests := S (requests w); job_active := job_active w;
      trace := trace w ++ [HttpGet url] |}).

End Http.

Definition BASE_URL : string := "https://www.ecexams.co.za/".
Definition INDEX_URL : string := "https://www.ecexams.co.za/ExaminationPapers.htm".

(** The targets the index scan skips by their start. *)
Definition skipped_prefixes : list string :=
  ["mailto:"; "http://bit.ly"; "https://bit.ly"; "#"].

(** The document extensions of a session page. *)
Definition doc_exts : list string := [".pdf"; ".zip"; ".docx"].

(** ** The web front end, [app.py] *)

Module App.

(** Seconds are counted in milliseconds. *)
Definition DELAY : N := 400.
Definition MAX_RETRY : nat := 3.

Definition _sanitise : string -> string := sanitise.
Definition _grade : string -> string := detect_grade.
Definition _year : string -> string := detect_year.

(** [emit] of [run_job]: one more message in the queue of the job. *)
Definition emit (kind : string) (m : Msg) : M unit := effect (Emit kind m).

Section Core.
Variable net : Net.
(** [urllib.parse.urljoin] and [urlparse(href).path], on the targets
    they accept (they raise [ValueError] on a malformed authority). *)
Variable urljoin : string -> string -> string.
Variable url_path : string -> string.
(** [Path(p).suffix] and [Path(p).stem] *)
Variable path_suffix : string -> string.
Variable path_stem : string -> string.

(** The loop of [_get] from attempt [attempt] on, [n] attempts left. *)
Fixpoint _get_from (n attempt : nat) (url : string) : M (option Response) :=
  match n with
  | O => mret None
  | S n' =>
      _ ← sleep DELAY;
      r ← session_get net url;
      match r with
      | Ok r => mret (Some r)
      | Failed e =>
          _ ← emit "warn" (MRetry attempt MAX_RETRY url e);
          if (attempt =? MAX_RETRY)%nat then mret None
          else _ ← sleep (1000 * 2 ^ N.of_nat attempt);
               _get_from n' (S attempt) url
      end
  end.

Definition _get (url : string) : M (option Response) :=
  _get_from MAX_RETRY 1 url.

(** The grade test of [scrape_index]: no filter, or some filter occurs
    in the grade label. *)
Definition grade_passes (grade_filters : list string) (grade : string) : bool :=
  negb (negb (bool_decide (grade_filters = []))
        && negb (existsb (fun gf => S.contains gf grade) grade_filters)).

(** The year test of [scrape_index]: no filter, or the year is one of
    the filters. *)
Definition year_passes (year_filters : list string) (year : string) : bool :=
  negb (negb (bool_decide (year_filters = []))
        && negb (S.member year year_filters)).

(** One round of the loop of [scrape_index] over the anchors. *)
Definition index_step (grade_filters year_filters : list string)
    (sessions : list ExamSession) (a : Anchor) : list ExamSession :=
  let href := S.strip (a_href a) in
  if existsb (S.startswith href) skipped_prefixes then sessions
  else if negb (S.endswith href ".htm") then sessions
  else
    let full_url := urljoin BASE_URL href in
    if String.eqb full_url INDEX_URL then sessions
    else
      let link_text := a_text a in
      if negb (S.truthy link_text) || (String.length link_text <? 5)%nat
      then sessions
      else
        let year := if negb (String.eqb (_year link_text) "Unknown Year")
                    then _year link_text else _year href in
        let grade := _grade (String.append link_text (String.append " " href)) in
        let title := _sanitise link_text in
        if negb (grade_passes grade_filters grade) then sessions
        else if negb (year_passes year_filters year) then sessions
        else if existsb (fun s => String.eqb (es_url s) full_url) sessions
        then sessions
        else sessions ++ [ {| es_url := full_url; es_title := title;
                              es_grade := grade; es_year := year |} ].

Definition index_loop (grade_filters year_filters : list string)
    (anchors : list Anchor) : list ExamSession :=
  fold_left (index_step grade_filters year_filters) anchors [].

Definition scrape_index (grade_filters year_filters : list string)
  : M (list ExamSession) :=
  _ ← emit "info" MFetchingIndex;
  r ← _get INDEX_URL;
  match r with
  | None => _ ← emit "error" MNoIndex; mret []
  | Some r =>
      let sessions := index_loop grade_filters year_filters (r_anchors r) in
      _ ← emit "info" (MFound (List.length sessions));
      mret sessions
  end.

(** One round of the loop of [scrape_session]; the state is [files] and
    [seen]. *)
Definition session_step (es : ExamSession)
    (st : list FileInfo * gset string) (a : Anchor)
  : list FileInfo * gset string :=
  let '(files, seen) := st in
  let href := S.strip (a_href a) in
  let ext := S.lower (path_suffix (url_path href)) in
  if negb (S.member ext doc_exts) then st
  else
    let file_url := urljoin (es_url es) href in
    if bool_decide (file_url ∈ seen) then st
    else
      let seen := seen ∪ {[ file_url ]} in
      let raw := if S.truthy (a_text a) then a_text a
                 else path_stem (url_path href) in
      let name := _sanitise raw in
      let name := if negb (S.endswith (S.lower name) ext)
                  then String.append name ext else name in
      (files ++ [ {| fi_url := file_url; fi_filename := name;
                     fi_exam_session := es |} ], seen).

Definition session_loop (es : ExamSession) (anchors : list Anchor)
  : list FileInfo :=
  fst (fold_left (session_step es) anchors ([], ∅)).

Definition scrape_session (es : ExamSession) : M (list FileInfo) :=
  _ ← emit "scan" (MScanning (es_title es));
  r ← _get (es_url es);
  match r with
  | None => mret []
  | Some r => mret (session_loop es (r_anchors r))
  end.

Definition dest_dir_of (root : string) (fi : FileInfo) : Path :=
  let es := fi_exam_session fi in
  PyPath.div (PyPath.div (PyPath.div (PyPath.of_string root)
                                     (_sanitise (es_grade es)))
                         (es_year es))
             (_sanitise (es_title es)).

Definition dest_of (root : string) (fi : FileInfo) : Path :=
  PyPath.div (dest_dir_of root fi) (fi_filename fi).

Definition download_file (fi : FileInfo) (root : string) (dry_run : bool)
  : M string :=
  let dest_dir := dest_dir_of root fi in
  let dest := dest_of root fi in
  if dry_run then
    _ ← emit "dryrun" (MDest dest);
    mret "dryrun"
  else
    there ← path_exists dest;
    if (there : bool) then mret "skipped"
    else
      _ ← mkdir dest_dir;
      r ← _get (fi_url fi);
      match r with
      | None => _ ← emit "error" (MFailedUrl (fi_url fi)); mret "failed"
      | Some r =>
          _ ← write_bytes dest (r_content r);
          _ ← emit "download" (MFile (fi_filename fi));
          mret "downloaded"
      end.

(** The loop of [run_job] over the sessions. *)
Fixpoint scan_sessions (sessions : list ExamSession) (all_files : list FileInfo)
  : M (list FileInfo) :=
  match sessions with
  | [] => mret all_files
  | es :: rest =>
      files ← scrape_session es;
      let all_files := all_files ++ files in
      _ ← emit "progress" (MScanned (List.length all_files));
      scan_sessions rest all_files
  end.

(** [counts.get(key, 0)]; the four keys that are read at the end are in
    the dict from the start. *)
Definition count (counts : gmap string nat) (key : string) : nat :=
  default 0%nat (counts !! key).

(** The body of the loop over the finished futures; the state is
    [counts] and [done]. *)
Definition tally (total : nat) (result : string)
    (st : gmap string nat * nat) : M (gmap string nat * nat) :=
  let '(counts, done) := st in
  let counts := <[ result := (count counts result + 1)%nat ]> counts in
  let done := (done + 1)%nat in
  _ ← emit "progress" (MProgress done total);
  mret (counts, done).

Definition counts0 : gmap string nat :=
  <[ "downloaded" := 0%nat ]> (<[ "skipped" := 0%nat ]>
    (<[ "failed" := 0%nat ]> (<[ "dryrun" := 0%nat ]> ∅))).

(** The handler of [/stop]. *)
Definition stop : M unit :=
  _ ← effect StopRequested;
  set_job_active false.

(** The download stage of [run_job]: the pool and the loop over what
    finishes; [ks] is the order in which things happen. *)
Definition download_all (ks : list Pool.Tick) (all_files : list FileInfo)
    (output_dir : string) (dry_run : bool) (threads : Z)
  : M (gmap string nat) :=
  workers ← Pool.executor threads;
  r ← Pool.run (fun fi => download_file fi output_dir dry_run)
               (tally (List.length all_files)) stop workers
               ks all_files (counts0, 0%nat);
  mret (fst r).

Definition run_job_body (ks : list Pool.Tick)
    (grade_filters year_filters : list string)
    (output_dir : string) (dry_run : bool) (threads : Z) : M unit :=
  sessions ← scrape_index grade_filters year_filters;
  match sessions with
  | [] => emit "done" (MCounts 0 0 0 0)
  | _ =>
      all_files ← scan_sessions sessions [];
      _ ← emit "info" (MTotalFiles (List.length all_files));
      counts ← download_all ks all_files output_dir dry_run threads;
      emit "done" (MCounts (count counts "downloaded") (count counts "skipped")
                           (count counts "failed") (count counts "dryrun"))
  end.

Definition run_job (ks : list Pool.Tick)
    (grade_filters year_filters : list string)
    (output_dir : string) (dry_run : bool) (threads : Z) : M unit :=
  try_finally
    (try_except
       (run_job_body ks grade_filters year_filters output_dir dry_run threads)
       (fun e => _ ← emit "error" (MUnexpected e);
                 emit "done" (MCounts 0 0 0 0)))
    (set_job_active false).

End Core.

(** The JSON body of [/start]. *)
Record StartRequest := {
  req_grades : list string;
  req_years : list string;
  req_output_dir : option string;
  req_dry_run : bool;
  req_threads : option Z
}.

(** The arguments of the thread that [/start] starts. *)
Record JobArgs := {
  grade_filters : list string;
  year_filters : list string;
  output_dir : string;
  dry_run : bool;
  threads : Z
}.

(** [start]: refused with 409 ([None]) while a job is active. *)
Definition start (data : StartRequest) : M (option JobArgs) := fun w =>
  if job_active w then (inr None, w)
  else
    let output_dir :=
      let s := S.strip (default "downloads" (req_output_dir data)) in
      if S.truthy s then s else "downloads" in
    let threads := Z.max 1 (Z.min 10 (default 3%Z (req_threads data))) in
    let grade_filters := map (String.append "Grade ") (req_grades data) in
    let year_filters := req_years data in
    (_ ← set_job_active true;
     mret (Some {| grade_filters := grade_filters; year_filters := year_filters;
                   output_dir := output_dir; dry_run := req_dry_run data;
                   threads := threads |})) w.

End App.

(** ** The event stream of the web front end, [stream] of [app.py] *)

Module Stream.

(** What one round of the loop of [generate] meets: no queue yet
    ([_job_queue] is [None]), a message from the queue, or a second without
    one ([queue.Empty]), with the value of [_job_active] it reads then. *)
Inductive Poll :=
| NoQueue
| Got (kind : string) (m : Msg)
| Empty (active : bool).

(** What the generator does, in order: a pause of [time.sleep], or a
    chunk it yields, the JSON of a message or the ping. *)
Inductive Step :=
| Pause (ms : N)
| Data (kind : string) (m : Msg)
| Ping.

(** [generate]: its steps over the rounds [polls], and whether it has
    left the loop. *)
Fixpoint generate (polls : list Poll) : list Step * bool :=
  match polls with
  | [] => ([], false)
  | NoQueue :: rest =>
      let '(steps, ended) := generate rest in (Pause 100 :: steps, ended)
  | Got kind m :: rest =>
      if String.eqb kind "done" then ([Data kind m], true)
      else let '(steps, ended) := generate rest in (Data kind m :: steps, ended)
  | Empty active :: rest =>
      if negb active then ([Ping], true)
      else let '(steps, ended) := generate rest in (Ping :: steps, ended)
  end.

End Stream.

(** ** The command line tool, [ecexams_scraper.py] *)

Module Scraper.

Definition DELAY_BETWEEN_REQUESTS : N := 500.
Definition MAX_RETRIES : nat := 3.

Definition log (level : string) (m : Msg) : M unit := effect (Log level m).

(** The dict a download returns. *)
Record Result := {
  res_url : string;
  res_path : Path;
  res_status : string
}.

(** The four counters of [main]. *)
Record Counters := {
  downloaded : nat;
  skipped : nat;
  failed : nat;
  dry_count : nat
}.

(** The parsed command line. *)
Record Args := {
  arg_grade : option string;
  arg_year : option string;
  arg_dry_run : bool;
  arg_threads : Z;
  arg_output_dir : string
}.

(** An optional [str] is true when it is there and not empty. *)
Definition given (o : option string) : bool :=
  match o with Some s => S.truthy s | None => false end.

Section Core.
Variable net : Net.
Variable urljoin : string -> string -> string.
Variable url_path : string -> string.
Variable path_suffix : string -> string.
Variable path_stem : string -> string.

Fixpoint safe_get_from (n attempt : nat) (url : string) : M (option Response) :=
  match n with
  | O => mret None
  | S n' =>
      _ ← sleep DELAY_BETWEEN_REQUESTS;
      r ← session_get net url;
      match r with
      | Ok r => mret (Some r)
      | Failed e =>
          _ ← log "warning" (MRetry attempt MAX_RETRIES url e);
          if (attempt =? MAX_RETRIES)%nat
          then _ ← log "error" (MGivingUp url); mret None
          else _ ← sleep (1000 * 2 ^ N.of_nat attempt);
               safe_get_from n' (S attempt) url
      end
  end.

Definition safe_get (url : string) : M (option Response) :=
  safe_get_from MAX_RETRIES 1 url.

(** The grade test of [scrape_index]: no filter, or the filter occurs in
    the grade label. *)
Definition grade_passes (grade_filter : option string) (grade : string) : bool :=
  match grade_filter with
  | Some gf => negb (S.truthy gf && negb (S.contains gf grade))
  | None => true
  end.

(** The year test of [scrape_index]: no filter, or the filter is the
    year. *)
Definition year_passes (year_filter : option string) (year : string) : bool :=
  match year_filter with
  | Some yf => negb (S.truthy yf && negb (String.eqb yf year))
  | None => true
  end.

Definition index_step (grade_filter year_filter : option string)
    (sessions : list ExamSession) (a : Anchor) : list ExamSession :=
  let href := S.strip (a_href a) in
  if existsb (S.startswith href) skipped_prefixes then sessions
  else if negb (S.endswith href ".htm") then sessions
  else
    let full_url := urljoin BASE_URL href in
    if String.eqb full_url INDEX_URL then sessions
    else
      let link_text := a_text a in
      if negb (S.truthy link_text) || (String.length link_text <? 5)%nat
      then sessions
      else
        let year_from_url := detect_year href in
        let year_from_text := detect_year link_text in
        let year := if negb (String.eqb year_from_text "Unknown Year")
                    then year_from_text else year_from_url in
        let grade := detect_grade (String.append link_text (String.append " " href)) in
        let title := sanitise link_text in
        if negb (grade_passes grade_filter grade) then sessions
        else if negb (year_passes year_filter year) then sessions
        else if existsb (fun s => String.eqb (es_url s) full_url) sessions
        then sessions
        else sessions ++ [ {| es_url := full_url; es_title := title;
                              es_grade := grade; es_year := year |} ].

Definition index_loop (grade_filter year_filter : option string)
    (anchors : list Anchor) : list ExamSession :=
  fold_left (index_step grade_filter year_filter) anchors [].

Definition scrape_index (grade_filter year_filter : option string)
  : M (list ExamSession) :=
  _ ← log "info" MFetchingIndex;
  r ← safe_get INDEX_URL;
  match r with
  | None => raise (RuntimeError "Could not fetch the index page.")
  | Some r =>
      let sessions := index_loop grade_filter year_filter (r_anchors r) in
      _ ← log "info" (MFound (List.length sessions));
      mret sessions
  end.

Definition session_step (exam_session : ExamSession)
    (st : list FileInfo * gset string) (a : Anchor)
  : list FileInfo * gset string :=
  let '(files, seen_urls) := st in
  let href := S.strip (a_href a) in
  if negb (S.truthy href) then st
  else
    let ext := S.lower (path_suffix (url_path href)) in
    if negb (S.member ext doc_exts) then st
    else
      let file_url := urljoin (es_url exam_session) href in
      if bool_decide (file_url ∈ seen_urls) then st
      else
        let seen_urls := seen_urls ∪ {[ file_url ]} in
        let raw_name := if S.truthy (a_text a) then a_text a
                        else path_stem (url_path href) in
        let clean_name := sanitise raw_name in
        let filename := if S.endswith (S.lower clean_name) ext
                        then clean_name else String.append clean_name ext in
        (files ++ [ {| fi_url := file_url; fi_filename := filename;
                       fi_exam_session := exam_session |} ], seen_urls).

Definition session_loop (exam_session : ExamSession) (anchors : list Anchor)
  : list FileInfo :=
  fst (fold_left (session_step exam_session) anchors ([], ∅)).

Definition scrape_session_page (exam_session : ExamSession) : M (list FileInfo) :=
  let url := es_url exam_session in
  _ ← log "info" (MScanning url);
  r ← safe_get url;
  match r with
  | None => mret []
  | Some r =>
      let files := session_loop exam_session (r_anchors r) in
      _ ← log "info" (MFilesFound (List.length files));
      mret files
  end.

(** [DOWNLOAD_DIR] is the global that [main] sets before anything runs. *)
Variable DOWNLOAD_DIR : Path.

Definition dest_dir_of (file_info : FileInfo) : Path :=
  let es := fi_exam_session file_info in
  PyPath.div (PyPath.div (PyPath.div DOWNLOAD_DIR (sanitise (es_grade es)))
                         (es_year es))
             (sanitise (es_title es)).

Definition dest_of (file_info : FileInfo) : Path :=
  PyPath.div (dest_dir_of file_info) (fi_filename file_info).

Definition download_file (file_info : FileInfo) (dry_run : bool) : M Result :=
  let dest_dir := dest_dir_of file_info in
  let dest_path := dest_of file_info in
  let result status := {| res_url := fi_url file_info; res_path := dest_path;
                          res_status := status |} in
  if dry_run then
    _ ← log "info" (MDest dest_path);
    mret (result "dry-run")
  else
    there ← path_exists dest_path;
    if (there : bool) then mret (result "skipped (exists)")
    else
      _ ← mkdir dest_dir;
      _ ← log "info" (MDownloading dest_path);
      r ← safe_get (fi_url file_info);
      match r with
      | None => mret (result "failed")
      | Some r =>
          _ ← write_bytes dest_path (r_content r);
          mret (result "downloaded")
      end.

(** The loop of [main] over the sessions. *)
Fixpoint scan_sessions (exam_sessions : list ExamSession)
    (all_files : list FileInfo) : M (list FileInfo) :=
  match exam_sessions with
  | [] => mret all_files
  | es :: rest =>
      files ← scrape_session_page es;
      scan_sessions rest (all_files ++ files)
  end.

(** The body of the loop over the finished futures. *)
Definition tally (result : Result) (c : Counters) : M Counters :=
  let s := res_status result in
  if String.eqb s "downloaded" then
    mret {| downloaded := downloaded c + 1; skipped := skipped c;
            failed := failed c; dry_count := dry_count c |}
  else if String.eqb s "failed" then
    _ ← log "error" (MFailedUrl (res_url result));
    mret {| downloaded := downloaded c; skipped := skipped c;
            failed := failed c + 1; dry_count := dry_count c |}
  else if String.eqb s "dry-run" then
    mret {| downloaded := downloaded c; skipped := skipped c;
            failed := failed c; dry_count := dry_count c + 1 |}
  else
    mret {| downloaded := downloaded c; skipped := skipped c + 1;
            failed := failed c; dry_count := dry_count c |}.

Definition download_all (ks : list Pool.Tick) (all_files : list FileInfo)
    (dry_run : bool) (threads : Z) : M Counters :=
  workers ← Pool.executor threads;
  Pool.run (fun fi => download_file fi dry_run) tally (mret tt) workers
           ks all_files
           {| downloaded := 0; skipped := 0; failed := 0; dry_count := 0 |}.

End Core.

(** [main], after the command line is parsed.  The Python function
    returns nothing; the result here is the counters at the summary, or
    [None] when [main] returns before the download stage. *)
Definition main (net : Net) (urljoin : string -> string -> string)
    (url_path path_suffix path_stem : string -> string)
    (ks : list Pool.Tick) (args : Args) : M (option Counters) :=
  let DOWNLOAD_DIR := PyPath.of_string (arg_output_dir args) in
  let grade_filter := if given (arg_grade args)
                      then Some (String.append "Grade " (default "" (arg_grade args)))
                      else None in
  let year_filter := arg_year args in
  exam_sessions ← scrape_index net urljoin grade_filter year_filter;
  match exam_sessions with
  | [] => _ ← log "warning" MNoSessions; mret None
  | _ =>
      all_files ← scan_sessions net urljoin url_path path_suffix path_stem
                                exam_sessions [];
      match all_files with
      | [] => _ ← log "warning" MNoFiles; mret None
      | _ =>
          _ ← log "info" (MTotalFiles (List.length all_files));
          _ ← (if arg_dry_run args then log "info" MDryRunMode else mret tt);
          c ← download_all net DOWNLOAD_DIR ks all_files
                           (arg_dry_run args) (arg_threads args);
          _ ← (if arg_dry_run args then effect (Print (MSummaryDry (dry_count c)))
               else effect (Print (MSummary (downloaded c) (skipped c) (failed c)
                                            DOWNLOAD_DIR)));
          mret (Some c)
      end
  end.

End Scraper.

(** ** An instance of the library parameters

    It agrees with [urllib] and [pathlib] on plain relative targets (no
    scheme, query, fragment or dot segments), which is what the examples
    below use. *)
Module Ref.

(** The last part: the text after the last slash, slashes at the end
    apart. *)
Definition name_of (l : list ascii) : list ascii :=
  rev (fst (span (fun c => negb (Ascii.eqb c "/"))
                 (snd (span (fun c => Ascii.eqb c "/") (rev l))))).

(** The text up to and with the last slash. *)
Definition dir_of (l : list ascii) : list ascii :=
  rev (snd (span (fun c => negb (Ascii.eqb c "/")) (rev l))).

Definition urljoin (base href : string) : string :=
  str (dir_of (chars base) ++ chars href).

Definition url_path (href : string) : string := href.

(** The name cut at its last dot, when that dot is neither first nor
    last: stem and suffix. *)
Definition cut_name (l : list ascii) : list ascii * list ascii :=
  let name := name_of l in
  match span (fun c => negb (Ascii.eqb c ".")) (rev name) with
  | ((_ :: _) as a, dot :: ((_ :: _) as b)) => (rev b, dot :: rev a)
  | _ => (name, [])
  end.

Definition path_suffix (p : string) : string := str (snd (cut_name (chars p))).
Definition path_stem (p : string) : string := str (fst (cut_name (chars p))).

(** Nothing answers. *)
Definition net_down : Net := fun _ _ => Failed "timed out".

Definition w0 : World :=
  {| fs := ∅; requests := 0; job_active := true; trace := [] |}.

(** A small site: the index lists one session, whose page lists two
    papers. *)
Definition session_url : string := "https://www.ecexams.co.za/nsc2023.htm".
Definition p1_url : string := "https://www.ecexams.co.za/p1.pdf".
Definition p2_url : string := "https://www.ecexams.co.za/p2.pdf".

Definition net_site : Net := fun _ url =>
  if String.eqb url INDEX_URL then
    Ok {| r_anchors := [ {| a_href := "nsc2023.htm";
                            a_text := "Grade 12 November 2023" |} ];
          r_content := "" |}
  else if String.eqb url session_url then
    Ok {| r_anchors := [ {| a_href := "p1.pdf"; a_text := "Maths P1" |};
                         {| a_href := "p2.pdf"; a_text := "Maths P2" |} ];
          r_content := "" |}
  else if String.eqb url p1_url then
    Ok {| r_anchors := []; r_content := "paper one" |}
  else if String.eqb url p2_url then
    Ok {| r_anchors := []; r_content := "paper two" |}
  else Failed "404".

Definition the_session : ExamSession :=
  {| es_url := session_url; es_title := "Grade 12 November 2023";
     es_grade := "Grade 12"; es_year := "2023" |}.

Definition p1 : FileInfo :=
  {| fi_url := p1_url; fi_filename := "Maths P1.pdf";
     fi_exam_session := the_session |}.

Definition p2 : FileInfo :=
  {| fi_url := p2_url; fi_filename := "Maths P2.pdf";
     fi_exam_session := the_session |}.

End Ref.

(** * Vocabulary of the properties *)

(** The two patterns without backtracking, for the proofs. *)
Module Direct.
Import PyChar PyStr.

(** An optional literal: consumed when it is there. *)
Definition opt_literal (p l : list ascii) : list ascii :=
  match strip_prefix p l with Some r => r | None => l end.

(** The grade pattern anchored at the head of [l], read off directly; the
    result is group 1.  Each optional or starred item is followed by an
    item that cannot start with the characters it consumes, so the greedy
    choice is the only one that can succeed. *)
Definition match_grade_at (l : list ascii) : option (list ascii) :=
  match strip_prefix (chars "gr") l with
  | None => None
  | Some r1 =>
      let r2 := opt_literal (chars "ade") r1 in
      let r3 := opt_literal (chars ".") r2 in
      let r4 := snd (span isspace r3) in
      match fst (span isdecimal r4) with
      | [] => None
      | ds => Some ds
      end
  end.

(** The leftmost match of the grade pattern. *)
Fixpoint search_grade (l : list ascii) : option (list ascii) :=
  match match_grade_at l with
  | Some g => Some g
  | None => match l with
            | [] => None
            | _ :: r => search_grade r
            end
  end.

(** The year pattern anchored at the head of [l], read off directly;
    [prev] is the character before it.  The result is group 1. *)
Definition match_year_at (prev : option ascii) (l : list ascii)
  : option (list ascii) :=
  match l with
  | c1 :: c2 :: c3 :: c4 :: rest =>
      if Regex.word_boundary prev (Some c1)
         && Ascii.eqb c1 "2" && Ascii.eqb c2 "0"
         && isdecimal c3 && isdecimal c4
         && Regex.word_boundary (Some c4) (head rest)
      then Some [c1; c2; c3; c4] else None
  | _ => None
  end.

(** The leftmost match of the year pattern. *)
Fixpoint search_year (prev : option ascii) (l : list ascii)
  : option (list ascii) :=
  match match_year_at prev l with
  | Some y => Some y
  | None => match l with
            | [] => None
            | c :: r => search_year (Some c) r
            end
  end.

(** The digits of group 1 of the grade pattern. *)
Definition digits_at (l : list ascii) : option (list ascii) :=
  match fst (span isdecimal l) with
  | [] => None
  | ds => Some ds
  end.

(** The grade pattern after its literal start, step by step. *)
Definition after_ws (l : list ascii) : option (list ascii) :=
  digits_at (snd (span isspace l)).

Definition after_dot (l : list ascii) : option (list ascii) :=
  after_ws (opt_literal (chars ".") l).

Definition after_ade (l : list ascii) : option (list ascii) :=
  after_dot (opt_literal (chars "ade") l).

End Direct.

(** [l] starts with a whitespace character. *)
Definition starts_ws (l : list ascii) : bool :=
  match l with c :: _ => PyChar.isspace c | [] => false end.

(** Whitespace is single spaces only; [b] tells that a whitespace
    character came just before. *)
Fixpoint ws_normal (b : bool) (l : list ascii) : Prop :=
  match l with
  | [] => True
  | c :: r => if PyChar.isspace c then c = PyChar.space /\ b = false /\ ws_normal true r
              else ws_normal false r
  end.

Definition legal (c : ascii) : Prop := PyChar.illegal c = false.

(** A name of 121 characters after cleaning, with a space as the 120th. *)
Definition long_name : string := str (repeat "a"%char 119 ++ chars " b").

(** The labels [scrape_index] gives a link with text [text] and target
    [href]. *)
Definition session_grade (text href : string) : string :=
  detect_grade (String.append text (String.append " " href)).

Definition session_year (text href : string) : string :=
  if String.eqb (detect_year text) "Unknown Year"
  then detect_year href else detect_year text.

(** The session [scrape_index] builds from an anchor. *)
Definition session_of (urljoin : string -> string -> string) (a : Anchor)
  : ExamSession :=
  let href := S.strip (a_href a) in
  {| es_url := urljoin BASE_URL href;
     es_title := sanitise (a_text a);
     es_grade := session_grade (a_text a) href;
     es_year := session_year (a_text a) href |}.

(** The anchors [scrape_index] takes for session links, before the
    filters: target not skipped by its start, ending in [.htm], not the
    index itself, and a text of five characters or more. *)
Definition candidate (urljoin : string -> string -> string) (a : Anchor) : bool :=
  let href := S.strip (a_href a) in
  negb (existsb (S.startswith href) skipped_prefixes)
  && S.endswith href ".htm"
  && negb (String.eqb (urljoin BASE_URL href) INDEX_URL)
  && negb (negb (S.truthy (a_text a)) || (String.length (a_text a) <? 5)%nat).

(** One round of either index loop, with the filter tests [gp] and [yp]:
    a candidate that passes both and whose URL is new is appended. *)
Definition index_round (urljoin : string -> string -> string)
    (gp yp : string -> bool)
    (ss : list ExamSession) (a : Anchor) : list ExamSession :=
  let s := session_of urljoin a in
  if candidate urljoin a && gp (es_grade s) && yp (es_year s)
     && negb (existsb (fun s' => String.eqb (es_url s') (es_url s)) ss)
  then ss ++ [s] else ss.

Definition index_rounds (urljoin : string -> string -> string)
    (gp yp : string -> bool) (anchors : list Anchor) (ss : list ExamSession) :=
  fold_left (index_round urljoin gp yp) anchors ss.

(** Some rule of [detect_grade] fires on the text. *)
Definition grade_signal (text : string) : bool :=
  let t := PyStr.lower (chars text) in
  bool_decide (is_Some (Regex.search_grade t))
  || contains (chars "gec") t
  || contains (chars "general education certificate") t
  || contains (chars "annual national assessment") t
  || contains (chars " ana") t.

(** The name a file link gets from its cleaned text and its extension. *)
Definition filename_of (name ext : string) : string :=
  if S.endswith (S.lower name) ext then name else String.append name ext.

(** What both session loops build from an anchor they keep. *)
Definition link_ext (url_path path_suffix : string -> string) (a : Anchor) : string :=
  S.lower (path_suffix (url_path (S.strip (a_href a)))).

Definition file_of (urljoin : string -> string -> string)
    (url_path path_suffix path_stem : string -> string)
    (es : ExamSession) (a : Anchor) : FileInfo :=
  let href := S.strip (a_href a) in
  let raw := if S.truthy (a_text a) then a_text a else path_stem (url_path href) in
  {| fi_url := urljoin (es_url es) href;
     fi_filename := filename_of (sanitise raw) (link_ext url_path path_suffix a);
     fi_exam_session := es |}.

(** A link text of 120 characters. *)
Definition long_text : string := str (repeat "a"%char 120).

Definition any_session : ExamSession :=
  {| es_url := "https://www.ecexams.co.za/2023/nsc.htm";
     es_title := "Grade 12 November 2023";
     es_grade := "Grade 12";
     es_year := "2023" |}.

(** The computation returned: it did not raise. *)
Definition returned {A} (r : (Exc + A) * World) : bool :=
  match fst r with inr _ => true | inl _ => false end.

(** The world after [n] more requests and the effects [es]. *)
Definition after (w : World) (n : nat) (es : list Effect) : World :=
  {| fs := fs w; requests := (requests w + n)%nat; job_active := job_active w;
     trace := trace w ++ es |}.

(** The reason of a failed request. *)
Definition reason (r : Reply) : string :=
  match r with Failed e => e | Ok _ => "" end.

(** The [k] requests from the [n]-th on all fail for [url]. *)
Definition down (net : Net) (url : string) (n k : nat) : Prop :=
  forall i, (i < k)%nat -> exists e, net (n + i)%nat url = Failed e.

(** What [_get] does when every attempt fails. *)
Definition app_get_trace (net : Net) (url : string) (n : nat) : list Effect :=
  [ Sleep 400; HttpGet url;
    Emit "warn" (MRetry 1 3 url (reason (net n url)));
    Sleep 2000;
    Sleep 400; HttpGet url;
    Emit "warn" (MRetry 2 3 url (reason (net (n + 1)%nat url)));
    Sleep 4000;
    Sleep 400; HttpGet url;
    Emit "warn" (MRetry 3 3 url (reason (net (n + 2)%nat url))) ].

(** What [safe_get] does when every attempt fails. *)
Definition scraper_get_trace (net : Net) (url : string) (n : nat) : list Effect :=
  [ Sleep 500; HttpGet url;
    Log "warning" (MRetry 1 3 url (reason (net n url)));
    Sleep 2000;
    Sleep 500; HttpGet url;
    Log "warning" (MRetry 2 3 url (reason (net (n + 1)%nat url)));
    Sleep 4000;
    Sleep 500; HttpGet url;
    Log "warning" (MRetry 3 3 url (reason (net (n + 2)%nat url)));
    Log "error" (MGivingUp url) ].

Definition some_args : Scraper.Args :=
  {| Scraper.arg_grade := Some "12"; Scraper.arg_year := None;
     Scraper.arg_dry_run := false; Scraper.arg_threads := 3;
     Scraper.arg_output_dir := "downloads" |}.

(** The effect is an event of the event stream. *)
Definition is_emit (e : Effect) : bool :=
  match e with Emit _ _ => true | _ => false end.

(** The world with the file tree [f], [n] more requests and the effects
    [es]. *)
Definition evolve (w : World) (f : gmap Path Node) (n : nat) (es : list Effect)
  : World :=
  {| fs := f; requests := (requests w + n)%nat; job_active := job_active w;
     trace := trace w ++ es |}.

(** What a fetch leaves in the trace besides its first request: pauses,
    requests, retry warnings and log lines. *)
Definition is_fetch_effect (e : Effect) : bool :=
  match e with
  | Sleep _ | HttpGet _ | Log _ _ => true
  | Emit k _ => String.eqb k "warn"
  | _ => false
  end.

(** How many items are not finished yet. *)
Definition unfinished {T Acc : Type} (st : @Pool.State T Acc) : nat :=
  (List.length (Pool.pending st) + List.length (Pool.in_flight st))%nat.

(** A tree [g] keeps what [f] has. *)
Definition keeps (f g : gmap Path Node) : Prop :=
  forall q, is_Some (FS.node f q) -> is_Some (FS.node g q).

Definition keeps_dirs (f g : gmap Path Node) : Prop :=
  forall q, FS.node f q = Some Dir -> FS.node g q = Some Dir.

(** The sum of the four counts of [run_job]. *)
Definition sum4 (counts : gmap string nat) : nat :=
  (App.count counts "downloaded" + App.count counts "skipped"
   + App.count counts "failed" + App.count counts "dryrun")%nat.

(** The sum of the four counters of [main]. *)
Definition sum_counters (c : Scraper.Counters) : nat :=
  (Scraper.downloaded c + Scraper.skipped c + Scraper.failed c
   + Scraper.dry_count c)%nat.

Definition outcomes : list string := ["dryrun"; "skipped"; "failed"; "downloaded"].

(** The requests and stop requests of a trace, in order. *)
Definition requests_and_stops (es : list Effect) : list Effect :=
  List.filter (fun e => match e with
                        | HttpGet _ | StopRequested => true
                        | _ => false
                        end) es.

(** ** Vocabulary of the further properties *)

(** A name the sanitiser has nothing to do on: no illegal character,
    whitespace as single spaces only, none at either end, at most 120
    characters. *)
Definition clean_name (l : list ascii) : Prop :=
  Forall legal l /\ ws_normal false l /\ starts_ws l = false
  /\ starts_ws (rev l) = false /\ (List.length l <= 120)%nat.

(** A CLI filter as the list of filters of the web front end: nothing for
    a missing or empty one. *)
Definition as_list (o : option string) : list string :=
  match o with
  | Some s => if S.truthy s then [s] else []
  | None => []
  end.

(** What the session loops keep besides the files: the URLs of the files,
    each once. *)
Definition seen_ok (st : list FileInfo * gset string) : Prop :=
  List.NoDup (map fi_url (fst st))
  /\ (forall u, u ∈ snd st <-> In u (map fi_url (fst st))).

(** The pauses of a trace, in milliseconds. *)
Definition total_sleep (es : list Effect) : N :=
  fold_right (fun e n => match e with Sleep ms => (ms + n)%N | _ => n end) 0%N es.

(** The URLs a trace requests, in order. *)
Definition requested (es : list Effect) : list string :=
  flat_map (fun e => match e with HttpGet u => [u] | _ => [] end) es.

(** What a fetch with retries comes to, with [delay] before each request:
    [k] requests for [url] from world [w] on, all but the last failed, the
    last one giving [o]; the pauses add up to [k] delays and the back-off of
    the failed attempts before the last. *)
Definition fetched (net : Net) (delay : N) (url : string) (w : World)
    (o : option Response) (k : nat) (es : list Effect) : Prop :=
  (1 <= k <= 3)%nat
  /\ (forall i, (i + 1 < k)%nat -> exists e, net (requests w + i)%nat url = Failed e)
  /\ match o with
     | Some r => net (requests w + (k - 1))%nat url = Ok r
     | None => k = 3%nat /\ exists e, net (requests w + 2)%nat url = Failed e
     end
  /\ requested es = repeat url k
  /\ total_sleep es = (delay * N.of_nat k + 1000 * (2 ^ N.of_nat k - 2))%N
  /\ Forall (fun e => is_fetch_effect e = true) es.

(** What the scan of the index and of the session pages leaves in the
    trace: pauses, requests, log lines, and events of the kinds info, warn,
    error, scan and progress. *)
Definition is_scan_effect (e : Effect) : bool :=
  match e with
  | Sleep _ | HttpGet _ | Log _ _ => true
  | Emit k _ => S.member k ["info"; "warn"; "error"; "scan"; "progress"]
  | _ => false
  end.

(** The final event of a job. *)
Definition is_done (e : Effect) : bool :=
  match e with Emit k _ => String.eqb k "done" | _ => false end.

(** What one download leaves in the trace: pauses, requests, log lines,
    the two file operations, and events of the kinds warn, error, dryrun
    and download. *)
Definition is_download_effect (e : Effect) : bool :=
  match e with
  | Sleep _ | HttpGet _ | Log _ _ | Mkdir _ | WriteBytes _ _ => true
  | Emit k _ => S.member k ["warn"; "error"; "dryrun"; "download"]
  | _ => false
  end.

(** [w'] comes after [w] with only effects of the class [P] in between. *)
Definition extends (P : Effect -> bool) (w w' : World) : Prop :=
  exists es, trace w' = trace w ++ es /\ Forall (fun e => P e = true) es.

(** Every node of the tree of [w] is in the tree of [w'], unchanged. *)
Definition only_adds (w w' : World) : Prop :=
  forall q x, FS.node (fs w) q = Some x -> FS.node (fs w') q = Some x.

(** The progress events of the download stage in a trace: done and
    total. *)
Definition progress_of (es : list Effect) : list (nat * nat) :=
  flat_map (fun e => match e with
                     | Emit k (MProgress d t) =>
                         if String.eqb k "progress" then [(d, t)] else []
                     | _ => []
                     end) es.

(** Any effect but the final event. *)
Definition is_not_done (e : Effect) : bool := negb (is_done e).

(** One stretch of a job: no final event in between, the file tree only
    grows, and in a dry run ([dry]) it stays as it is. *)
Definition job_step (dry : bool) (w w' : World) : Prop :=
  extends is_not_done w w' /\ only_adds w w' /\ (dry = true -> fs w' = fs w).

(** The messages a trace puts in the queue of the job, in order. *)
Definition emitted (es : list Effect) : list Stream.Poll :=
  flat_map (fun e => match e with
                     | Emit k m => [Stream.Got k m]
                     | _ => []
                     end) es.

(** A round that neither ends the stream nor is its last message. *)
Definition goes_on (p : Stream.Poll) : bool :=
  match p with
  | Stream.NoQueue => true
  | Stream.Got k _ => negb (String.eqb k "done")
  | Stream.Empty active => active
  end.

(** What the generator does in a round that goes on. *)
Definition step_of (p : Stream.Poll) : Stream.Step :=
  match p with
  | Stream.NoQueue => Stream.Pause 100
  | Stream.Got k m => Stream.Data k m
  | Stream.Empty _ => Stream.Ping
  end.

(** The first element for each key, in order; [seen] holds the keys that
    are taken already. *)
Fixpoint first_of_each {A} (key : A -> string) (seen : list string) (l : list A)
  : list A :=
  match l with
  | [] => []
  | x :: r => if S.member (key x) seen then first_of_each key seen r
              else x :: first_of_each key (key x :: seen) r
  end.

(** The anchors an index loop takes: candidates whose labels pass the
    two filter tests. *)
Definition taken (urljoin : string -> string -> string) (gp yp : string -> bool)
    (a : Anchor) : bool :=
  candidate urljoin a
  && gp (es_grade (session_of urljoin a))
  && yp (es_year (session_of urljoin a)).

(** The anchors a session loop keeps: those with a document extension. *)
Definition is_doc (url_path path_suffix : string -> string) (a : Anchor) : bool :=
  S.member (link_ext url_path path_suffix a) doc_exts.

(** A world with one file there already. *)
Definition w_kept : World :=
  {| fs := <[ ["downloads"; "keep.txt"] := File "kept" ]> ∅;
     requests := 0; job_active := true; trace := [] |}.

(** The links of the index page and of the session page of the small
    site. *)
Definition index_links : list Anchor :=
  [ {| a_href := "nsc2023.htm"; a_text := "Grade 12 November 2023" |} ].

Definition session_links : list Anchor :=
  [ {| a_href := "p1.pdf"; a_text := "Maths P1" |};
    {| a_href := "p2.pdf"; a_text := "Maths P2" |} ].

(** The computation returned some value. *)
Definition returned_some {A} (r : (Exc + option A) * World) : bool :=
  match fst r with inr (Some _) => true | _ => false end.

(** ** Vocabulary of the amended properties *)

(** A match of the year pattern that starts at position [n] of [text]:
    its group 1. *)
Definition year_at (text : string) (n : nat) : option (list ascii) :=
  Regex.match_at Regex.year_re
    (match n with O => None | S m => nth_error (chars text) m end)
    (skipn n (chars text)).

(** A world in which the folder of the files of the small site is there
    already. *)
Definition w_made : World :=
  {| fs := <[ ["downloads"; "Grade 12"; "2023"; "Grade 12 November 2023"] := Dir ]>
             (<[ ["downloads"; "Grade 12"; "2023"] := Dir ]>
                (<[ ["downloads"; "Grade 12"] := Dir ]>
                   (<[ ["downloads"] := Dir ]> ∅)));
     requests := 0; job_active := true; trace := [] |}.

(** The paths a trace makes or writes, in order. *)
Definition file_ops (es : list Effect) : list Path :=
  flat_map (fun e => match e with
                     | Mkdir p => [p]
                     | WriteBytes p _ => [p]
                     | _ => []
                     end) es.

(** A path none of whose parts is [..]. *)
Definition no_dotdot (p : Path) : bool := negb (S.member ".." p).

(** What a run from [w] to [w'] has added to the trace. *)
Definition added (w w' : World) : list Effect :=
  skipn (List.length (trace w)) (trace w').

(** The messages among the rounds of the generator. *)
Definition messages (polls : list Stream.Poll) : list Stream.Poll :=
  List.filter (fun p => match p with Stream.Got _ _ => true | _ => false end) polls.

(** The messages among the steps of the generator. *)
Definition passed_on (steps : list Stream.Step) : list Stream.Poll :=
  flat_map (fun s => match s with
                     | Stream.Data k m => [Stream.Got k m]
                     | _ => []
                     end) steps.

(** An idle second in which the job flag is found cleared. *)
Definition idle_stop (p : Stream.Poll) : bool :=
  match p with Stream.Empty active => negb active | _ => false end.

(** A site with two sessions of one paper each. *)
Definition net_two : Net := fun _ url =>
  if String.eqb url INDEX_URL then
    Ok {| r_anchors := [ {| a_href := "nsc2023.htm";
                            a_text := "Grade 12 November 2023" |};
                         {| a_href := "nsc2022.htm";
                            a_text := "Grade 12 November 2022" |} ];
          r_content := "" |}
  else if String.eqb url "https://www.ecexams.co.za/nsc2023.htm" then
    Ok {| r_anchors := [ {| a_href := "p1.pdf"; a_text := "Maths P1" |} ];
          r_content := "" |}
  else if String.eqb url "https://www.ecexams.co.za/nsc2022.htm" then
    Ok {| r_anchors := [ {| a_href := "p2.pdf"; a_text := "Maths P2" |} ];
          r_content := "" |}
  else if String.eqb url Ref.p1_url then
    Ok {| r_anchors := []; r_content := "paper one" |}
  else if String.eqb url Ref.p2_url then
    Ok {| r_anchors := []; r_content := "paper two" |}
  else Failed "404".

(** A world in which a file stands where the year directory of the
    second session would go. *)
Definition w_blocked : World :=
  {| fs := <[ ["downloads"; "Grade 12"; "2022"] := File "notes" ]>
             (<[ ["downloads"; "Grade 12"] := Dir ]>
                (<[ ["downloads"] := Dir ]> ∅));
     requests := 0; job_active := true; trace := [] |}.

(** * Properties *)

(** ** Text *)

Section TextFacts.
Import PyChar.

Lemma chars_str (l : list ascii) : chars (str l) = l.
Proof. apply list_ascii_of_string_of_list_ascii. Qed.

Lemma str_chars (s : string) : str (chars s) = s.
Proof. apply string_of_list_ascii_of_string. Qed.

Lemma str_inj (a b : list ascii) : str a = str b -> a = b.
Proof.
  intros H. rewrite <- (chars_str a), <- (chars_str b). now rewrite H.
Qed.

Lemma length_chars (s : string) : List.length (chars s) = String.length s.
Proof. induction s as [|c s IH]; simpl; [reflexivity | now rewrite IH]. Qed.

Lemma chars_append (a b : string) :
  chars (String.append a b) = chars a ++ chars b.
Proof. induction a as [|c a IH]; simpl; [reflexivity | now rewrite IH]. Qed.

Lemma lstrip_head (l : list ascii) : starts_ws (lstrip l) = false.
Proof.
  induction l as [|c r IH]; simpl; [reflexivity|].
  destruct (isspace c) eqn:E; [exact IH | simpl; exact E].
Qed.

Lemma lstrip_id (l : list ascii) : starts_ws l = false -> lstrip l = l.
Proof. destruct l as [|c r]; simpl; [reflexivity | now intros ->]. Qed.

Lemma lstrip_fixed (l : list ascii) : lstrip l = l -> starts_ws l = false.
Proof. intros <-. apply lstrip_head. Qed.

(** [lstrip] leaves a tail of the text. *)
Lemma lstrip_tail (l : list ascii) : exists a, l = a ++ lstrip l.
Proof.
  induction l as [|c r [a IH]]; simpl; [now exists []|].
  destruct (isspace c).
  - exists (c :: a). simpl. now rewrite <- IH.
  - now exists [].
Qed.

(** [rstrip] leaves a head of the text. *)
Lemma rstrip_head (l : list ascii) : exists t, l = rstrip l ++ t.
Proof.
  unfold rstrip. destruct (lstrip_tail (rev l)) as [a Ha].
  exists (rev a). rewrite <- rev_app_distr, <- Ha. now rewrite rev_involutive.
Qed.

Lemma starts_ws_head (p t : list ascii) :
  starts_ws (p ++ t) = false -> starts_ws p = false.
Proof. destruct p; simpl; auto. Qed.

Lemma ws_normal_weaken (b : bool) (l : list ascii) :
  ws_normal b l -> ws_normal false l.
Proof.
  destruct l as [|c r]; simpl; [auto|].
  destruct (isspace c); [intros (? & ? & ?); auto | auto].
Qed.

Lemma ws_normal_tail (a l : list ascii) (b : bool) :
  ws_normal b (a ++ l) -> ws_normal false l.
Proof.
  revert b. induction a as [|c a IH]; simpl; intros b H.
  - eapply ws_normal_weaken; eauto.
  - destruct (isspace c); [destruct H as (_ & _ & H)|]; eauto.
Qed.

Lemma ws_normal_head (a l : list ascii) (b : bool) :
  ws_normal b (a ++ l) -> ws_normal b a.
Proof.
  revert b. induction a as [|c a IH]; simpl; intros b H; [exact I|].
  destruct (isspace c); [destruct H as (? & ? & H); eauto | eauto].
Qed.

Lemma sub_ws_from_normal (b : bool) (l : list ascii) :
  ws_normal b (Regex.sub_ws_from b l).
Proof.
  revert b. induction l as [|c r IH]; intros b; simpl; [exact I|].
  destruct (isspace c) eqn:E.
  - destruct b; [apply IH|]. simpl.
    change (isspace space) with true. simpl. auto.
  - simpl. rewrite E. apply IH.
Qed.

Lemma sub_ws_from_id (b : bool) (l : list ascii) :
  ws_normal b l -> Regex.sub_ws_from b l = l.
Proof.
  revert b. induction l as [|c r IH]; intros b; simpl; [reflexivity|].
  destruct (isspace c).
  - intros (-> & -> & H). now rewrite IH.
  - intros H. now rewrite IH.
Qed.

Lemma sub_ws_from_Forall (P : ascii -> Prop) (b : bool) (l : list ascii) :
  P space -> Forall P l -> Forall P (Regex.sub_ws_from b l).
Proof.
  intros Hs H. revert b. induction H as [|c r Hc Hr IH]; intros b; simpl.
  - constructor.
  - destruct (isspace c); [destruct b|]; auto.
Qed.

Lemma Forall_head {A} (P : A -> Prop) (a b : list A) :
  Forall P (a ++ b) -> Forall P a.
Proof. rewrite Forall_app. tauto. Qed.

Lemma Forall_tail {A} (P : A -> Prop) (a b : list A) :
  Forall P (a ++ b) -> Forall P b.
Proof. rewrite Forall_app. tauto. Qed.

(** [strip] leaves a middle piece of the text. *)
Lemma strip_middle (l : list ascii) : exists a t, l = a ++ strip l ++ t.
Proof.
  unfold strip. destruct (lstrip_tail l) as [a Ha].
  destruct (rstrip_head (lstrip l)) as [t Ht].
  exists a, t. now rewrite <- Ht.
Qed.

Lemma strip_starts (l : list ascii) : starts_ws (strip l) = false.
Proof.
  unfold strip. destruct (rstrip_head (lstrip l)) as [t Ht].
  apply starts_ws_head with t. rewrite <- Ht. apply lstrip_head.
Qed.

Lemma sub_illegal_legal (l : list ascii) : Forall legal (Regex.sub_illegal l).
Proof.
  unfold Regex.sub_illegal. apply List.Forall_forall. intros c Hc.
  apply List.filter_In in Hc. destruct Hc as [_ Hc].
  unfold legal. now destruct (illegal c).
Qed.

Lemma sub_illegal_id (l : list ascii) : Forall legal l -> Regex.sub_illegal l = l.
Proof.
  unfold Regex.sub_illegal. induction 1 as [|c r Hc Hr IH]; simpl; [reflexivity|].
  unfold legal in Hc. rewrite Hc. simpl. now rewrite IH.
Qed.

(** What the sanitiser returns: no illegal character, whitespace as
    single spaces, none in front, at most 120 characters. *)
Lemma sanitise_chars_shape (l : list ascii) :
  let y := sanitise_chars l in
  Forall legal y /\ ws_normal false y /\ starts_ws y = false
  /\ (List.length y <= 120)%nat.
Proof.
  unfold sanitise_chars.
  set (z := Regex.sub_ws (Regex.sub_illegal l)).
  assert (Hz1 : Forall legal z)
    by (apply sub_ws_from_Forall; [reflexivity | apply sub_illegal_legal]).
  assert (Hz2 : ws_normal false z) by apply sub_ws_from_normal.
  destruct (strip_middle z) as (a & t & Hz).
  assert (Hs1 : Forall legal (strip z)).
  { rewrite Hz in Hz1. apply Forall_tail in Hz1. now apply Forall_head in Hz1. }
  assert (Hs2 : ws_normal false (strip z)).
  { rewrite Hz in Hz2. apply ws_normal_tail in Hz2.
    now apply ws_normal_head in Hz2. }
  pose proof (strip_starts z) as Hs3.
  pose proof (firstn_skipn 120 (strip z)) as Hcut.
  repeat split.
  - rewrite <- Hcut in Hs1. now apply Forall_head in Hs1.
  - rewrite <- Hcut in Hs2. now apply ws_normal_head in Hs2.
  - rewrite <- Hcut in Hs3. now apply starts_ws_head in Hs3.
  - apply List.firstn_le_length.
Qed.

(** A second pass only strips a space the cut to 120 has left at the
    end. *)
Lemma sanitise_chars_twice (l : list ascii) :
  sanitise_chars (sanitise_chars l) = rstrip (sanitise_chars l).
Proof.
  destruct (sanitise_chars_shape l) as (H1 & H2 & H3 & H4).
  set (y := sanitise_chars l) in *.
  unfold sanitise_chars at 1.
  rewrite (sub_illegal_id y H1). unfold Regex.sub_ws.
  rewrite (sub_ws_from_id false y H2). unfold strip.
  rewrite (lstrip_id y H3).
  apply List.firstn_all2.
  destruct (rstrip_head y) as [t Ht].
  apply (f_equal (@List.length ascii)) in Ht. rewrite List.length_app in Ht. lia.
Qed.

Lemma rstrip_id (l : list ascii) : starts_ws (rev l) = false -> rstrip l = l.
Proof. intros H. unfold rstrip. rewrite lstrip_id by exact H. apply rev_involutive. Qed.

Lemma rstrip_fixed (l : list ascii) : rstrip l = l -> starts_ws (rev l) = false.
Proof.
  unfold rstrip. intros H. apply (f_equal (@rev ascii)) in H.
  rewrite rev_involutive in H. now apply lstrip_fixed.
Qed.

Lemma ws_normal_In (b : bool) (l : list ascii) (c : ascii) :
  ws_normal b l -> In c l -> isspace c = true -> c = space.
Proof.
  revert b. induction l as [|d r IH]; simpl; intros b H Hin Hc; [tauto|].
  destruct Hin as [->|Hin].
  - rewrite Hc in H. tauto.
  - destruct (isspace d); [destruct H as (_ & _ & H)|]; eauto.
Qed.

(** In sanitised text, ending in whitespace is ending in a space. *)
Lemma ends_space (l : list ascii) :
  ws_normal false l ->
  starts_ws (rev l) = PyStr.endswith (chars " ") l.
Proof.
  intros H. unfold PyStr.endswith, PyStr.startswith.
  change (rev (chars " ")) with [space].
  destruct (rev l) as [|c r] eqn:E; [reflexivity|].
  cbn [starts_ws strip_prefix].
  destruct (Ascii.eqb_spec space c) as [<-|Hne]; [reflexivity|].
  destruct (isspace c) eqn:Ec; [|reflexivity].
  exfalso. apply Hne. symmetry.
  eapply ws_normal_In; eauto. apply List.in_rev. rewrite E. now left.
Qed.

End TextFacts.

(** ** The name sanitiser *)

Lemma sanitise_twice (x : string) :
  sanitise (sanitise x) = str (rstrip (sanitise_chars (chars x))).
Proof.
  unfold sanitise. rewrite chars_str. now rewrite sanitise_chars_twice.
Qed.

Lemma sanitise_ends_space (x : string) :
  S.endswith (sanitise x) " " = starts_ws (rev (sanitise_chars (chars x))).
Proof.
  unfold S.endswith, sanitise. rewrite chars_str. symmetry.
  apply ends_space. apply sanitise_chars_shape.
Qed.

(** A second pass changes the name exactly when the first one ends in a
    space. *)
Lemma sanitise_fixed_only_without_space (x : string) :
  sanitise (sanitise x) = sanitise x -> S.endswith (sanitise x) " " = false.
Proof.
  rewrite sanitise_twice, sanitise_ends_space. unfold sanitise at 1.
  intros H. apply str_inj in H. now apply rstrip_fixed.
Qed.

(** Nothing is cut from a cleaned text of at most 120 characters, so the
    name does not end in a space. *)
Lemma sanitise_short_no_space (x : string) :
  (List.length (cleaned x) <= 120)%nat -> S.endswith (sanitise x) " " = false.
Proof.
  intros H. rewrite sanitise_ends_space. unfold sanitise_chars.
  fold (cleaned x). rewrite List.firstn_all2 by exact H.
  unfold cleaned, strip, rstrip. rewrite rev_involutive. apply lstrip_head.
Qed.

(** C4, as stated, fails: the cut to 120 characters leaves a space at the
    end of [long_name], and a second pass strips it. *)
Lemma sanitise_not_idempotent :
  sanitise (sanitise long_name) <> sanitise long_name.
Proof.
  intros H. apply (f_equal String.length) in H. vm_compute in H. discriminate H.
Qed.

(** C4, amended: for every input whose sanitised name does not end in a
    space (as is the case whenever the cleaned text has at most 120
    characters), sanitising the sanitised name gives the same name. *)
Theorem sanitise_idempotent_without_cut_space (x : string) :
  S.endswith (sanitise x) " " = false ->
  sanitise (sanitise x) = sanitise x.
Proof.
  intros H. rewrite sanitise_twice. unfold sanitise. f_equal.
  apply rstrip_id. now rewrite <- sanitise_ends_space.
Qed.

Lemma sanitise_idempotent_without_cut_space_witness :
  S.endswith (sanitise "  a/b   c?  ") " " = false
  /\ sanitise (sanitise "  a/b   c?  ") = sanitise "  a/b   c?  ".
Proof.
  split; [reflexivity|].
  apply (sanitise_idempotent_without_cut_space "  a/b   c?  "). reflexivity.
Defined.

(** ** The index extractor *)

Lemma session_of_year_eq (urljoin : string -> string -> string) (a : Anchor) :
  (if negb (String.eqb (detect_year (a_text a)) "Unknown Year")
   then detect_year (a_text a) else detect_year (S.strip (a_href a)))
  = es_year (session_of urljoin a).
Proof.
  unfold session_of, session_year. simpl.
  now destruct (String.eqb (detect_year (a_text a)) "Unknown Year").
Qed.

Section IndexFacts.
Variable urljoin : string -> string -> string.

Lemma app_index_step_round gfs yfs ss a :
  App.index_step urljoin gfs yfs ss a
  = index_round urljoin (App.grade_passes gfs) (App.year_passes yfs) ss a.
Proof.
  unfold App.index_step, index_round, candidate, App._year, App._grade,
    App._sanitise. cbv zeta.
  rewrite (session_of_year_eq urljoin a).
  change (detect_grade _) with (es_grade (session_of urljoin a)).
  change (urljoin BASE_URL (S.strip (a_href a)))
    with (es_url (session_of urljoin a)).
  destruct (existsb _ skipped_prefixes); [reflexivity|].
  destruct (S.endswith _ _); [|reflexivity].
  destruct (String.eqb _ INDEX_URL); [reflexivity|].
  destruct (negb (S.truthy _) || _); [reflexivity|].
  destruct (App.grade_passes _ _); [|reflexivity].
  destruct (App.year_passes _ _); [|reflexivity].
  destruct (existsb _ ss); reflexivity.
Qed.

Lemma scraper_index_step_round gf yf ss a :
  Scraper.index_step urljoin gf yf ss a
  = index_round urljoin (Scraper.grade_passes gf) (Scraper.year_passes yf) ss a.
Proof.
  unfold Scraper.index_step, index_round, candidate. cbv zeta.
  rewrite (session_of_year_eq urljoin a).
  change (detect_grade _) with (es_grade (session_of urljoin a)).
  change (urljoin BASE_URL (S.strip (a_href a)))
    with (es_url (session_of urljoin a)).
  destruct (existsb _ skipped_prefixes); [reflexivity|].
  destruct (S.endswith _ _); [|reflexivity].
  destruct (String.eqb _ INDEX_URL); [reflexivity|].
  destruct (negb (S.truthy _) || _); [reflexivity|].
  destruct (Scraper.grade_passes _ _); [|reflexivity].
  destruct (Scraper.year_passes _ _); [|reflexivity].
  destruct (existsb _ ss); reflexivity.
Qed.

Section Rounds.
Variables gp yp : string -> bool.

Lemma index_round_in ss a s :
  In s (index_round urljoin gp yp ss a) ->
  In s ss
  \/ (s = session_of urljoin a /\ candidate urljoin a = true
      /\ gp (es_grade s) = true /\ yp (es_year s) = true).
Proof.
  unfold index_round. cbv zeta.
  destruct (candidate urljoin a); [|auto].
  destruct (gp _) eqn:Hg; [|auto].
  destruct (yp _) eqn:Hy; [|auto].
  destruct (negb _); [|auto]. simpl.
  intros H. apply List.in_app_or in H. destruct H as [H|[<-|[]]]; auto.
Qed.

Lemma index_round_keeps ss a s : In s ss -> In s (index_round urljoin gp yp ss a).
Proof.
  unfold index_round. cbv zeta. intros H.
  destruct (_ && _); [apply List.in_or_app|]; auto.
Qed.

Lemma index_round_takes ss a :
  candidate urljoin a = true ->
  gp (es_grade (session_of urljoin a)) = true ->
  yp (es_year (session_of urljoin a)) = true ->
  exists s, In s (index_round urljoin gp yp ss a)
            /\ es_url s = es_url (session_of urljoin a).
Proof.
  intros Hc Hg Hy. unfold index_round. cbv zeta. rewrite Hc, Hg, Hy. simpl.
  destruct (existsb _ ss) eqn:E; simpl.
  - apply List.existsb_exists in E. destruct E as (s & Hs & E).
    apply String.eqb_eq in E. eauto.
  - exists (session_of urljoin a). split; [|reflexivity].
    apply List.in_or_app. right. now left.
Qed.

Lemma index_rounds_keep anchors ss s :
  In s ss -> In s (index_rounds urljoin gp yp anchors ss).
Proof.
  unfold index_rounds. revert ss.
  induction anchors as [|a r IH]; simpl; intros ss H; [exact H|].
  apply IH. now apply index_round_keeps.
Qed.

Lemma index_rounds_in anchors ss s :
  In s (index_rounds urljoin gp yp anchors ss) ->
  In s ss
  \/ exists a, In a anchors /\ s = session_of urljoin a
               /\ candidate urljoin a = true
               /\ gp (es_grade s) = true /\ yp (es_year s) = true.
Proof.
  unfold index_rounds. revert ss.
  induction anchors as [|a r IH]; simpl; intros ss H; [auto|].
  apply IH in H. destruct H as [H|(b & Hb & H)].
  - apply index_round_in in H. destruct H as [H|H]; [auto|].
    right. exists a. tauto.
  - right. exists b. tauto.
Qed.

Lemma index_rounds_take anchors ss a :
  In a anchors ->
  candidate urljoin a = true ->
  gp (es_grade (session_of urljoin a)) = true ->
  yp (es_year (session_of urljoin a)) = true ->
  exists s, In s (index_rounds urljoin gp yp anchors ss)
            /\ es_url s = es_url (session_of urljoin a).
Proof.
  unfold index_rounds. revert ss.
  induction anchors as [|b r IH]; simpl; intros ss Hin Hc Hg Hy; [tauto|].
  destruct Hin as [->|Hin]; [|now apply IH].
  destruct (index_round_takes ss a Hc Hg Hy) as (s & Hs & E).
  exists s. split; [|exact E]. now apply index_rounds_keep.
Qed.

End Rounds.

Lemma app_index_loop_rounds gfs yfs anchors :
  App.index_loop urljoin gfs yfs anchors
  = index_rounds urljoin (App.grade_passes gfs) (App.year_passes yfs) anchors [].
Proof.
  unfold App.index_loop, index_rounds. generalize (@nil ExamSession).
  induction anchors as [|a r IH]; simpl; intros ss; [reflexivity|].
  now rewrite app_index_step_round, IH.
Qed.

Lemma scraper_index_loop_rounds gf yf anchors :
  Scraper.index_loop urljoin gf yf anchors
  = index_rounds urljoin (Scraper.grade_passes gf) (Scraper.year_passes yf) anchors [].
Proof.
  unfold Scraper.index_loop, index_rounds. generalize (@nil ExamSession).
  induction anchors as [|a r IH]; simpl; intros ss; [reflexivity|].
  now rewrite scraper_index_step_round, IH.
Qed.

Lemma app_index_loop_in gfs yfs anchors s :
  In s (App.index_loop urljoin gfs yfs anchors) ->
  exists a, In a anchors /\ s = session_of urljoin a
            /\ candidate urljoin a = true
            /\ App.grade_passes gfs (es_grade s) = true
            /\ App.year_passes yfs (es_year s) = true.
Proof.
  rewrite app_index_loop_rounds. intros H.
  apply index_rounds_in in H. destruct H as [[]|H]. exact H.
Qed.

Lemma scraper_index_loop_in gf yf anchors s :
  In s (Scraper.index_loop urljoin gf yf anchors) ->
  exists a, In a anchors /\ s = session_of urljoin a
            /\ candidate urljoin a = true
            /\ Scraper.grade_passes gf (es_grade s) = true
            /\ Scraper.year_passes yf (es_year s) = true.
Proof.
  rewrite scraper_index_loop_rounds. intros H.
  apply index_rounds_in in H. destruct H as [[]|H]. exact H.
Qed.

End IndexFacts.

(** ** The two patterns *)

Section RegexFacts.
Import PyChar.

Lemma span_parts (f : ascii -> bool) (l : list ascii) :
  l = fst (span f l) ++ snd (span f l).
Proof.
  induction l as [|c r IH]; [reflexivity|]. cbn [span].
  destruct (f c); [|reflexivity].
  destruct (span f r) as [a b]. cbn [fst snd] in *. now rewrite IH at 1.
Qed.

Lemma span_cons_true (f : ascii -> bool) (c : ascii) (r : list ascii) :
  f c = true ->
  span f (c :: r) = (c :: fst (span f r), snd (span f r)).
Proof. intros H. cbn [span]. rewrite H. now destruct (span f r). Qed.

Lemma span_cons_false (f : ascii -> bool) (c : ascii) (r : list ascii) :
  f c = false -> span f (c :: r) = ([], c :: r).
Proof. intros H. cbn [span]. now rewrite H. Qed.

(** A greedy repetition before a rest that always matches takes the whole
    run of the class. *)
Lemma star_greedy (f : ascii -> bool) (K : Regex.Cont)
    (k : list ascii -> option (list ascii)) prev l cap :
  (forall p t c, K p t c = k t) ->
  (forall t, k t <> None) ->
  Regex.star f prev l cap K = k (snd (span f l)).
Proof.
  intros HK Hk. revert prev. induction l as [|c r IH]; intros prev.
  - cbn. apply HK.
  - cbn [Regex.star]. destruct (f c) eqn:E.
    + rewrite IH, span_cons_true by exact E. cbn [snd].
      destruct (k (snd (span f r))) eqn:Ek; [reflexivity|]. now apply Hk in Ek.
    + rewrite span_cons_false by exact E. apply HK.
Qed.

(** A greedy repetition before a rest that cannot start in the class takes
    the whole run of the class as well. *)
Lemma star_skip (f : ascii -> bool) (K : Regex.Cont)
    (k : list ascii -> option (list ascii)) prev l cap :
  (forall p t c, K p t c = k t) ->
  (forall c t, f c = true -> k (c :: t) = None) ->
  Regex.star f prev l cap K = k (snd (span f l)).
Proof.
  intros HK Hk. revert prev. induction l as [|c r IH]; intros prev.
  - cbn. apply HK.
  - cbn [Regex.star]. destruct (f c) eqn:E.
    + rewrite IH, span_cons_true by exact E. cbn [snd].
      rewrite HK, (Hk c r E). now destruct (k (snd (span f r))).
    + rewrite span_cons_false by exact E. apply HK.
Qed.

Lemma digits_run prev l cap :
  Regex.run (Regex.Grp (Regex.Cat (Regex.Cls isdecimal) (Regex.Star isdecimal)))
            prev l cap (fun _ _ cap => Some (default [] cap))
  = Direct.digits_at l.
Proof.
  unfold Direct.digits_at. destruct l as [|x t]; [reflexivity|].
  cbn [Regex.run]. destruct (isdecimal x) eqn:E.
  - rewrite span_cons_true by exact E. cbn [fst].
    rewrite (star_greedy isdecimal _
               (fun t' => Some (firstn (List.length (x :: t) - List.length t') (x :: t))))
      by (intros; first [reflexivity | discriminate]).
    f_equal. pose proof (span_parts isdecimal t) as Ht.
    set (a := fst (span isdecimal t)) in *. set (b := snd (span isdecimal t)) in *.
    rewrite Ht at 1 2. cbn [List.length]. rewrite List.length_app.
    replace (S (List.length a + List.length b) - List.length b)%nat
      with (S (List.length a)) by lia.
    cbn [firstn]. f_equal. rewrite List.firstn_app, List.firstn_all.
    replace (List.length a - List.length a)%nat with 0%nat by lia.
    cbn [firstn]. apply List.app_nil_r.
  - now rewrite span_cons_false by exact E.
Qed.

Lemma space_not_digit (c : ascii) : isspace c = true -> isdecimal c = false.
Proof.
  destruct c as [[] [] [] [] [] [] [] []]; vm_compute; congruence.
Qed.

Lemma ws_run prev l cap :
  Regex.run (Regex.Cat (Regex.Star isspace)
               (Regex.Grp (Regex.Cat (Regex.Cls isdecimal) (Regex.Star isdecimal))))
            prev l cap (fun _ _ cap => Some (default [] cap))
  = Direct.after_ws l.
Proof.
  cbn [Regex.run]. unfold Direct.after_ws.
  apply star_skip with (k := Direct.digits_at).
  - intros p t c. apply (digits_run p t c).
  - intros c t Hc. unfold Direct.digits_at.
    now rewrite span_cons_false by (now apply space_not_digit).
Qed.

Lemma after_ws_stuck (c : ascii) (t : list ascii) :
  isspace c = false -> isdecimal c = false -> Direct.after_ws (c :: t) = None.
Proof.
  intros H1 H2. unfold Direct.after_ws, Direct.digits_at.
  rewrite (span_cons_false isspace) by exact H1. cbn [snd].
  now rewrite span_cons_false by exact H2.
Qed.

Lemma dot_run prev l cap :
  Regex.run (Regex.Cat (Regex.Opt (Regex.Chr "."))
               (Regex.Cat (Regex.Star isspace)
                  (Regex.Grp (Regex.Cat (Regex.Cls isdecimal) (Regex.Star isdecimal)))))
            prev l cap (fun _ _ cap => Some (default [] cap))
  = Direct.after_dot l.
Proof.
  cbn [Regex.run]. unfold Direct.after_dot, Direct.opt_literal.
  change (Regex.star isspace ?p ?t ?c ?k)
    with (Regex.run (Regex.Cat (Regex.Star isspace)
                       (Regex.Grp (Regex.Cat (Regex.Cls isdecimal)
                                             (Regex.Star isdecimal))))
                    p t c (fun _ _ cap => Some (default [] cap))).
  destruct l as [|x t]; [now rewrite ws_run|].
  cbn [strip_prefix chars list_ascii_of_string].
  rewrite (Ascii.eqb_sym "." x).
  destruct (Ascii.eqb_spec x ".") as [->|Hne].
  - rewrite !ws_run. rewrite (after_ws_stuck "." t) by reflexivity.
    now destruct (Direct.after_ws t).
  - now rewrite ws_run.
Qed.

Lemma after_dot_stuck (c : ascii) (t : list ascii) :
  c <> "."%char -> isspace c = false -> isdecimal c = false ->
  Direct.after_dot (c :: t) = None.
Proof.
  intros H0 H1 H2. unfold Direct.after_dot, Direct.opt_literal.
  cbn [strip_prefix chars list_ascii_of_string].
  destruct (Ascii.eqb_spec "." c) as [E|_]; [congruence|].
  now apply after_ws_stuck.
Qed.

Lemma ade_run prev l cap :
  Regex.run (Regex.Cat (Regex.Opt (Regex.lit (chars "ade")))
               (Regex.Cat (Regex.Opt (Regex.Chr "."))
                  (Regex.Cat (Regex.Star isspace)
                     (Regex.Grp (Regex.Cat (Regex.Cls isdecimal)
                                           (Regex.Star isdecimal))))))
            prev l cap (fun _ _ cap => Some (default [] cap))
  = Direct.after_ade l.
Proof.
  set (R := Regex.Cat (Regex.Opt (Regex.Chr "."))
              (Regex.Cat (Regex.Star isspace)
                 (Regex.Grp (Regex.Cat (Regex.Cls isdecimal) (Regex.Star isdecimal))))).
  assert (HR : forall p t c,
             Regex.run R p t c (fun _ _ cap => Some (default [] cap)) = Direct.after_dot t)
    by (intros; apply dot_run).
  cbn [Regex.run Regex.lit chars list_ascii_of_string].
  unfold Direct.after_ade, Direct.opt_literal.
  cbn [strip_prefix chars list_ascii_of_string].
  destruct l as [|x1 t1]; [now rewrite HR|].
  rewrite (Ascii.eqb_sym "a" x1).
  destruct (Ascii.eqb_spec x1 "a") as [->|Hne]; [|now rewrite HR].
  assert (Hstuck : Direct.after_dot ("a"%char :: t1) = None)
    by (apply after_dot_stuck; [discriminate | reflexivity | reflexivity]).
  destruct t1 as [|x2 t2]; [now rewrite HR, Hstuck|].
  rewrite (Ascii.eqb_sym "d" x2).
  destruct (Ascii.eqb_spec x2 "d") as [->|Hne]; [|now rewrite HR, Hstuck].
  destruct t2 as [|x3 t3]; [now rewrite HR, Hstuck|].
  rewrite (Ascii.eqb_sym "e" x3).
  destruct (Ascii.eqb_spec x3 "e") as [->|Hne]; [|now rewrite HR, Hstuck].
  rewrite !HR, Hstuck. now destruct (Direct.after_dot t3).
Qed.

(** The backtracking matcher and the direct reading of the grade pattern
    agree. *)
Lemma match_grade_direct prev l :
  Regex.match_at Regex.grade_re prev l = Direct.match_grade_at l.
Proof.
  unfold Regex.match_at, Regex.grade_re, Direct.match_grade_at.
  set (R := Regex.Cat (Regex.Opt (Regex.lit (chars "ade"))) _).
  assert (HR : forall p t c,
             Regex.run R p t c (fun _ _ cap => Some (default [] cap)) = Direct.after_ade t)
    by (intros; apply ade_run).
  cbn [Regex.run Regex.lit chars list_ascii_of_string strip_prefix].
  destruct l as [|x1 t1]; [reflexivity|].
  rewrite (Ascii.eqb_sym "g" x1).
  destruct (Ascii.eqb x1 "g"); [|reflexivity].
  destruct t1 as [|x2 t2]; [reflexivity|].
  rewrite (Ascii.eqb_sym "r" x2).
  destruct (Ascii.eqb x2 "r"); [|reflexivity].
  rewrite HR. reflexivity.
Qed.

Lemma search_grade_direct prev l :
  Regex.search Regex.grade_re prev l = Direct.search_grade l.
Proof.
  revert prev. induction l as [|c r IH]; intros prev;
    cbn [Regex.search Direct.search_grade]; rewrite match_grade_direct.
  - reflexivity.
  - now rewrite IH.
Qed.

(** The same for the year pattern. *)
Lemma match_year_direct prev l :
  Regex.match_at Regex.year_re prev l = Direct.match_year_at prev l.
Proof.
  unfold Regex.match_at, Regex.year_re, Direct.match_year_at.
  cbn [Regex.run Regex.lit chars list_ascii_of_string].
  destruct l as [|c1 [|c2 [|c3 [|c4 rest]]]]; cbn [head];
    try (destruct (Regex.word_boundary prev _); try reflexivity;
         repeat match goal with
                | |- context [if ?b then _ else _] => destruct b; try reflexivity
                end; fail).
  destruct (Regex.word_boundary prev (Some c1)); [|reflexivity].
  destruct (Ascii.eqb c1 "2"); [|reflexivity].
  destruct (Ascii.eqb c2 "0"); [|reflexivity].
  destruct (isdecimal c3); [|reflexivity].
  destruct (isdecimal c4); [|reflexivity].
  destruct (Regex.word_boundary (Some c4) (head rest)); [|reflexivity].
  cbn [andb List.length default]. do 2 f_equal.
  replace (S (S (S (S (List.length rest)))) - List.length rest)%nat with 4%nat by lia.
  reflexivity.
Qed.

Lemma search_year_direct prev l :
  Regex.search Regex.year_re prev l = Direct.search_year prev l.
Proof.
  revert prev. induction l as [|c r IH]; intros prev;
    cbn [Regex.search Direct.search_year]; rewrite match_year_direct.
  - reflexivity.
  - now rewrite IH.
Qed.

End RegexFacts.

(** ** The classifier *)

Lemma lower_append (a b : string) :
  PyStr.lower (chars (String.append a b))
  = PyStr.lower (chars a) ++ PyStr.lower (chars b).
Proof. rewrite chars_append. apply List.map_app. Qed.

Lemma grade_of_gec (href : string) :
  Regex.search_grade (PyStr.lower (chars href)) = None ->
  session_grade "GEC November Paper" href = "Grade 9 (GEC)".
Proof.
  intros H. unfold session_grade, detect_grade.
  rewrite !lower_append.
  change (PyStr.lower (chars "GEC November Paper"))
    with (chars "gec november paper").
  change (PyStr.lower (chars " ")) with (chars " ").
  unfold Regex.search_grade in *. rewrite search_grade_direct in *.
  assert (E : Direct.search_grade
                (chars "gec november paper" ++ chars " " ++ PyStr.lower (chars href))
              = Direct.search_grade (PyStr.lower (chars href))) by reflexivity.
  rewrite E, H. reflexivity.
Qed.

Lemma grade_other (text : string) :
  grade_signal text = false -> detect_grade text = "Other".
Proof.
  unfold grade_signal, detect_grade. cbv zeta. intros H.
  repeat (apply orb_false_iff in H; destruct H as [H ?]).
  destruct (Regex.search_grade _) as [g|].
  - apply bool_decide_eq_false in H. exfalso. apply H. now exists g.
  - repeat match goal with E : _ = false |- _ => rewrite E; clear E end.
    reflexivity.
Qed.

(** C7, as stated, fails: the target [gec2021.htm] contains 2021, but glued
    to letters, where the year pattern finds no year: the session gets
    Unknown Year. *)
Lemma year_in_href_not_found :
  S.contains "2021" "gec2021.htm" = true
  /\ App.index_loop Ref.urljoin [] []
       [ {| a_href := "gec2021.htm"; a_text := "GEC November Paper" |} ]
     = [ {| es_url := "https://www.ecexams.co.za/gec2021.htm";
            es_title := "GEC November Paper";
            es_grade := "Grade 9 (GEC)";
            es_year := "Unknown Year" |} ].
Proof. split; reflexivity. Qed.

(** [re.search] gives the match at a position when the pattern matches
    at no position before it; the character before position [n] is the one
    the word boundary looks at. *)
Lemma search_leftmost (r : Regex.re) (n : nat) :
  forall (prev : option ascii) (l g : list ascii),
    (n <= List.length l)%nat ->
    Regex.match_at r (match n with O => prev | S m => nth_error l m end) (skipn n l)
    = Some g ->
    (forall m, (m < n)%nat ->
       Regex.match_at r (match m with O => prev | S k => nth_error l k end) (skipn m l)
       = None) ->
    Regex.search r prev l = Some g.
Proof.
  induction n as [|n IH]; intros prev l g Hn Hm Hlt.
  - change (skipn 0 l) with l in Hm. destruct l; cbn [Regex.search]; now rewrite Hm.
  - destruct l as [|c t]; [cbn in Hn; lia|].
    assert (H0 : Regex.match_at r prev (c :: t) = None)
      by (apply (Hlt 0%nat); lia).
    cbn [Regex.search]. rewrite H0.
    apply IH.
    + cbn in Hn. lia.
    + cbn [skipn] in Hm. destruct n; exact Hm.
    + intros m Hlm. specialize (Hlt (S m)). cbn [skipn] in Hlt.
      destruct m; apply Hlt; lia.
Qed.

(** What [re.search] gives is the match at some position, and the
    pattern matches at no position before it. *)
Lemma search_is_leftmost (r : Regex.re) :
  forall (l : list ascii) (prev : option ascii) (g : list ascii),
    Regex.search r prev l = Some g ->
    exists n,
      Regex.match_at r (match n with O => prev | S m => nth_error l m end) (skipn n l)
      = Some g
      /\ forall m, (m < n)%nat ->
           Regex.match_at r (match m with O => prev | S k => nth_error l k end)
                          (skipn m l)
           = None.
Proof.
  induction l as [|c t IH]; intros prev g H.
  - cbn [Regex.search] in H. exists 0%nat. split; [|intros; lia].
    cbn [skipn]. destruct (Regex.match_at r prev []); congruence.
  - cbn [Regex.search] in H.
    destruct (Regex.match_at r prev (c :: t)) as [g'|] eqn:E.
    + exists 0%nat. split; [|intros; lia]. cbn [skipn]. congruence.
    + destruct (IH _ _ H) as (n & Hn & Hlt). exists (S n). split.
      * cbn [skipn]. destruct n; exact Hn.
      * intros [|m] Hm; [exact E|]. cbn [skipn].
        specialize (Hlt m). destruct m; apply Hlt; lia.
Qed.

Lemma year_at_in_range (text : string) (n : nat) (y : list ascii) :
  year_at text n = Some y -> (n <= List.length (chars text))%nat.
Proof.
  unfold year_at. intros H.
  destruct (Nat.le_gt_cases n (List.length (chars text))) as [|Hgt]; [assumption|].
  rewrite List.skipn_all2 in H by lia.
  rewrite match_year_direct in H. discriminate H.
Qed.

(** The year [detect_year] finds is the one of the leftmost match. *)
Lemma detect_year_leftmost (text : string) (y : list ascii) :
  (exists n, year_at text n = Some y
             /\ forall m, (m < n)%nat -> year_at text m = None)
  <-> Regex.search_year (chars text) = Some y.
Proof.
  unfold Regex.search_year. split.
  - intros (n & Hn & Hlt). apply (search_leftmost _ n).
    + now apply year_at_in_range with (y := y).
    + exact Hn.
    + exact Hlt.
  - intros H. apply search_is_leftmost in H. exact H.
Qed.

Lemma year_of_gec (href : string) :
  session_year "GEC November Paper" href = detect_year href.
Proof. reflexivity. Qed.

Lemma detect_year_2021 (text : string) :
  detect_year text = "2021" <-> Regex.search_year (chars text) = Some (chars "2021").
Proof.
  unfold detect_year. split.
  - destruct (Regex.search_year (chars text)) as [y|]; [|discriminate].
    intros H. f_equal. rewrite <- (chars_str y). now rewrite H.
  - now intros ->.
Qed.

(** C7, amended: a link with the text Grade 12 November Examination 2023
    gets grade Grade 12 and year 2023 whatever its target; a link with the
    text GEC November Paper gets the year of the leftmost match of the year
    pattern in its target: the year is 2021 exactly when the pattern
    matches 2021 at some position of the target (2, 0 and two digits
    there, with no letter, digit or underscore right before or right
    after) and matches at no position before it, so that the target
    2020-2021.htm gives 2020; it gets grade Grade 9 (GEC) when the target
    holds no grade pattern; a text on which no grade rule fires gets Other;
    the year of every extracted session is the one found in the link text,
    and the one of the target only when the text has none. *)
Theorem classifier_vectors :
  (forall href,
      session_grade "Grade 12 November Examination 2023" href = "Grade 12"
      /\ session_year "Grade 12 November Examination 2023" href = "2023")
  /\ (forall href,
         detect_year href = "2021" ->
         session_year "GEC November Paper" href = "2021")
  /\ (forall href,
         session_year "GEC November Paper" href = "2021"
         <-> exists n, year_at href n = Some (chars "2021")
                       /\ forall m, (m < n)%nat -> year_at href m = None)
  /\ (forall href n,
         year_at href n
         = Direct.match_year_at
             (match n with O => None | S m => nth_error (chars href) m end)
             (skipn n (chars href)))
  /\ session_year "GEC November Paper" "2020-2021.htm" = "2020"
  /\ (forall href,
         Regex.search_grade (PyStr.lower (chars href)) = None ->
         session_grade "GEC November Paper" href = "Grade 9 (GEC)")
  /\ (forall text, grade_signal text = false -> detect_grade text = "Other")
  /\ (forall text href,
         session_year text href
         = if String.eqb (detect_year text) "Unknown Year"
           then detect_year href else detect_year text)
  /\ (forall urljoin gfs yfs anchors s,
         In s (App.index_loop urljoin gfs yfs anchors) ->
         exists a, In a anchors
                   /\ es_grade s = session_grade (a_text a) (S.strip (a_href a))
                   /\ es_year s = session_year (a_text a) (S.strip (a_href a)))
  /\ (forall urljoin gf yf anchors s,
         In s (Scraper.index_loop urljoin gf yf anchors) ->
         exists a, In a anchors
                   /\ es_grade s = session_grade (a_text a) (S.strip (a_href a))
                   /\ es_year s = session_year (a_text a) (S.strip (a_href a))).
Proof.
  split.
  { intros href. split; [|reflexivity].
    unfold session_grade, detect_grade, Regex.search_grade.
    rewrite search_grade_direct. reflexivity. }
  split; [intros href H; unfold session_year; simpl; exact H|].
  split.
  { intros href. rewrite year_of_gec, detect_year_2021.
    symmetry. apply detect_year_leftmost. }
  split; [intros href n; apply match_year_direct|].
  split; [reflexivity|].
  split; [exact grade_of_gec|].
  split; [exact grade_other|].
  split; [reflexivity|].
  split.
  - intros urljoin gfs yfs anchors s H.
    apply app_index_loop_in in H. destruct H as (a & Ha & -> & _).
    exists a. auto.
  - intros urljoin gf yf anchors s H.
    apply scraper_index_loop_in in H. destruct H as (a & Ha & -> & _).
    exists a. auto.
Qed.

Lemma classifier_vectors_witness :
  detect_year "2021/gec.htm" = "2021"
  /\ Regex.search_grade (PyStr.lower (chars "2021/gec.htm")) = None
  /\ session_year "GEC November Paper" "2021/gec.htm" = "2021"
  /\ year_at "papers/gec-2021.htm" 11 = Some (chars "2021")
  /\ session_year "GEC November Paper" "papers/gec-2021.htm" = "2021"
  /\ session_grade "GEC November Paper" "2021/gec.htm" = "Grade 9 (GEC)"
  /\ grade_signal "November Paper" = false
  /\ detect_grade "November Paper" = "Other".
Proof.
  destruct classifier_vectors as (_ & Hy & Hl & _ & _ & Hg & Ho & _).
  split; [reflexivity|]. split; [reflexivity|].
  split; [apply Hy; reflexivity|].
  split; [reflexivity|].
  split.
  { apply Hl. exists 11%nat. split; [reflexivity|].
    intros m Hm. do 11 (destruct m as [|m]; [reflexivity|]). lia. }
  split; [apply Hg; reflexivity|].
  split; [reflexivity|]. apply Ho. reflexivity.
Defined.

(** ** The filters *)

Lemma member_In (x : string) (xs : list string) :
  S.member x xs = true <-> In x xs.
Proof.
  unfold S.member. rewrite List.existsb_exists. split.
  - intros (y & Hy & E). apply String.eqb_eq in E. now subst.
  - intros H. exists x. split; [exact H | apply String.eqb_refl].
Qed.

Lemma app_grade_passes_nonempty (gfs : list string) (grade : string) :
  gfs <> [] ->
  App.grade_passes gfs grade = true
  <-> exists gf, In gf gfs /\ S.contains gf grade = true.
Proof.
  intros Hne. unfold App.grade_passes.
  rewrite bool_decide_eq_false_2 by exact Hne. simpl.
  rewrite negb_involutive. apply List.existsb_exists.
Qed.

Lemma app_year_passes_nonempty (yfs : list string) (year : string) :
  yfs <> [] ->
  App.year_passes yfs year = true <-> In year yfs.
Proof.
  intros Hne. unfold App.year_passes.
  rewrite bool_decide_eq_false_2 by exact Hne. simpl.
  rewrite negb_involutive. apply member_In.
Qed.

Lemma scraper_grade_passes_given (gf grade : string) :
  S.truthy gf = true ->
  Scraper.grade_passes (Some gf) grade = true <-> S.contains gf grade = true.
Proof.
  intros H. unfold Scraper.grade_passes. rewrite H. simpl.
  now rewrite negb_involutive.
Qed.

Lemma scraper_year_passes_given (yf year : string) :
  S.truthy yf = true ->
  Scraper.year_passes (Some yf) year = true <-> yf = year.
Proof.
  intros H. unfold Scraper.year_passes. rewrite H. simpl.
  rewrite negb_involutive. apply String.eqb_eq.
Qed.

(** C1, as stated, fails: the filter Grade 9 keeps a session whose grade
    label is Grade 9 (GEC), which is not a member of the filter set. *)
Lemma grade_filter_is_not_membership :
  exists s,
    In s (App.index_loop Ref.urljoin ["Grade 9"] []
            [ {| a_href := "gec.htm"; a_text := "GEC November Paper 2021" |} ])
    /\ es_grade s = "Grade 9 (GEC)"
    /\ ~ In (es_grade s) ["Grade 9"].
Proof.
  exists {| es_url := "https://www.ecexams.co.za/gec.htm";
            es_title := "GEC November Paper 2021";
            es_grade := "Grade 9 (GEC)"; es_year := "2021" |}.
  split; [vm_compute; left; reflexivity|]. split; [reflexivity|].
  simpl. intros [H|[]]. discriminate H.
Qed.

(** C1, amended: with an empty grade filter and an empty year filter every
    session link of the index page is matched; a non-empty year filter
    matches exactly the sessions whose year label is a member of it; a
    non-empty grade filter matches exactly the sessions whose grade label
    has some member of the filter occurring in it (as a substring, not by
    equality); every extracted session passes both tests. *)
Theorem filter_semantics :
  (forall label, App.grade_passes [] label = true /\ App.year_passes [] label = true)
  /\ (forall gfs grade, gfs <> [] ->
        App.grade_passes gfs grade = true
        <-> exists gf, In gf gfs /\ S.contains gf grade = true)
  /\ (forall yfs year, yfs <> [] ->
        App.year_passes yfs year = true <-> In year yfs)
  /\ (forall urljoin gfs yfs anchors s,
        In s (App.index_loop urljoin gfs yfs anchors) ->
        App.grade_passes gfs (es_grade s) = true
        /\ App.year_passes yfs (es_year s) = true)
  /\ (forall urljoin anchors a,
        In a anchors -> candidate urljoin a = true ->
        exists s, In s (App.index_loop urljoin [] [] anchors)
                  /\ es_url s = es_url (session_of urljoin a))
  /\ (forall label,
        Scraper.grade_passes None label = true
        /\ Scraper.grade_passes (Some "") label = true
        /\ Scraper.year_passes None label = true
        /\ Scraper.year_passes (Some "") label = true)
  /\ (forall gf grade, S.truthy gf = true ->
        Scraper.grade_passes (Some gf) grade = true <-> S.contains gf grade = true)
  /\ (forall yf year, S.truthy yf = true ->
        Scraper.year_passes (Some yf) year = true <-> yf = year)
  /\ (forall urljoin gf yf anchors s,
        In s (Scraper.index_loop urljoin gf yf anchors) ->
        Scraper.grade_passes gf (es_grade s) = true
        /\ Scraper.year_passes yf (es_year s) = true)
  /\ (forall urljoin anchors a,
        In a anchors -> candidate urljoin a = true ->
        exists s, In s (Scraper.index_loop urljoin None None anchors)
                  /\ es_url s = es_url (session_of urljoin a)).
Proof.
  split; [intros; split; reflexivity|].
  split; [exact app_grade_passes_nonempty|].
  split; [exact app_year_passes_nonempty|].
  split.
  { intros urljoin gfs yfs anchors s H.
    apply app_index_loop_in in H. destruct H as (a & _ & _ & _ & H). exact H. }
  split.
  { intros urljoin anchors a Ha Hc. rewrite app_index_loop_rounds.
    apply index_rounds_take; auto. }
  split; [intros; repeat split; reflexivity|].
  split; [exact scraper_grade_passes_given|].
  split; [exact scraper_year_passes_given|].
  split.
  { intros urljoin gf yf anchors s H.
    apply scraper_index_loop_in in H. destruct H as (a & _ & _ & _ & H). exact H. }
  intros urljoin anchors a Ha Hc. rewrite scraper_index_loop_rounds.
  apply index_rounds_take; auto.
Qed.

Lemma filter_semantics_witness :
  ["Grade 12"] <> []
  /\ (App.grade_passes ["Grade 12"] "Grade 12" = true
      <-> exists gf, In gf ["Grade 12"] /\ S.contains gf "Grade 12" = true)
  /\ App.grade_passes ["Grade 12"] "Grade 12" = true
  /\ App.grade_passes ["Grade 12"] "Grade 11" = false
  /\ App.year_passes ["2023"] "2024" = false.
Proof.
  destruct filter_semantics as (_ & Hg & _).
  assert (Hne : ["Grade 12"] <> []) by discriminate.
  split; [exact Hne|]. split; [exact (Hg ["Grade 12"] "Grade 12" Hne)|].
  repeat split; reflexivity.
Defined.

(** ** The session extractor *)

Section FilenameFacts.

Lemma startswith_app (p r : list ascii) : PyStr.startswith p (p ++ r) = true.
Proof.
  unfold PyStr.startswith.
  assert (H : strip_prefix p (p ++ r) = Some r).
  { induction p as [|c p IH]; [reflexivity|].
    cbn [strip_prefix app]. now rewrite Ascii.eqb_refl. }
  now rewrite H.
Qed.

Lemma endswith_app (p l : list ascii) : PyStr.endswith p (l ++ p) = true.
Proof. unfold PyStr.endswith. rewrite rev_app_distr. apply startswith_app. Qed.

Lemma doc_ext_cases (ext : string) :
  S.member ext doc_exts = true -> ext = ".pdf" \/ ext = ".zip" \/ ext = ".docx".
Proof.
  intros H. apply member_In in H. unfold doc_exts in H. simpl in H.
  intuition auto.
Qed.

Lemma filename_of_shape (raw ext : string) :
  S.member ext doc_exts = true ->
  let f := filename_of (sanitise raw) ext in
  (String.length f <= 120 + String.length ext)%nat
  /\ (String.length f <= 125)%nat
  /\ Forall legal (chars f)
  /\ S.endswith (S.lower f) ext = true.
Proof.
  intros Hext.
  destruct (sanitise_chars_shape (chars raw)) as (Hl & _ & _ & Hn).
  assert (Hlen : (String.length (sanitise raw) <= 120)%nat).
  { unfold sanitise. now rewrite <- length_chars, chars_str. }
  assert (Hleg : Forall legal (chars (sanitise raw))).
  { unfold sanitise. now rewrite chars_str. }
  assert (Hx : (String.length ext <= 5)%nat
               /\ Forall legal (chars ext) /\ S.lower ext = ext).
  { destruct (doc_ext_cases ext Hext) as [-> | [-> | ->]];
      (split; [simpl; lia | split; [|reflexivity]]);
      repeat constructor. }
  destruct Hx as (Hx1 & Hx2 & Hx3).
  unfold filename_of. cbv zeta.
  destruct (S.endswith (S.lower (sanitise raw)) ext) eqn:E.
  - repeat split; auto; lia.
  - assert (Hla : String.length (String.append (sanitise raw) ext)
                  = (String.length (sanitise raw) + String.length ext)%nat).
    { rewrite <- !length_chars, chars_append. apply List.length_app. }
    repeat split.
    + lia.
    + lia.
    + rewrite chars_append. apply Forall_app. auto.
    + unfold S.endswith, S.lower. rewrite chars_str, lower_append.
      replace (PyStr.lower (chars ext)) with (chars ext).
      * apply endswith_app.
      * rewrite <- Hx3 at 1. unfold S.lower. now rewrite chars_str.
Qed.

End FilenameFacts.

Section SessionFacts.
Variable urljoin : string -> string -> string.
Variables url_path path_suffix path_stem : string -> string.

Let file_of' := file_of urljoin url_path path_suffix path_stem.

Lemma app_session_step_in es files seen a fi :
  In fi (fst (App.session_step urljoin url_path path_suffix path_stem es
                (files, seen) a)) ->
  In fi files
  \/ (fi = file_of' es a
      /\ S.member (link_ext url_path path_suffix a) doc_exts = true).
Proof.
  unfold App.session_step, App._sanitise. cbv zeta.
  fold (link_ext url_path path_suffix a).
  destruct (S.member _ doc_exts) eqn:Hm; [|auto]. simpl negb. cbv iota.
  destruct (bool_decide _); [auto|]. simpl fst.
  intros H. apply List.in_app_or in H. destruct H as [H|[<-|[]]]; [auto|].
  right. split; [|reflexivity].
  unfold file_of', file_of, filename_of. cbv zeta.
  now destruct (S.endswith _ _).
Qed.

Lemma scraper_session_step_in es files seen a fi :
  In fi (fst (Scraper.session_step urljoin url_path path_suffix path_stem es
                (files, seen) a)) ->
  In fi files
  \/ (fi = file_of' es a
      /\ S.member (link_ext url_path path_suffix a) doc_exts = true).
Proof.
  unfold Scraper.session_step. cbv zeta.
  fold (link_ext url_path path_suffix a).
  destruct (negb (S.truthy _)); [auto|].
  destruct (S.member _ doc_exts) eqn:Hm; [|auto]. simpl negb. cbv iota.
  destruct (bool_decide _); [auto|]. simpl fst.
  intros H. apply List.in_app_or in H. destruct H as [H|[<-|[]]]; [auto|].
  right. split; reflexivity.
Qed.

Lemma app_session_loop_in es anchors fi :
  In fi (App.session_loop urljoin url_path path_suffix path_stem es anchors) ->
  exists a, In a anchors /\ fi = file_of' es a
            /\ S.member (link_ext url_path path_suffix a) doc_exts = true.
Proof.
  unfold App.session_loop.
  assert (G : forall st,
    In fi (fst (fold_left (App.session_step urljoin url_path path_suffix
                             path_stem es) anchors st)) ->
    In fi (fst st)
    \/ exists a, In a anchors /\ fi = file_of' es a
                 /\ S.member (link_ext url_path path_suffix a) doc_exts = true).
  { induction anchors as [|a r IH]; simpl; intros st H; [auto|].
    apply IH in H. destruct H as [H|(b & Hb & H)].
    - destruct st as [files seen]. apply app_session_step_in in H.
      destruct H as [H|H]; [auto|]. right. exists a. tauto.
    - right. exists b. tauto. }
  intros H. apply G in H. destruct H as [[]|H]. exact H.
Qed.

Lemma scraper_session_loop_in es anchors fi :
  In fi (Scraper.session_loop urljoin url_path path_suffix path_stem es anchors) ->
  exists a, In a anchors /\ fi = file_of' es a
            /\ S.member (link_ext url_path path_suffix a) doc_exts = true.
Proof.
  unfold Scraper.session_loop.
  assert (G : forall st,
    In fi (fst (fold_left (Scraper.session_step urljoin url_path path_suffix
                             path_stem es) anchors st)) ->
    In fi (fst st)
    \/ exists a, In a anchors /\ fi = file_of' es a
                 /\ S.member (link_ext url_path path_suffix a) doc_exts = true).
  { induction anchors as [|a r IH]; simpl; intros st H; [auto|].
    apply IH in H. destruct H as [H|(b & Hb & H)].
    - destruct st as [files seen]. apply scraper_session_step_in in H.
      destruct H as [H|H]; [auto|]. right. exists a. tauto.
    - right. exists b. tauto. }
  intros H. apply G in H. destruct H as [[]|H]. exact H.
Qed.

(** The shape of the file name of a kept link. *)
Lemma file_of_shape es a :
  S.member (link_ext url_path path_suffix a) doc_exts = true ->
  let f := fi_filename (file_of' es a) in
  let ext := link_ext url_path path_suffix a in
  (String.length f <= 120 + String.length ext)%nat
  /\ (String.length f <= 125)%nat
  /\ Forall legal (chars f)
  /\ S.endswith (S.lower f) ext = true.
Proof. intros H. apply filename_of_shape. exact H. Qed.

End SessionFacts.

(** C5, as stated, fails: the extension is appended after the cut to 120
    characters, so a link text of 120 characters gives a file name of 124. *)
Lemma filename_longer_than_120 :
  exists fi,
    In fi (App.session_loop Ref.urljoin Ref.url_path Ref.path_suffix Ref.path_stem
             any_session [ {| a_href := "p1.pdf"; a_text := long_text |} ])
    /\ String.length (fi_filename fi) = 124%nat.
Proof.
  exists {| fi_url := "https://www.ecexams.co.za/2023/p1.pdf";
            fi_filename := String.append long_text ".pdf";
            fi_exam_session := any_session |}.
  split; [vm_compute; left; reflexivity | reflexivity].
Qed.

(** C5, amended: every file descriptor of a session page comes from a link
    whose extension is one of .pdf, .zip, .docx; its file name holds none of
    the nine illegal characters, ends in that extension (compared in lower
    case), the extension being appended when the sanitised name does not end
    in it, and is at most 120 characters plus the length of the extension
    long, so at most 125. *)
Theorem filename_invariant :
  forall (urljoin : string -> string -> string)
         (url_path path_suffix path_stem : string -> string)
         (es : ExamSession) (anchors : list Anchor) (fi : FileInfo),
    In fi (App.session_loop urljoin url_path path_suffix path_stem es anchors)
    \/ In fi (Scraper.session_loop urljoin url_path path_suffix path_stem es anchors) ->
    exists a ext raw,
      In a anchors
      /\ ext = S.lower (path_suffix (url_path (S.strip (a_href a))))
      /\ In ext doc_exts
      /\ fi_filename fi
         = (if S.endswith (S.lower (sanitise raw)) ext
            then sanitise raw else String.append (sanitise raw) ext)
      /\ (String.length (fi_filename fi) <= 120 + String.length ext)%nat
      /\ (String.length (fi_filename fi) <= 125)%nat
      /\ Forall (fun c => PyChar.illegal c = false) (chars (fi_filename fi))
      /\ S.endswith (S.lower (fi_filename fi)) ext = true.
Proof.
  intros urljoin url_path path_suffix path_stem es anchors fi H.
  assert (G : exists a, In a anchors
                /\ fi = file_of urljoin url_path path_suffix path_stem es a
                /\ S.member (link_ext url_path path_suffix a) doc_exts = true).
  { destruct H as [H|H];
      [apply app_session_loop_in in H | apply scraper_session_loop_in in H];
      exact H. }
  destruct G as (a & Ha & -> & Hm).
  pose proof (file_of_shape urljoin url_path path_suffix path_stem es a Hm)
    as (H1 & H2 & H3 & H4).
  exists a, (link_ext url_path path_suffix a).
  eexists. split; [exact Ha|]. split; [reflexivity|].
  split; [now apply member_In|].
  split; [reflexivity|]. auto.
Qed.

Lemma filename_invariant_witness :
  exists a ext raw,
    In a [ {| a_href := "p1.PDF"; a_text := "Maths: Paper 1" |} ]
    /\ ext = S.lower (Ref.path_suffix (Ref.url_path (S.strip (a_href a))))
    /\ In ext doc_exts
    /\ "Maths Paper 1.pdf"
       = (if S.endswith (S.lower (sanitise raw)) ext
          then sanitise raw else String.append (sanitise raw) ext)
    /\ (String.length "Maths Paper 1.pdf" <= 120 + String.length ext)%nat
    /\ (String.length "Maths Paper 1.pdf" <= 125)%nat
    /\ Forall (fun c => PyChar.illegal c = false) (chars "Maths Paper 1.pdf")
    /\ S.endswith (S.lower "Maths Paper 1.pdf") ext = true.
Proof.
  apply (filename_invariant Ref.urljoin Ref.url_path Ref.path_suffix Ref.path_stem
           any_session
           [ {| a_href := "p1.PDF"; a_text := "Maths: Paper 1" |} ]
           {| fi_url := "https://www.ecexams.co.za/2023/p1.PDF";
              fi_filename := "Maths Paper 1.pdf";
              fi_exam_session := any_session |}).
  left. vm_compute. left. reflexivity.
Defined.

(** ** Running computations *)

Lemma bind_run {A B} (m : M A) (k : A -> M B) (w : World) :
  (m ≫= k) w = match m w with
               | (inl e, w') => (inl e, w')
               | (inr a, w') => k a w'
               end.
Proof. reflexivity. Qed.

Lemma after_zero (w : World) : after w 0 [] = w.
Proof.
  destruct w as [f n j t]. unfold after. simpl.
  now rewrite Nat.add_0_r, List.app_nil_r.
Qed.

Lemma after_after (w : World) (n m : nat) (es fs' : list Effect) :
  after (after w n es) m fs' = after w (n + m) (es ++ fs').
Proof.
  unfold after. simpl. now rewrite Nat.add_assoc, List.app_assoc.
Qed.

Lemma effect_run (e : Effect) (w : World) : effect e w = (inr tt, after w 0 [e]).
Proof. destruct w. unfold effect, after. simpl. now rewrite Nat.add_0_r. Qed.

Lemma session_get_run (net : Net) (url : string) (w : World) :
  session_get net url w = (inr (net (requests w) url), after w 1 [HttpGet url]).
Proof. unfold session_get, after. now rewrite Nat.add_1_r. Qed.

Lemma down_at (net : Net) (url : string) (n k i : nat) :
  down net url n k -> (i < k)%nat ->
  net (n + i)%nat url = Failed (reason (net (n + i)%nat url)).
Proof. intros H Hi. destruct (H i Hi) as [e E]. now rewrite E. Qed.

Section GetFacts.
Variable net : Net.

Lemma app_get_down (url : string) (w : World) :
  down net url (requests w) 3 ->
  App._get net url w = (inr None, after w 3 (app_get_trace net url (requests w))).
Proof.
  intros H.
  pose proof (down_at net url _ 3 0 H ltac:(lia)) as H0.
  pose proof (down_at net url _ 3 1 H ltac:(lia)) as H1.
  pose proof (down_at net url _ 3 2 H ltac:(lia)) as H2.
  rewrite Nat.add_0_r in H0.
  unfold App._get, App._get_from, App.MAX_RETRY, App.DELAY, sleep, App.emit.
  repeat (rewrite ?bind_run, ?effect_run, ?session_get_run, ?after_after;
          cbn [requests after Nat.add Nat.eqb]).
  rewrite Nat.add_0_r, H0.
  repeat (rewrite ?bind_run, ?effect_run, ?session_get_run, ?after_after;
          cbn [requests after Nat.add Nat.eqb]).
  rewrite H1.
  repeat (rewrite ?bind_run, ?effect_run, ?session_get_run, ?after_after;
          cbn [requests after Nat.add Nat.eqb]).
  rewrite H2.
  repeat (rewrite ?bind_run, ?effect_run, ?session_get_run, ?after_after;
          cbn [requests after Nat.add Nat.eqb]).
  reflexivity.
Qed.

End GetFacts.

Ltac mrun :=
  repeat (rewrite ?bind_run, ?effect_run, ?session_get_run, ?after_after;
          cbn [requests after Nat.add Nat.eqb]).

Section DownFacts.
Variable net : Net.
Variable urljoin : string -> string -> string.
Variables url_path path_suffix path_stem : string -> string.

Lemma scraper_get_down (url : string) (w : World) :
  down net url (requests w) 3 ->
  Scraper.safe_get net url w
  = (inr None, after w 3 (scraper_get_trace net url (requests w))).
Proof.
  intros H.
  pose proof (down_at net url _ 3 0 H ltac:(lia)) as H0.
  pose proof (down_at net url _ 3 1 H ltac:(lia)) as H1.
  pose proof (down_at net url _ 3 2 H ltac:(lia)) as H2.
  rewrite Nat.add_0_r in H0.
  unfold Scraper.safe_get, Scraper.safe_get_from, Scraper.MAX_RETRIES,
    Scraper.DELAY_BETWEEN_REQUESTS, sleep, Scraper.log.
  mrun. rewrite Nat.add_0_r, H0. mrun. rewrite H1. mrun. rewrite H2. mrun.
  reflexivity.
Qed.

Lemma app_scrape_index_down gfs yfs (w : World) :
  down net INDEX_URL (requests w) 3 ->
  App.scrape_index net urljoin gfs yfs w
  = (inr [], after w 3 (Emit "info" MFetchingIndex
                          :: app_get_trace net INDEX_URL (requests w)
                          ++ [Emit "error" MNoIndex])).
Proof.
  intros H. unfold App.scrape_index, App.emit. mrun.
  rewrite app_get_down by (cbn [requests after]; now rewrite Nat.add_0_r).
  mrun. rewrite Nat.add_0_r. reflexivity.
Qed.

Lemma scraper_scrape_index_down gf yf (w : World) :
  down net INDEX_URL (requests w) 3 ->
  Scraper.scrape_index net urljoin gf yf w
  = (inl (RuntimeError "Could not fetch the index page."),
     after w 3 (Log "info" MFetchingIndex
                  :: scraper_get_trace net INDEX_URL (requests w))).
Proof.
  intros H. unfold Scraper.scrape_index, Scraper.log. mrun.
  rewrite scraper_get_down by (cbn [requests after]; now rewrite Nat.add_0_r).
  mrun. rewrite Nat.add_0_r. reflexivity.
Qed.

End DownFacts.

(** ** The unreachable index *)

(** C2, as stated, fails: when nothing answers, [main] of the command line
    tool ends with the [RuntimeError] of [scrape_index], which nothing
    catches, and no event at all is emitted. *)
Lemma unreachable_index_raises_in_main :
  let run := Scraper.main Ref.net_down Ref.urljoin Ref.url_path Ref.path_suffix
                          Ref.path_stem [] some_args Ref.w0 in
  fst run = inl (RuntimeError "Could not fetch the index page.")
  /\ List.filter is_emit (trace (snd run)) = [].
Proof. vm_compute. split; reflexivity. Qed.

(** C2, amended: when the three requests for the index page fail, the job
    of the web front end emits the three retry warnings, then an error
    event, then a done event with all four counts zero, and ends without an
    exception, having touched neither the file tree nor any other URL; the
    command line tool has no event stream: there [scrape_index] raises a
    [RuntimeError] that [main] lets through, the file tree untouched as
    well. *)
Theorem unreachable_index_aborts :
  forall (net : Net) (urljoin : string -> string -> string)
         (url_path path_suffix path_stem : string -> string) (w : World),
    down net INDEX_URL (requests w) 3 ->
    (forall ks grade_filters year_filters output_dir dry_run threads,
        App.run_job net urljoin url_path path_suffix path_stem ks
                    grade_filters year_filters output_dir dry_run threads w
        = (inr tt,
           {| fs := fs w; requests := (requests w + 3)%nat; job_active := false;
              trace := trace w
                       ++ Emit "info" MFetchingIndex
                          :: app_get_trace net INDEX_URL (requests w)
                          ++ [Emit "error" MNoIndex;
                              Emit "done" (MCounts 0 0 0 0)] |}))
    /\ (forall ks args,
           Scraper.main net urljoin url_path path_suffix path_stem ks args w
           = (inl (RuntimeError "Could not fetch the index page."),
              {| fs := fs w; requests := (requests w + 3)%nat;
                 job_active := job_active w;
                 trace := trace w
                          ++ Log "info" MFetchingIndex
                             :: scraper_get_trace net INDEX_URL (requests w) |})).
Proof.
  intros net urljoin url_path path_suffix path_stem w H. split.
  - intros. unfold App.run_job, try_finally, try_except, App.run_job_body.
    rewrite bind_run, app_scrape_index_down by exact H.
    unfold App.emit, set_job_active. mrun. unfold after. cbn.
    reflexivity.
  - intros. unfold Scraper.main. cbv zeta.
    rewrite bind_run, scraper_scrape_index_down by exact H.
    reflexivity.
Qed.

Lemma unreachable_index_aborts_witness :
  down Ref.net_down INDEX_URL (requests Ref.w0) 3
  /\ App.run_job Ref.net_down Ref.urljoin Ref.url_path Ref.path_suffix
                 Ref.path_stem [] [] [] "downloads" false 3 Ref.w0
     = (inr tt,
        {| fs := ∅; requests := 3; job_active := false;
           trace := [ Emit "info" MFetchingIndex;
                      Sleep 400; HttpGet INDEX_URL;
                      Emit "warn" (MRetry 1 3 INDEX_URL "timed out");
                      Sleep 2000;
                      Sleep 400; HttpGet INDEX_URL;
                      Emit "warn" (MRetry 2 3 INDEX_URL "timed out");
                      Sleep 4000;
                      Sleep 400; HttpGet INDEX_URL;
                      Emit "warn" (MRetry 3 3 INDEX_URL "timed out");
                      Emit "error" MNoIndex;
                      Emit "done" (MCounts 0 0 0 0) ] |}).
Proof.
  assert (H : down Ref.net_down INDEX_URL (requests Ref.w0) 3).
  { intros i _. now exists "timed out". }
  split; [exact H|].
  exact (proj1 (unreachable_index_aborts Ref.net_down Ref.urljoin Ref.url_path
                  Ref.path_suffix Ref.path_stem Ref.w0 H)
               [] [] [] "downloads" false 3%Z).
Defined.

(** ** The size of the pool *)




(** ** Single downloads *)

Lemma mkdir_run (p : Path) (w : World) :
  mkdir p w = match FS.mkdir_parents p (fs w) with
              | inl q => (inl (OSError q), after w 0 [Mkdir p])
              | inr f' => (inr tt, evolve w f' 0 [Mkdir p])
              end.
Proof.
  unfold mkdir, get_fs, set_fs, raise. mrun. cbn [fs after].
  destruct (FS.mkdir_parents p (fs w)); reflexivity.
Qed.

Lemma write_bytes_run (p : Path) (c : string) (w : World) :
  write_bytes p c w = match FS.write p c (fs w) with
                      | inl q => (inl (OSError q), after w 0 [WriteBytes p c])
                      | inr f' => (inr tt, evolve w f' 0 [WriteBytes p c])
                      end.
Proof.
  unfold write_bytes, get_fs, set_fs, raise. mrun. cbn [fs after].
  destruct (FS.write p c (fs w)); reflexivity.
Qed.

Section FetchFacts.
Variable net : Net.

(** [_get] never raises and leaves the file tree alone. *)
Lemma app_get_from_spec (n attempt : nat) (url : string) (w : World) :
  exists o k es,
    App._get_from net n attempt url w = (inr o, after w k es)
    /\ Forall (fun e => is_fetch_effect e = true) es.
Proof.
  revert attempt w. induction n as [|n IH]; intros attempt w.
  - exists None, 0%nat, []. simpl. rewrite after_zero. split; [reflexivity|].
    constructor.
  - cbn [App._get_from]. unfold sleep, App.emit. mrun.
    destruct (net (requests w + 0)%nat url) as [e|r].
    + mrun. destruct (attempt =? App.MAX_RETRY)%nat.
      * eexists _, _, _. split; [reflexivity|]. repeat constructor.
      * mrun.
        destruct (IH (S attempt)
                     (after w 1 [Sleep App.DELAY; HttpGet url;
                                 Emit "warn" (MRetry attempt App.MAX_RETRY url e);
                                 Sleep (1000 * 2 ^ N.of_nat attempt)]))
          as (o & k & es & E & Hes).
        cbn [app] in E |- *. rewrite E, after_after.
        eexists _, _, _. split; [reflexivity|].
        repeat (constructor; [reflexivity|]). exact Hes.
    + eexists _, _, _. split; [reflexivity|]. repeat constructor.
Qed.

Lemma app_get_from_succ (n attempt : nat) (url : string) (w : World) :
  exists o k es,
    App._get_from net (S n) attempt url w
    = (inr o, after w k (Sleep App.DELAY :: HttpGet url :: es))
    /\ Forall (fun e => is_fetch_effect e = true) es.
Proof.
  cbn [App._get_from]. unfold sleep, App.emit. mrun.
  destruct (net (requests w + 0)%nat url) as [e|r].
  - mrun. destruct (attempt =? App.MAX_RETRY)%nat.
    + eexists _, _, _. split; [reflexivity|]. repeat constructor.
    + mrun.
      destruct (app_get_from_spec n (S attempt) url
                  (after w 1 [Sleep App.DELAY; HttpGet url;
                              Emit "warn" (MRetry attempt App.MAX_RETRY url e);
                              Sleep (1000 * 2 ^ N.of_nat attempt)]))
        as (o & k & es & E & Hes).
      cbn [app] in E |- *. rewrite E, after_after. cbn [app].
      eexists _, _, _. split; [reflexivity|].
      repeat (constructor; [reflexivity|]). exact Hes.
  - eexists _, _, _. split; [reflexivity|]. constructor.
Qed.

Lemma app_get_spec (url : string) (w : World) :
  exists o k es,
    App._get net url w
    = (inr o, after w k (Sleep App.DELAY :: HttpGet url :: es))
    /\ Forall (fun e => is_fetch_effect e = true) es.
Proof. apply app_get_from_succ. Qed.

Lemma scraper_get_from_spec (n attempt : nat) (url : string) (w : World) :
  exists o k es,
    Scraper.safe_get_from net n attempt url w = (inr o, after w k es)
    /\ Forall (fun e => is_fetch_effect e = true) es.
Proof.
  revert attempt w. induction n as [|n IH]; intros attempt w.
  - exists None, 0%nat, []. simpl. rewrite after_zero. split; [reflexivity|].
    constructor.
  - cbn [Scraper.safe_get_from]. unfold sleep, Scraper.log. mrun.
    destruct (net (requests w + 0)%nat url) as [e|r].
    + mrun. destruct (attempt =? Scraper.MAX_RETRIES)%nat.
      * mrun. eexists _, _, _. split; [reflexivity|]. repeat constructor.
      * mrun.
        destruct (IH (S attempt)
                     (after w 1 [Sleep Scraper.DELAY_BETWEEN_REQUESTS; HttpGet url;
                                 Log "warning"
                                     (MRetry attempt Scraper.MAX_RETRIES url e);
                                 Sleep (1000 * 2 ^ N.of_nat attempt)]))
          as (o & k & es & E & Hes).
        cbn [app] in E |- *. rewrite E, after_after.
        eexists _, _, _. split; [reflexivity|].
        repeat (constructor; [reflexivity|]). exact Hes.
    + eexists _, _, _. split; [reflexivity|]. repeat constructor.
Qed.

Lemma scraper_get_from_succ (n attempt : nat) (url : string) (w : World) :
  exists o k es,
    Scraper.safe_get_from net (S n) attempt url w
    = (inr o, after w k (Sleep Scraper.DELAY_BETWEEN_REQUESTS :: HttpGet url :: es))
    /\ Forall (fun e => is_fetch_effect e = true) es.
Proof.
  cbn [Scraper.safe_get_from]. unfold sleep, Scraper.log. mrun.
  destruct (net (requests w + 0)%nat url) as [e|r].
  - mrun. destruct (attempt =? Scraper.MAX_RETRIES)%nat.
    + mrun. eexists _, _, _. split; [reflexivity|]. repeat constructor.
    + mrun.
      destruct (scraper_get_from_spec n (S attempt) url
                  (after w 1 [Sleep Scraper.DELAY_BETWEEN_REQUESTS; HttpGet url;
                              Log "warning"
                                  (MRetry attempt Scraper.MAX_RETRIES url e);
                              Sleep (1000 * 2 ^ N.of_nat attempt)]))
        as (o & k & es & E & Hes).
      cbn [app] in E |- *. rewrite E, after_after. cbn [app].
      eexists _, _, _. split; [reflexivity|].
      repeat (constructor; [reflexivity|]). exact Hes.
  - eexists _, _, _. split; [reflexivity|]. constructor.
Qed.

Lemma scraper_get_spec (url : string) (w : World) :
  exists o k es,
    Scraper.safe_get net url w
    = (inr o, after w k (Sleep Scraper.DELAY_BETWEEN_REQUESTS :: HttpGet url :: es))
    /\ Forall (fun e => is_fetch_effect e = true) es.
Proof. apply scraper_get_from_succ. Qed.

End FetchFacts.

(** ** The pool *)

Section PoolRule.
Context {T R Acc : Type}.
Variable task : T -> M R.
Variable body : R -> Acc -> M Acc.
Variable external : M unit.
Variable max_workers : nat.

Let settle := Pool.settle task body.
Let tick := Pool.tick task body external max_workers.
Let drain_step := Pool.drain_step task body.

Lemma settle_shape (t : T) (st : (@Pool.State T Acc)) (rest : list T) (w : World) :
  Pool.pending (fst (settle t st rest w)) = Pool.pending st
  /\ Pool.in_flight (fst (settle t st rest w)) = rest.
Proof.
  unfold settle, Pool.settle. destruct (task t w) as [[e|r] w']; [now split|].
  destruct (Pool.fault st); [now split|].
  destruct (body r (Pool.acc st) w') as [[e|a] w2]; now split.
Qed.

(** An invariant of the pool: kept when a queued item is taken by a
    worker, when an item in flight finishes, and by the other threads. *)
Variable Inv : (@Pool.State T Acc) -> World -> Prop.

Hypothesis Inv_dispatch : forall st w t q,
  Pool.pending st = t :: q -> Inv st w ->
  Inv {| Pool.pending := q; Pool.in_flight := Pool.in_flight st ++ [t];
         Pool.acc := Pool.acc st; Pool.fault := Pool.fault st |} w.

Hypothesis Inv_settle : forall st w i t,
  Pool.in_flight st !! i = Some t -> Inv st w ->
  Inv (fst (settle t st (delete i (Pool.in_flight st)) w))
      (snd (settle t st (delete i (Pool.in_flight st)) w)).

Hypothesis Inv_external : forall st w, Inv st w -> Inv st (snd (external w)).

Lemma tick_keeps (k : Pool.Tick) (st : (@Pool.State T Acc)) (w : World) :
  Inv st w -> Inv (fst (tick k (st, w))) (snd (tick k (st, w))).
Proof.
  intros H. unfold tick. destruct k as [|i|]; cbn [Pool.tick].
  - destruct (Pool.pending st) as [|t q] eqn:E; [exact H|].
    destruct (_ <? _)%nat; [|exact H]. cbn [fst snd].
    now apply Inv_dispatch.
  - destruct (Pool.in_flight st !! i) as [t|] eqn:E; [|exact H].
    now apply Inv_settle.
  - cbn [fst snd]. now apply Inv_external.
Qed.

Lemma run_ticks_keeps (ks : list Pool.Tick) (sw : (@Pool.State T Acc) * World) :
  Inv (fst sw) (snd sw) ->
  Inv (fst (Pool.run_ticks task body external max_workers ks sw))
      (snd (Pool.run_ticks task body external max_workers ks sw)).
Proof.
  unfold Pool.run_ticks. revert sw.
  induction ks as [|k ks IH]; intros sw H; [exact H|].
  cbn [fold_left]. apply IH. destruct sw as [st w]. now apply tick_keeps.
Qed.

Lemma drain_step_keeps (st : (@Pool.State T Acc)) (w : World) :
  Inv st w ->
  Inv (fst (drain_step (st, w))) (snd (drain_step (st, w)))
  /\ unfinished (fst (drain_step (st, w))) = pred (unfinished st).
Proof.
  intros H. unfold drain_step, Pool.drain_step, unfinished.
  destruct (Pool.in_flight st) as [|t rest] eqn:Ef.
  - destruct (Pool.pending st) as [|t q] eqn:Ep.
    + cbn [fst snd]. rewrite Ef, Ep. split; [exact H | reflexivity].
    + pose proof (Inv_dispatch st w t q Ep H) as H1.
      rewrite Ef in H1. cbn [app] in H1.
      set (st1 := {| Pool.pending := q; Pool.in_flight := [t];
                     Pool.acc := Pool.acc st; Pool.fault := Pool.fault st |}) in *.
      pose proof (Inv_settle st1 w 0%nat t eq_refl H1) as H2.
      cbn [Pool.in_flight st1 delete] in H2. split; [exact H2|].
      destruct (settle_shape t st1 [] w) as [E1 E2].
      unfold settle in E1, E2. rewrite E1, E2. cbn. lia.
  - pose proof (Inv_settle st w 0%nat t) as H2. rewrite Ef in H2.
    split; [exact (H2 eq_refl H)|].
    destruct (settle_shape t st rest w) as [E1 E2].
    unfold settle in E1, E2. rewrite E1, E2. cbn. lia.
Qed.

Lemma drain_steps_keep (n : nat) (sw : (@Pool.State T Acc) * World) :
  (unfinished (fst sw) <= n)%nat ->
  Inv (fst sw) (snd sw) ->
  Inv (fst (Nat.iter n drain_step sw)) (snd (Nat.iter n drain_step sw))
  /\ unfinished (fst (Nat.iter n drain_step sw)) = 0%nat.
Proof.
  revert sw. induction n as [|n IH]; intros sw Hn H.
  - change (Nat.iter 0 drain_step sw) with sw. split; [exact H|].
    unfold unfinished in *. lia.
  - rewrite Nat.iter_succ_r.
    destruct sw as [st w]. destruct (drain_step_keeps st w H) as [H1 H2].
    apply IH; [|exact H1]. cbn [fst] in Hn. unfold unfinished in *. lia.
Qed.

Lemma drain_keeps (sw : (@Pool.State T Acc) * World) :
  Inv (fst sw) (snd sw) ->
  Inv (fst (Pool.drain task body sw)) (snd (Pool.drain task body sw))
  /\ unfinished (fst (Pool.drain task body sw)) = 0%nat.
Proof.
  intros H. unfold Pool.drain. fold drain_step.
  now apply drain_steps_keep.
Qed.

(** The rule: an invariant that holds when the items are submitted holds
    when the [with] block is left, and nothing is left unfinished then. *)
Lemma pool_rule (ks : list Pool.Tick) (items : list T) (a : Acc) (w : World) :
  Inv (Pool.init items a) w ->
  exists st w',
    Pool.drain task body
      (Pool.run_ticks task body external max_workers ks (Pool.init items a, w))
    = (st, w')
    /\ Inv st w' /\ Pool.pending st = [] /\ Pool.in_flight st = []
    /\ Pool.run task body external max_workers ks items a w
       = match Pool.fault st with
         | Some e => (inl e, w')
         | None => (inr (Pool.acc st), w')
         end.
Proof.
  intros H.
  pose proof (run_ticks_keeps ks (Pool.init items a, w) H) as H1.
  apply drain_keeps in H1. destruct H1 as [H1 H2].
  unfold Pool.run.
  destruct (Pool.drain _ _ _) as [st w'] eqn:E. cbn [fst snd] in *.
  exists st, w'. split; [reflexivity|]. split; [exact H1|].
  unfold unfinished in H2.
  destruct (Pool.pending st), (Pool.in_flight st); cbn in H2; try lia.
  repeat split.
Qed.

End PoolRule.

(** ** The file tree *)

Section TreeFacts.

Lemma node_insert (f : gmap Path Node) (q r : Path) (x : Node) :
  FS.node f q = None ->
  FS.node (<[q := x]> f) r = if decide (r = q) then Some x else FS.node f r.
Proof.
  unfold FS.node. intros Hq.
  destruct (decide (q = [] \/ q = ["/"])) as [|Hn]; [discriminate Hq|].
  destruct (decide (r = q)) as [->|Hne].
  - destruct (decide (q = [] \/ q = ["/"])); [tauto|]. apply lookup_insert_eq.
  - destruct (decide (r = [] \/ r = ["/"])); [reflexivity|].
    apply lookup_insert_ne. congruence.
Qed.

Lemma insert_keeps (f : gmap Path Node) (q : Path) (x : Node) :
  keeps f (<[q := x]> f).
Proof.
  intros r [y Hr]. unfold FS.node in *.
  destruct (decide (r = [] \/ r = ["/"])); [eauto|].
  destruct (decide (q = r)) as [->|Hne].
  - rewrite lookup_insert_eq. eauto.
  - rewrite lookup_insert_ne by exact Hne. eauto.
Qed.

Lemma mkdir_each_spec (ps : list Path) (f f' : gmap Path Node) :
  FS.mkdir_each ps f = inr f' ->
  (forall q, In q ps -> FS.node f' q = Some Dir)
  /\ keeps_dirs f f' /\ keeps f f'.
Proof.
  revert f. induction ps as [|p ps IH]; intros f H.
  - injection H as <-. split; [intros q []|]. split; intros q Hq; exact Hq.
  - cbn [FS.mkdir_each] in H. destruct (FS.node f p) as [[|c]|] eqn:Ep.
    + destruct (IH f H) as (H1 & H2 & H3). split; [|now split].
      intros q [<-|Hq]; auto.
    + discriminate H.
    + destruct (IH _ H) as (H1 & H2 & H3).
      assert (Hp : FS.node (<[p := Dir]> f) p = Some Dir).
      { rewrite node_insert by exact Ep. now rewrite decide_True. }
      split; [intros q [<-|Hq]; auto|]. split.
      * intros q Hq. apply H2. rewrite node_insert by exact Ep.
        destruct (decide (q = p)); [reflexivity | exact Hq].
      * intros q Hq. apply H3. now apply insert_keeps.
Qed.

Lemma lineage_self (p : Path) : p <> [] -> In p (FS.lineage p).
Proof.
  intros Hp. unfold FS.lineage. apply List.in_map_iff.
  exists (List.length p). split; [apply List.firstn_all|].
  apply List.in_seq. destruct p; [congruence | simpl; lia].
Qed.

(** After [mkdir] the directory and all its ancestors are there, and
    nothing that was there is gone. *)
Lemma mkdir_parents_spec (p : Path) (f f' : gmap Path Node) :
  FS.mkdir_parents p f = inr f' ->
  (forall q, In q (FS.lineage p) -> FS.is_dir f' q = true)
  /\ FS.is_dir f' p = true
  /\ keeps f f'
  /\ (FS.is_dir f p = false -> f' <> f).
Proof.
  intros H. destruct (mkdir_each_spec _ _ _ H) as (H1 & H2 & H3).
  assert (Hp : FS.is_dir f' p = true).
  { unfold FS.is_dir. destruct p as [|c p].
    - reflexivity.
    - rewrite H1; [reflexivity|]. now apply lineage_self. }
  split; [intros q Hq; unfold FS.is_dir; now rewrite H1|].
  split; [exact Hp|]. split; [exact H3|].
  intros Hf ->. congruence.
Qed.

Lemma write_spec (p : Path) (c : string) (f f' : gmap Path Node) :
  FS.write p c f = inr f' ->
  FS.node f' p = Some (File c) /\ keeps f f'.
Proof.
  unfold FS.write. intros H.
  assert (Hn : FS.node f p <> Some Dir /\ f' = <[p := File c]> f).
  { destruct (FS.node f p) as [[|c']|]; [discriminate H| |];
      (destruct (FS.is_dir f (PyPath.parent p)); [|discriminate H]);
      injection H as <-; split; congruence. }
  destruct Hn as [Hn ->]. split; [|apply insert_keeps].
  unfold FS.node in *.
  destruct (decide (p = [] \/ p = ["/"])); [congruence|].
  apply lookup_insert_eq.
Qed.

Lemma keeps_exists (f g : gmap Path Node) (q : Path) :
  keeps f g -> FS.exists_ f q = true -> FS.exists_ g q = true.
Proof.
  unfold FS.exists_. intros H Hq.
  destruct (FS.node f q) as [x|] eqn:E; [|discriminate Hq].
  destruct (H q) as [y Hy]; [rewrite E; eauto|]. now rewrite Hy.
Qed.

Lemma keeps_refl (f : gmap Path Node) : keeps f f.
Proof. intros q H. exact H. Qed.

Lemma keeps_trans (f g h : gmap Path Node) : keeps f g -> keeps g h -> keeps f h.
Proof. intros H1 H2 q Hq. auto. Qed.

End TreeFacts.

Lemma after_evolve w f n es m es' :
  after (evolve w f n es) m es' = evolve w f (n + m) (es ++ es').
Proof. unfold after, evolve. simpl. now rewrite Nat.add_assoc, List.app_assoc. Qed.

Section DownloadFacts.
Variable net : Net.

(** Every way [download_file] of [app.py] can go. *)
Lemma app_download_file_spec (fi : FileInfo) (root : string) (dry_run : bool)
    (w : World) :
  let dest_dir := App.dest_dir_of root fi in
  let dest := App.dest_of root fi in
  let run := App.download_file net fi root dry_run w in
  if dry_run then run = (inr "dryrun", after w 0 [Emit "dryrun" (MDest dest)])
  else if FS.exists_ (fs w) dest then run = (inr "skipped", w)
  else
    match FS.mkdir_parents dest_dir (fs w) with
    | inl q => run = (inl (OSError q), after w 0 [Mkdir dest_dir])
    | inr f' =>
        exists o k es,
          Forall (fun e => is_fetch_effect e = true) es
          /\ let pre := Mkdir dest_dir :: Sleep App.DELAY :: HttpGet (fi_url fi) :: es in
             match o with
             | None =>
                 run = (inr "failed",
                        evolve w f' k (pre ++ [Emit "error" (MFailedUrl (fi_url fi))]))
             | Some r =>
                 match FS.write dest (r_content r) f' with
                 | inl q =>
                     run = (inl (OSError q),
                            evolve w f' k (pre ++ [WriteBytes dest (r_content r)]))
                 | inr f2 =>
                     run = (inr "downloaded",
                            evolve w f2 k
                              (pre ++ [WriteBytes dest (r_content r);
                                       Emit "download" (MFile (fi_filename fi))]))
                 end
             end
    end.
Proof.
  cbv zeta. unfold App.download_file. destruct dry_run.
  - unfold App.emit. mrun. reflexivity.
  - unfold path_exists. rewrite bind_run.
    destruct (FS.exists_ (fs w) (App.dest_of root fi)); [reflexivity|].
    rewrite bind_run, mkdir_run.
    destruct (FS.mkdir_parents (App.dest_dir_of root fi) (fs w)) as [q|f'];
      [reflexivity|].
    destruct (app_get_spec net (fi_url fi)
                (evolve w f' 0 [Mkdir (App.dest_dir_of root fi)]))
      as (o & k & es & E & Hes).
    exists o, k, es. split; [exact Hes|].
    rewrite bind_run, E, after_evolve. cbn [app Nat.add].
    destruct o as [r|].
    + rewrite bind_run, write_bytes_run. cbn [fs evolve].
      destruct (FS.write (App.dest_of root fi) (r_content r) f') as [q|f2].
      * unfold after, evolve. cbn. rewrite Nat.add_0_r, <- List.app_assoc.
        reflexivity.
      * unfold App.emit. mrun. unfold after, evolve. cbn.
        rewrite !Nat.add_0_r, <- !List.app_assoc. reflexivity.
    + unfold App.emit. mrun. unfold after, evolve. cbn.
      rewrite Nat.add_0_r, <- List.app_assoc. reflexivity.
Qed.

Variable DOWNLOAD_DIR : Path.

(** Every way [download_file] of [ecexams_scraper.py] can go. *)
Lemma scraper_download_file_spec (fi : FileInfo) (dry_run : bool) (w : World) :
  let dest_dir := Scraper.dest_dir_of DOWNLOAD_DIR fi in
  let dest := Scraper.dest_of DOWNLOAD_DIR fi in
  let run := Scraper.download_file net DOWNLOAD_DIR fi dry_run w in
  let result s := {| Scraper.res_url := fi_url fi; Scraper.res_path := dest;
                     Scraper.res_status := s |} in
  if dry_run then run = (inr (result "dry-run"), after w 0 [Log "info" (MDest dest)])
  else if FS.exists_ (fs w) dest then run = (inr (result "skipped (exists)"), w)
  else
    match FS.mkdir_parents dest_dir (fs w) with
    | inl q => run = (inl (OSError q), after w 0 [Mkdir dest_dir])
    | inr f' =>
        exists o k es,
          Forall (fun e => is_fetch_effect e = true) es
          /\ let pre := Mkdir dest_dir :: Log "info" (MDownloading dest)
                          :: Sleep Scraper.DELAY_BETWEEN_REQUESTS
                          :: HttpGet (fi_url fi) :: es in
             match o with
             | None => run = (inr (result "failed"), evolve w f' k pre)
             | Some r =>
                 match FS.write dest (r_content r) f' with
                 | inl q =>
                     run = (inl (OSError q),
                            evolve w f' k (pre ++ [WriteBytes dest (r_content r)]))
                 | inr f2 =>
                     run = (inr (result "downloaded"),
                            evolve w f2 k (pre ++ [WriteBytes dest (r_content r)]))
                 end
             end
    end.
Proof.
  cbv zeta. unfold Scraper.download_file. destruct dry_run.
  - unfold Scraper.log. mrun. reflexivity.
  - unfold path_exists. rewrite bind_run.
    destruct (FS.exists_ (fs w) (Scraper.dest_of DOWNLOAD_DIR fi)); [reflexivity|].
    rewrite bind_run, mkdir_run.
    destruct (FS.mkdir_parents (Scraper.dest_dir_of DOWNLOAD_DIR fi) (fs w))
      as [q|f']; [reflexivity|].
    unfold Scraper.log. rewrite bind_run, effect_run, after_evolve.
    destruct (scraper_get_spec net (fi_url fi)
                (evolve w f' (0 + 0)
                   ([Mkdir (Scraper.dest_dir_of DOWNLOAD_DIR fi)]
                    ++ [Log "info" (MDownloading (Scraper.dest_of DOWNLOAD_DIR fi))])))
      as (o & k & es & E & Hes).
    exists o, k, es. split; [exact Hes|].
    rewrite bind_run, E, after_evolve. cbn [app Nat.add].
    destruct o as [r|].
    + rewrite bind_run, write_bytes_run. cbn [fs evolve].
      destruct (FS.write (Scraper.dest_of DOWNLOAD_DIR fi) (r_content r) f')
        as [q|f2].
      * unfold after, evolve. cbn. rewrite Nat.add_0_r, <- List.app_assoc.
        reflexivity.
      * unfold evolve. cbn. rewrite !Nat.add_0_r, <- !List.app_assoc. reflexivity.
    + reflexivity.
Qed.

End DownloadFacts.

(** ** Directories of a failed download *)

Lemma mkdir_each_there (ps : list Path) (f : gmap Path Node) :
  (forall q, In q ps -> FS.is_dir f q = true) -> FS.mkdir_each ps f = inr f.
Proof.
  induction ps as [|p ps IH]; intros H; [reflexivity|].
  cbn [FS.mkdir_each].
  pose proof (H p (or_introl eq_refl)) as Hp. unfold FS.is_dir in Hp.
  destruct (FS.node f p) as [[|c]|]; try discriminate Hp.
  apply IH. intros q Hq. apply H. now right.
Qed.

(** A [mkdir] leaves the tree as it was exactly when the directory and
    its ancestors were all there. *)
Lemma mkdir_parents_same (p : Path) (f f' : gmap Path Node) :
  FS.mkdir_parents p f = inr f' ->
  (f' = f <-> forall q, In q (FS.lineage p) -> FS.is_dir f q = true).
Proof.
  intros H. split.
  - intros <-. now apply mkdir_parents_spec in H.
  - intros Hall. unfold FS.mkdir_parents in H.
    rewrite (mkdir_each_there _ _ Hall) in H. now injection H as <-.
Qed.

Section FailedDownloads.
Variable net : Net.

(** A failed download of [app.py]: what it has done to the tree. *)
Lemma app_failed_download (fi : FileInfo) (root : string) (w w' : World) :
  App.download_file net fi root false w = (inr "failed", w') ->
  let dest_dir := App.dest_dir_of root fi in
  FS.exists_ (fs w) (App.dest_of root fi) = false
  /\ FS.mkdir_parents dest_dir (fs w) = inr (fs w')
  /\ (forall q, In q (FS.lineage dest_dir) -> FS.is_dir (fs w') q = true)
  /\ FS.is_dir (fs w') dest_dir = true
  /\ (FS.is_dir (fs w) dest_dir = false -> fs w' <> fs w)
  /\ (fs w' = fs w
      <-> forall q, In q (FS.lineage dest_dir) -> FS.is_dir (fs w) q = true)
  /\ exists rest,
       trace w' = trace w ++ Mkdir dest_dir :: Sleep App.DELAY
                              :: HttpGet (fi_url fi) :: rest.
Proof.
  intros H dest_dir.
  pose proof (app_download_file_spec net fi root false w) as S.
  cbv zeta in S. cbn match in S.
  destruct (FS.exists_ (fs w) (App.dest_of root fi)) eqn:Ex;
    [rewrite S in H; discriminate H|].
  destruct (FS.mkdir_parents (App.dest_dir_of root fi) (fs w)) as [q|f'] eqn:Em;
    [rewrite S in H; discriminate H|].
  destruct S as (o & k & es & Hes & S).
  destruct o as [r|].
  { destruct (FS.write _ _ f'); rewrite S in H; discriminate H. }
  rewrite S in H. injection H as <-. cbn [fs evolve trace].
  destruct (mkdir_parents_spec _ _ _ Em) as (H1 & H2 & _ & H4).
  pose proof (mkdir_parents_same _ _ _ Em) as H5.
  repeat split; auto; try apply H5.
  cbn [app]. eexists. reflexivity.
Qed.

(** The same for [ecexams_scraper.py]. *)
Lemma scraper_failed_download (dir : Path) (fi : FileInfo) (w w' : World)
    (res : Scraper.Result) :
  Scraper.download_file net dir fi false w = (inr res, w') ->
  Scraper.res_status res = "failed" ->
  let dest_dir := Scraper.dest_dir_of dir fi in
  FS.exists_ (fs w) (Scraper.dest_of dir fi) = false
  /\ FS.mkdir_parents dest_dir (fs w) = inr (fs w')
  /\ (forall q, In q (FS.lineage dest_dir) -> FS.is_dir (fs w') q = true)
  /\ FS.is_dir (fs w') dest_dir = true
  /\ (FS.is_dir (fs w) dest_dir = false -> fs w' <> fs w)
  /\ (fs w' = fs w
      <-> forall q, In q (FS.lineage dest_dir) -> FS.is_dir (fs w) q = true)
  /\ exists rest,
       trace w' = trace w ++ Mkdir dest_dir
                          :: Log "info" (MDownloading (Scraper.dest_of dir fi))
                          :: Sleep Scraper.DELAY_BETWEEN_REQUESTS
                          :: HttpGet (fi_url fi) :: rest.
Proof.
  intros H Hs dest_dir.
  pose proof (scraper_download_file_spec net dir fi false w) as S.
  cbv zeta in S. cbn match in S.
  destruct (FS.exists_ (fs w) (Scraper.dest_of dir fi)) eqn:Ex.
  { rewrite S in H. injection H as <- _. discriminate Hs. }
  destruct (FS.mkdir_parents (Scraper.dest_dir_of dir fi) (fs w)) as [q|f'] eqn:Em;
    [rewrite S in H; discriminate H|].
  destruct S as (o & k & es & Hes & S).
  destruct o as [r|].
  { destruct (FS.write _ _ f'); rewrite S in H; [discriminate H|].
    injection H as <- _. discriminate Hs. }
  rewrite S in H. injection H as _ <-. cbn [fs evolve trace].
  destruct (mkdir_parents_spec _ _ _ Em) as (H1 & H2 & _ & H4).
  pose proof (mkdir_parents_same _ _ _ Em) as H5.
  repeat split; auto; try apply H5.
  eexists. reflexivity.
Qed.

End FailedDownloads.

(** C10, as stated, fails: with the folder of the file and its ancestors
    there already, a download that ends as failed leaves the file tree as
    it was, in both programs. *)
Lemma failed_download_changes_nothing :
  (exists w',
      App.download_file Ref.net_down Ref.p1 "downloads" false w_made
      = (inr "failed", w')
      /\ fs w' = fs w_made)
  /\ (exists res w',
         Scraper.download_file Ref.net_down ["downloads"] Ref.p1 false w_made
         = (inr res, w')
         /\ Scraper.res_status res = "failed"
         /\ fs w' = fs w_made).
Proof.
  split.
  - assert (F : fst (App.download_file Ref.net_down Ref.p1 "downloads" false w_made)
                = inr "failed") by (vm_compute; reflexivity).
    destruct (App.download_file Ref.net_down Ref.p1 "downloads" false w_made)
      as [r w'] eqn:E.
    cbn [fst] in F. subst r. exists w'. split; [reflexivity|].
    apply (app_failed_download _ _ _ _ _ E).
    intros q Hq. vm_compute in Hq.
    repeat (destruct Hq as [<-|Hq]; [vm_compute; reflexivity|]). destruct Hq.
  - assert (F : match fst (Scraper.download_file Ref.net_down ["downloads"] Ref.p1
                             false w_made) with
                | inr res => Scraper.res_status res
                | inl _ => EmptyString
                end = "failed") by (vm_compute; reflexivity).
    destruct (Scraper.download_file Ref.net_down ["downloads"] Ref.p1 false w_made)
      as [[e|res] w'] eqn:E; cbn [fst] in F; [discriminate F|].
    exists res, w'. split; [reflexivity|]. split; [exact F|].
    apply (scraper_failed_download _ _ _ _ _ _ E F).
    intros q Hq. vm_compute in Hq.
    repeat (destruct Hq as [<-|Hq]; [vm_compute; reflexivity|]). destruct Hq.
Qed.

(** C10, amended: in a run that is not a dry run, a download that ends as
    failed has first made the destination directory with all its missing
    ancestors (the [mkdir] comes before the first request of the fetch);
    the file tree differs from the one before exactly when that directory
    or one of its ancestors was not there yet, and is the same when they
    were all there; a dry run and a skipped file leave the file tree as it
    was, and a completed download adds the file. *)
Theorem failed_download_leaves_directories :
  (forall net fi root w w',
      App.download_file net fi root false w = (inr "failed", w') ->
      let dest_dir := App.dest_dir_of root fi in
      FS.exists_ (fs w) (App.dest_of root fi) = false
      /\ FS.mkdir_parents dest_dir (fs w) = inr (fs w')
      /\ (forall q, In q (FS.lineage dest_dir) -> FS.is_dir (fs w') q = true)
      /\ FS.is_dir (fs w') dest_dir = true
      /\ (FS.is_dir (fs w) dest_dir = false -> fs w' <> fs w)
      /\ (fs w' = fs w
          <-> forall q, In q (FS.lineage dest_dir) -> FS.is_dir (fs w) q = true)
      /\ exists rest,
           trace w' = trace w ++ Mkdir dest_dir :: Sleep App.DELAY
                                  :: HttpGet (fi_url fi) :: rest)
  /\ (forall net dir fi w w' res,
         Scraper.download_file net dir fi false w = (inr res, w') ->
         Scraper.res_status res = "failed" ->
         let dest_dir := Scraper.dest_dir_of dir fi in
         FS.exists_ (fs w) (Scraper.dest_of dir fi) = false
         /\ FS.mkdir_parents dest_dir (fs w) = inr (fs w')
         /\ (forall q, In q (FS.lineage dest_dir) -> FS.is_dir (fs w') q = true)
         /\ FS.is_dir (fs w') dest_dir = true
         /\ (FS.is_dir (fs w) dest_dir = false -> fs w' <> fs w)
         /\ (fs w' = fs w
             <-> forall q, In q (FS.lineage dest_dir) -> FS.is_dir (fs w) q = true)
         /\ exists rest,
              trace w' = trace w ++ Mkdir dest_dir
                                 :: Log "info" (MDownloading (Scraper.dest_of dir fi))
                                 :: Sleep Scraper.DELAY_BETWEEN_REQUESTS
                                 :: HttpGet (fi_url fi) :: rest)
  /\ (forall net dir fi root w,
         fs (snd (App.download_file net fi root true w)) = fs w
         /\ fs (snd (Scraper.download_file net dir fi true w)) = fs w)
  /\ (forall net dir fi root w,
         (FS.exists_ (fs w) (App.dest_of root fi) = true ->
          App.download_file net fi root false w = (inr "skipped", w))
         /\ (FS.exists_ (fs w) (Scraper.dest_of dir fi) = true ->
             snd (Scraper.download_file net dir fi false w) = w))
  /\ (forall net fi root w w',
         App.download_file net fi root false w = (inr "downloaded", w') ->
         FS.exists_ (fs w) (App.dest_of root fi) = false
         /\ FS.exists_ (fs w') (App.dest_of root fi) = true).
Proof.
  split; [|split; [|split; [|split]]].
  - intros net fi root w w'. apply app_failed_download.
  - intros net dir fi w w' res. apply scraper_failed_download.
  - intros net dir fi root w. split.
    + pose proof (app_download_file_spec net fi root true w) as S.
      cbv zeta in S. cbn match in S. now rewrite S.
    + pose proof (scraper_download_file_spec net dir fi true w) as S.
      cbv zeta in S. cbn match in S. now rewrite S.
  - intros net dir fi root w. split; intros Ex.
    + pose proof (app_download_file_spec net fi root false w) as S.
      cbv zeta in S. cbn match in S. now rewrite Ex in S.
    + pose proof (scraper_download_file_spec net dir fi false w) as S.
      cbv zeta in S. cbn match in S. rewrite Ex in S. now rewrite S.
  - intros net fi root w w' H.
    pose proof (app_download_file_spec net fi root false w) as S.
    cbv zeta in S. cbn match in S.
    destruct (FS.exists_ (fs w) (App.dest_of root fi)) eqn:Ex;
      [rewrite S in H; discriminate H|].
    destruct (FS.mkdir_parents (App.dest_dir_of root fi) (fs w)) as [q|f'] eqn:Em;
      [rewrite S in H; discriminate H|].
    destruct S as (o & k & es & Hes & S).
    destruct o as [r|]; [|rewrite S in H; discriminate H].
    destruct (FS.write _ _ f') as [q|f2] eqn:Ew; rewrite S in H;
      [discriminate H|].
    injection H as <-. cbn [fs evolve]. split; [reflexivity|].
    apply write_spec in Ew. destruct Ew as [Ew _].
    unfold FS.exists_. now rewrite Ew.
Qed.

Lemma failed_download_leaves_directories_witness :
  (exists w',
      App.download_file Ref.net_down Ref.p1 "downloads" false Ref.w0
      = (inr "failed", w')
      /\ FS.is_dir (fs w') (App.dest_dir_of "downloads" Ref.p1) = true
      /\ fs w' <> fs Ref.w0)
  /\ (exists res w',
         Scraper.download_file Ref.net_down ["downloads"] Ref.p1 false Ref.w0
         = (inr res, w')
         /\ Scraper.res_status res = "failed"
         /\ FS.is_dir (fs w') (Scraper.dest_dir_of ["downloads"] Ref.p1) = true
         /\ fs w' <> fs Ref.w0)
  /\ (exists w',
         App.download_file Ref.net_down Ref.p1 "downloads" false w_made
         = (inr "failed", w')
         /\ fs w' = fs w_made).
Proof.
  split; [|split].
  - assert (F : fst (App.download_file Ref.net_down Ref.p1 "downloads" false Ref.w0)
                = inr "failed") by (vm_compute; reflexivity).
    destruct (App.download_file Ref.net_down Ref.p1 "downloads" false Ref.w0)
      as [r w'] eqn:E.
    cbn [fst] in F. subst r. exists w'. split; [reflexivity|].
    destruct (proj1 failed_download_leaves_directories
                    Ref.net_down Ref.p1 "downloads" Ref.w0 w' E)
      as (_ & _ & _ & Hd & Hm & _).
    split; [exact Hd | apply Hm; vm_compute; reflexivity].
  - assert (F : match fst (Scraper.download_file Ref.net_down ["downloads"] Ref.p1
                             false Ref.w0) with
                | inr res => Scraper.res_status res
                | inl _ => EmptyString
                end = "failed") by (vm_compute; reflexivity).
    destruct (Scraper.download_file Ref.net_down ["downloads"] Ref.p1 false Ref.w0)
      as [[e|res] w'] eqn:E; cbn [fst] in F; [discriminate F|].
    exists res, w'. split; [reflexivity|]. split; [exact F|].
    destruct (proj1 (proj2 failed_download_leaves_directories)
                    Ref.net_down ["downloads"] Ref.p1 Ref.w0 w' res E F)
      as (_ & _ & _ & Hd & Hm & _).
    split; [exact Hd | apply Hm; vm_compute; reflexivity].
  - assert (F : fst (App.download_file Ref.net_down Ref.p1 "downloads" false w_made)
                = inr "failed") by (vm_compute; reflexivity).
    destruct (App.download_file Ref.net_down Ref.p1 "downloads" false w_made)
      as [r w'] eqn:E.
    cbn [fst] in F. subst r. exists w'. split; [reflexivity|].
    destruct (proj1 failed_download_leaves_directories
                    Ref.net_down Ref.p1 "downloads" w_made w' E)
      as (_ & _ & _ & _ & _ & Hs & _).
    apply Hs. intros q Hq. vm_compute in Hq.
    repeat (destruct Hq as [<-|Hq]; [vm_compute; reflexivity|]). destruct Hq.
Defined.

(** ** Counting outcomes *)

Lemma count_insert (counts : gmap string nat) (k k' : string) (v : nat) :
  App.count (<[k := v]> counts) k'
  = if decide (k = k') then v else App.count counts k'.
Proof.
  unfold App.count. rewrite lookup_insert. now destruct (decide (k = k')).
Qed.

Lemma sum4_insert (counts : gmap string nat) (r : string) :
  In r outcomes ->
  sum4 (<[r := (App.count counts r + 1)%nat]> counts) = (sum4 counts + 1)%nat.
Proof.
  unfold outcomes. intros H. unfold sum4. rewrite !count_insert.
  simpl in H. destruct H as [<-|[<-|[<-|[<-|[]]]]];
    repeat case_decide; try discriminate; try congruence; lia.
Qed.

Lemma sum4_counts0 : sum4 App.counts0 = 0%nat.
Proof. reflexivity. Qed.

Lemma app_download_outcome net fi root dry_run w r w' :
  App.download_file net fi root dry_run w = (inr r, w') -> In r outcomes.
Proof.
  intros H. pose proof (app_download_file_spec net fi root dry_run w) as S.
  cbv zeta in S. unfold outcomes. destruct dry_run.
  { rewrite S in H. injection H as <- _. simpl. auto. }
  destruct (FS.exists_ (fs w) (App.dest_of root fi)).
  { rewrite S in H. injection H as <- _. simpl. auto. }
  destruct (FS.mkdir_parents _ _) as [q|f']; [rewrite S in H; discriminate H|].
  destruct S as (o & k & es & _ & S). destruct o as [resp|].
  - destruct (FS.write _ _ f'); rewrite S in H; [discriminate H|].
    injection H as <- _. simpl. auto.
  - rewrite S in H. injection H as <- _. simpl. auto.
Qed.

Lemma app_tally_run total r counts done w :
  App.tally total r (counts, done) w
  = (inr (<[r := (App.count counts r + 1)%nat]> counts, (done + 1)%nat),
     after w 0 [Emit "progress" (MProgress (done + 1) total)]).
Proof. unfold App.tally, App.emit. mrun. reflexivity. Qed.

Lemma scraper_tally_sum res c w :
  exists c' es,
    Scraper.tally res c w = (inr c', after w 0 es)
    /\ sum_counters c' = (sum_counters c + 1)%nat.
Proof.
  unfold Scraper.tally, Scraper.log, sum_counters. cbv zeta.
  destruct (String.eqb _ "downloaded").
  { exists {| Scraper.downloaded := Scraper.downloaded c + 1;
              Scraper.skipped := Scraper.skipped c;
              Scraper.failed := Scraper.failed c;
              Scraper.dry_count := Scraper.dry_count c |}, [].
    rewrite after_zero. split; [reflexivity | simpl; lia]. }
  destruct (String.eqb _ "failed").
  { eexists _, _. mrun. split; [reflexivity | simpl; lia]. }
  destruct (String.eqb _ "dry-run").
  { exists {| Scraper.downloaded := Scraper.downloaded c;
              Scraper.skipped := Scraper.skipped c;
              Scraper.failed := Scraper.failed c;
              Scraper.dry_count := Scraper.dry_count c + 1 |}, [].
    rewrite after_zero. split; [reflexivity | simpl; lia]. }
  exists {| Scraper.downloaded := Scraper.downloaded c;
            Scraper.skipped := Scraper.skipped c + 1;
            Scraper.failed := Scraper.failed c;
            Scraper.dry_count := Scraper.dry_count c |}, [].
  rewrite after_zero. split; [reflexivity | simpl; lia].
Qed.

Lemma length_delete_lookup {A} (l : list A) (i : nat) (x : A) :
  l !! i = Some x -> S (List.length (delete i l)) = List.length l.
Proof.
  revert i. induction l as [|y l IH]; intros [|i] H; try discriminate H.
  - reflexivity.
  - cbn in H |- *. f_equal. now apply IH.
Qed.

Section CountFacts.
Variable net : Net.

(** While nothing has raised, every submitted item is queued, in flight, or
    counted once. *)
Lemma app_pool_counts ks all_files output_dir dry_run workers w counts done w' :
  Pool.run (fun fi => App.download_file net fi output_dir dry_run)
           (App.tally (List.length all_files)) App.stop workers
           ks all_files (App.counts0, 0%nat) w
  = (inr (counts, done), w') ->
  sum4 counts = List.length all_files /\ done = List.length all_files.
Proof.
  set (total := List.length all_files).
  set (Inv := fun (st : @Pool.State FileInfo (gmap string nat * nat)) (_ : World) =>
                Pool.fault st = None ->
                (sum4 (fst (Pool.acc st)) + unfinished st = total)%nat
                /\ snd (Pool.acc st) = sum4 (fst (Pool.acc st))).
  intros H.
  destruct (pool_rule (fun fi => App.download_file net fi output_dir dry_run)
              (App.tally total) App.stop workers Inv) with
    (ks := ks) (items := all_files) (a := (App.counts0, 0%nat)) (w := w)
    as (st & w2 & _ & HI & Hp & Hf & Hrun).
  - intros st w0 t q Ep HI Hn. cbn [Pool.fault Pool.acc] in *.
    destruct (HI Hn) as [H1 H2]. split; [|exact H2].
    unfold unfinished in *. cbn [Pool.pending Pool.in_flight].
    rewrite Ep in H1. rewrite List.length_app. cbn [List.length] in *. lia.
  - intros st w0 i t Ei HI. unfold Pool.settle.
    destruct (App.download_file net t output_dir dry_run w0) as [[e|r] w1] eqn:Et.
    + cbn [fst snd]. intros Hn. discriminate Hn.
    + destruct (Pool.fault st) eqn:Ef.
      * cbn [fst snd]. intros Hn. cbn in Hn. congruence.
      * destruct (Pool.acc st) as [c d] eqn:Ea. rewrite app_tally_run.
        cbn [fst snd]. intros _. cbn [Pool.acc fst snd].
        destruct (HI Ef) as [H1 H2]. rewrite Ea in H1, H2.
        cbn [fst snd] in H1, H2.
        rewrite sum4_insert by (eapply app_download_outcome; eauto).
        unfold unfinished in *. cbn [Pool.pending Pool.in_flight].
        pose proof (length_delete_lookup _ _ _ Ei). split; lia.
  - intros st w0 HI. exact HI.
  - intros _. unfold unfinished. cbn [Pool.init Pool.acc Pool.pending Pool.in_flight fst snd].
    rewrite sum4_counts0. cbn [List.length]. unfold total. split; [lia | reflexivity].
  - fold total in H. rewrite Hrun in H.
    destruct (Pool.fault st) eqn:Ef; [discriminate H|].
    injection H as Ha <-. destruct (HI Ef) as [H1 H2].
    unfold unfinished in H1. rewrite Hp, Hf, Ha in H1. rewrite Ha in H2.
    cbn in H1, H2. split; lia.
Qed.

Variable DOWNLOAD_DIR : Path.

Lemma scraper_pool_counts ks all_files dry_run workers w c w' :
  Pool.run (fun fi => Scraper.download_file net DOWNLOAD_DIR fi dry_run)
           Scraper.tally (mret tt) workers ks all_files
           {| Scraper.downloaded := 0; Scraper.skipped := 0;
              Scraper.failed := 0; Scraper.dry_count := 0 |} w
  = (inr c, w') ->
  sum_counters c = List.length all_files.
Proof.
  set (total := List.length all_files).
  set (Inv := fun (st : @Pool.State FileInfo Scraper.Counters) (_ : World) =>
                Pool.fault st = None ->
                (sum_counters (Pool.acc st) + unfinished st = total)%nat).
  intros H.
  destruct (pool_rule (fun fi => Scraper.download_file net DOWNLOAD_DIR fi dry_run)
              Scraper.tally (mret tt) workers Inv) with
    (ks := ks) (items := all_files)
    (a := {| Scraper.downloaded := 0; Scraper.skipped := 0;
             Scraper.failed := 0; Scraper.dry_count := 0 |}) (w := w)
    as (st & w2 & _ & HI & Hp & Hf & Hrun).
  - intros st w0 t q Ep HI Hn. cbn [Pool.fault Pool.acc] in *.
    pose proof (HI Hn) as H1.
    unfold unfinished in *. cbn [Pool.pending Pool.in_flight].
    rewrite Ep in H1. rewrite List.length_app. cbn [List.length] in *. lia.
  - intros st w0 i t Ei HI. unfold Pool.settle.
    destruct (Scraper.download_file net DOWNLOAD_DIR t dry_run w0)
      as [[e|r] w1] eqn:Et.
    + cbn [fst snd]. intros Hn. discriminate Hn.
    + destruct (Pool.fault st) eqn:Ef.
      * cbn [fst snd]. intros Hn. cbn in Hn. congruence.
      * destruct (scraper_tally_sum r (Pool.acc st) w1) as (c' & es & -> & Hs).
        cbn [fst snd]. intros _. cbn [Pool.acc].
        pose proof (HI Ef) as H1.
        unfold unfinished in *. cbn [Pool.pending Pool.in_flight].
        pose proof (length_delete_lookup _ _ _ Ei). lia.
  - intros st w0 HI. exact HI.
  - intros _. unfold unfinished. cbn. unfold total. lia.
  - rewrite Hrun in H.
    destruct (Pool.fault st) eqn:Ef; [discriminate H|].
    injection H as Ha <-. pose proof (HI Ef) as H1.
    unfold unfinished in H1. rewrite Hp, Hf, Ha in H1. cbn in H1. lia.
Qed.

End CountFacts.

Section FaultFacts.
Variable net : Net.

Lemma app_download_raises fi root dry_run w e w' :
  App.download_file net fi root dry_run w = (inl e, w') -> exists q, e = OSError q.
Proof.
  intros H. pose proof (app_download_file_spec net fi root dry_run w) as S.
  cbv zeta in S. destruct dry_run; [rewrite S in H; discriminate H|].
  destruct (FS.exists_ (fs w) (App.dest_of root fi)); [rewrite S in H; discriminate H|].
  destruct (FS.mkdir_parents _ _) as [q|f'].
  { rewrite S in H. injection H as <- _. now exists q. }
  destruct S as (o & k & es & _ & S). destruct o as [resp|].
  - destruct (FS.write _ _ f') as [q|f2]; rewrite S in H; [|discriminate H].
    injection H as <- _. now exists q.
  - rewrite S in H. discriminate H.
Qed.

(** The only fault of the pool of [run_job] is the [OSError] of a [mkdir]
    or [write_bytes]. *)
Lemma app_pool_faults ks all_files root dry_run workers w e w' :
  Pool.run (fun fi => App.download_file net fi root dry_run)
           (App.tally (List.length all_files)) App.stop workers
           ks all_files (App.counts0, 0%nat) w
  = (inl e, w') ->
  exists q, e = OSError q.
Proof.
  set (Inv := fun (st : @Pool.State FileInfo (gmap string nat * nat)) (_ : World) =>
                forall e, Pool.fault st = Some e -> exists q, e = OSError q).
  intros H.
  destruct (pool_rule (fun fi => App.download_file net fi root dry_run)
              (App.tally (List.length all_files)) App.stop workers Inv) with
    (ks := ks) (items := all_files) (a := (App.counts0, 0%nat)) (w := w)
    as (st & w2 & _ & HI & _ & _ & Hrun).
  - intros st w0 t q _ HI. exact HI.
  - intros st w0 i t _ HI. unfold Pool.settle.
    destruct (App.download_file net t root dry_run w0) as [[e0|r] w1] eqn:Et.
    + cbn [fst snd]. intros e1 He1. cbn [Pool.fault] in He1.
      injection He1 as <-.
      destruct (Pool.fault st) as [e2|] eqn:Ef; cbn [default id].
      * apply HI. exact Ef.
      * eapply app_download_raises; eauto.
    + destruct (Pool.fault st) as [e2|] eqn:Ef.
      * cbn [fst snd]. intros e1 He1. cbn [Pool.fault] in He1.
        apply HI. congruence.
      * destruct (Pool.acc st) as [c d]. rewrite app_tally_run.
        cbn [fst snd]. intros e1 He1. discriminate He1.
  - intros st w0 HI. exact HI.
  - intros e0 He0. discriminate He0.
  - rewrite Hrun in H. destruct (Pool.fault st) as [e0|] eqn:Ef; [|discriminate H].
    injection H as <- _. now apply HI.
Qed.

End FaultFacts.

Section ConservationFacts.
Variable net : Net.

Lemma app_download_all_counts ks all_files output_dir dry_run threads w counts w' :
  App.download_all net ks all_files output_dir dry_run threads w = (inr counts, w') ->
  sum4 counts = List.length all_files.
Proof.
  unfold App.download_all, Pool.executor. intros H.
  destruct (threads <=? 0)%Z; [discriminate H|].
  rewrite bind_run in H. cbn [mret M_ret] in H. rewrite bind_run in H.
  destruct (Pool.run _ _ _ _ _ _ _ _) as [[e|[c d]] w2] eqn:E; [discriminate H|].
  injection H as <- _. cbn [fst].
  now apply app_pool_counts in E.
Qed.

(** The download stage of [run_job] ends with counts, or with the
    [OSError] of a [mkdir] or [write_bytes]. *)
Lemma app_download_all_ends ks all_files output_dir dry_run threads w :
  (0 < threads)%Z ->
  (exists counts w',
      App.download_all net ks all_files output_dir dry_run threads w
      = (inr counts, w'))
  \/ (exists q w',
         App.download_all net ks all_files output_dir dry_run threads w
         = (inl (OSError q), w')).
Proof.
  intros Ht. unfold App.download_all, Pool.executor.
  destruct (Z.leb_spec threads 0); [lia|].
  rewrite bind_run. cbn [mret M_ret]. rewrite bind_run.
  destruct (Pool.run _ _ _ _ _ _ _ _) as [[e|[c d]] w2] eqn:E.
  - right. apply app_pool_faults in E. destruct E as [q ->]. eauto.
  - left. eauto.
Qed.

Lemma scraper_download_all_counts dir ks all_files dry_run threads w c w' :
  Scraper.download_all net dir ks all_files dry_run threads w = (inr c, w') ->
  sum_counters c = List.length all_files.
Proof.
  unfold Scraper.download_all, Pool.executor. intros H.
  destruct (threads <=? 0)%Z; [discriminate H|].
  rewrite bind_run in H. cbn [mret M_ret] in H.
  now apply scraper_pool_counts in H.
Qed.

End ConservationFacts.

(** C6: whenever the download stage ends without an internal fault, the
    four counts add up to the number of file descriptors it was given, each
    descriptor counted under exactly one outcome; so the counts of the done
    event of a job that ran through, and the counters of the summary of
    [main], add up to the number of files the session pages gave.  The only
    internal fault of the stage is the [OSError] of a [mkdir] or a
    [write_bytes]. *)
Theorem count_conservation :
  (forall net ks all_files output_dir dry_run threads w counts w',
      App.download_all net ks all_files output_dir dry_run threads w
      = (inr counts, w') ->
      (App.count counts "downloaded" + App.count counts "skipped"
       + App.count counts "failed" + App.count counts "dryrun")%nat
      = List.length all_files)
  /\ (forall net urljoin url_path path_suffix path_stem ks grade_filters
             year_filters output_dir dry_run threads w w',
         App.run_job_body net urljoin url_path path_suffix path_stem ks
                          grade_filters year_filters output_dir dry_run threads w
         = (inr tt, w') ->
         exists sessions w1 all_files w2 pre dl sk fl dr,
           App.scrape_index net urljoin grade_filters year_filters w
           = (inr sessions, w1)
           /\ ((sessions = [] /\ all_files = [] /\ w2 = w1)
               \/ (sessions <> []
                   /\ App.scan_sessions net urljoin url_path path_suffix path_stem
                                        sessions [] w1
                      = (inr all_files, w2)))
           /\ trace w' = pre ++ [Emit "done" (MCounts dl sk fl dr)]
           /\ (dl + sk + fl + dr)%nat = List.length all_files)
  /\ (forall net dir ks all_files dry_run threads w c w',
         Scraper.download_all net dir ks all_files dry_run threads w = (inr c, w') ->
         (Scraper.downloaded c + Scraper.skipped c + Scraper.failed c
          + Scraper.dry_count c)%nat
         = List.length all_files)
  /\ (forall net urljoin url_path path_suffix path_stem ks args w c w',
         Scraper.main net urljoin url_path path_suffix path_stem ks args w
         = (inr (Some c), w') ->
         exists sessions w1 all_files w2,
           Scraper.scrape_index net urljoin
             (if Scraper.given (Scraper.arg_grade args)
              then Some (String.append "Grade " (default "" (Scraper.arg_grade args)))
              else None)
             (Scraper.arg_year args) w
           = (inr sessions, w1)
           /\ Scraper.scan_sessions net urljoin url_path path_suffix path_stem
                                    sessions [] w1
              = (inr all_files, w2)
           /\ (Scraper.downloaded c + Scraper.skipped c + Scraper.failed c
               + Scraper.dry_count c)%nat
              = List.length all_files)
  /\ (forall net ks all_files output_dir dry_run threads w,
         (0 < threads)%Z ->
         (exists counts w',
             App.download_all net ks all_files output_dir dry_run threads w
             = (inr counts, w')
             /\ (App.count counts "downloaded" + App.count counts "skipped"
                 + App.count counts "failed" + App.count counts "dryrun")%nat
                = List.length all_files)
         \/ (exists q w',
                App.download_all net ks all_files output_dir dry_run threads w
                = (inl (OSError q), w'))).
Proof.
  split; [|split; [|split; [|split]]].
  - intros. eapply app_download_all_counts; eauto.
  - intros net urljoin url_path path_suffix path_stem ks gfs yfs out dry threads
           w w' H.
    unfold App.run_job_body in H. rewrite bind_run in H.
    destruct (App.scrape_index net urljoin gfs yfs w) as [[e|sessions] w1];
      [discriminate H|].
    exists sessions, w1.
    destruct sessions as [|s ss].
    + exists [], w1, (trace w1), 0%nat, 0%nat, 0%nat, 0%nat.
      unfold App.emit in H. rewrite effect_run in H. injection H as <-.
      split; [reflexivity|]. split; [left; auto|]. split; reflexivity.
    + rewrite bind_run in H.
      destruct (App.scan_sessions _ _ _ _ _ _ _ w1) as [[e|all_files] w2] eqn:Es;
        [discriminate H|].
      unfold App.emit in H. rewrite bind_run, effect_run, bind_run in H.
      destruct (App.download_all _ _ _ _ _ _ _) as [[e|counts] w4] eqn:Ed;
        [discriminate H|].
      rewrite effect_run in H. injection H as <-.
      exists all_files, w2, (trace w4), (App.count counts "downloaded"),
        (App.count counts "skipped"), (App.count counts "failed"),
        (App.count counts "dryrun").
      split; [reflexivity|]. split; [right; split; [discriminate | reflexivity]|].
      split; [reflexivity|].
      eapply app_download_all_counts; eauto.
  - intros. eapply scraper_download_all_counts; eauto.
  - intros net urljoin url_path path_suffix path_stem ks args w c w' H.
    unfold Scraper.main in H. cbv zeta in H. rewrite bind_run in H.
    destruct (Scraper.scrape_index _ _ _ _ w) as [[e|sessions] w1];
      [discriminate H|].
    exists sessions, w1.
    destruct sessions as [|s ss].
    { unfold Scraper.log in H. rewrite bind_run, effect_run in H. discriminate H. }
    rewrite bind_run in H.
    destruct (Scraper.scan_sessions _ _ _ _ _ _ _ w1) as [[e|all_files] w2] eqn:Es;
      [discriminate H|].
    exists all_files, w2. split; [reflexivity|]. split; [reflexivity|].
    destruct all_files as [|f fs'].
    { unfold Scraper.log in H. rewrite bind_run, effect_run in H. discriminate H. }
    unfold Scraper.log in H. rewrite bind_run, effect_run, bind_run in H.
    destruct (if Scraper.arg_dry_run args then _ else _) as [[e|u] w3] eqn:E3 in H;
      [discriminate H|].
    rewrite bind_run in H.
    destruct (Scraper.download_all _ _ _ _ _ _ _) as [[e|c'] w4] eqn:Ed;
      [discriminate H|].
    rewrite bind_run in H.
    destruct (if Scraper.arg_dry_run args then _ else _) as [[e|u'] w5] eqn:E5 in H;
      [discriminate H|].
    injection H as <- _.
    eapply scraper_download_all_counts; eauto.
  - intros net ks all_files out dry threads w Ht.
    destruct (app_download_all_ends net ks all_files out dry threads w Ht)
      as [(counts & w' & E)|H]; [left|right; exact H].
    exists counts, w'. split; [exact E|].
    eapply app_download_all_counts; eauto.
Qed.

Lemma count_conservation_witness :
  exists counts w',
    App.download_all Ref.net_site
      [Pool.Dispatch; Pool.Dispatch; Pool.Finish 1; Pool.Finish 0]
      [Ref.p1; Ref.p2] "downloads" false 2 Ref.w0
    = (inr counts, w')
    /\ (App.count counts "downloaded" + App.count counts "skipped"
        + App.count counts "failed" + App.count counts "dryrun")%nat = 2%nat.
Proof.
  assert (F : returned (App.download_all Ref.net_site
                          [Pool.Dispatch; Pool.Dispatch; Pool.Finish 1; Pool.Finish 0]
                          [Ref.p1; Ref.p2] "downloads" false 2 Ref.w0) = true)
    by (vm_compute; reflexivity).
  destruct (App.download_all Ref.net_site
              [Pool.Dispatch; Pool.Dispatch; Pool.Finish 1; Pool.Finish 0]
              [Ref.p1; Ref.p2] "downloads" false 2 Ref.w0)
    as [[e|counts] w'] eqn:E; [discriminate F|].
  exists counts, w'. split; [reflexivity|].
  exact (proj1 count_conservation _ _ _ _ _ _ _ _ _ E).
Defined.

(** ** Files that are already there *)

Lemma stop_run (w : World) :
  App.stop w = (inr tt, {| fs := fs w; requests := requests w; job_active := false;
                           trace := trace w ++ [StopRequested] |}).
Proof.
  unfold App.stop, set_job_active. mrun. unfold after. cbn.
  now rewrite Nat.add_0_r.
Qed.

Lemma Forall_delete_at {A} (P : A -> Prop) (l : list A) (i : nat) :
  Forall P l -> Forall P (delete i l).
Proof.
  intros H. revert i. induction H as [|x l Hx Hl IH]; intros [|i]; cbn; auto.
Qed.

Lemma Forall_at {A} (P : A -> Prop) (l : list A) (i : nat) (x : A) :
  Forall P l -> l !! i = Some x -> P x.
Proof.
  intros H. revert i. induction H as [|y l Hy Hl IH]; intros [|i] E;
    cbn in E; try discriminate E.
  - now injection E as <-.
  - eauto.
Qed.

Section SkipFacts.
Variable net : Net.

Lemma app_download_skips fi root w :
  FS.exists_ (fs w) (App.dest_of root fi) = true ->
  App.download_file net fi root false w = (inr "skipped", w).
Proof.
  intros Ex. pose proof (app_download_file_spec net fi root false w) as S.
  cbv zeta in S. cbn match in S. now rewrite Ex in S.
Qed.

Lemma scraper_download_skips dir fi w :
  FS.exists_ (fs w) (Scraper.dest_of dir fi) = true ->
  Scraper.download_file net dir fi false w
  = (inr {| Scraper.res_url := fi_url fi; Scraper.res_path := Scraper.dest_of dir fi;
            Scraper.res_status := "skipped (exists)" |}, w).
Proof.
  intros Ex. pose proof (scraper_download_file_spec net dir fi false w) as S.
  cbv zeta in S. cbn match in S. now rewrite Ex in S.
Qed.

(** With every destination there, the pool of [run_job] skips every item:
    no request, no change of the file tree. *)
Lemma app_pool_skips ks all_files root workers w :
  (forall fi, In fi all_files -> FS.exists_ (fs w) (App.dest_of root fi) = true) ->
  exists counts done w',
    Pool.run (fun fi => App.download_file net fi root false)
             (App.tally (List.length all_files)) App.stop workers
             ks all_files (App.counts0, 0%nat) w
    = (inr (counts, done), w')
    /\ App.count counts "skipped" = List.length all_files
    /\ App.count counts "downloaded" = 0%nat
    /\ App.count counts "failed" = 0%nat
    /\ App.count counts "dryrun" = 0%nat
    /\ fs w' = fs w /\ requests w' = requests w.
Proof.
  intros Hall. set (total := List.length all_files).
  set (ok := fun fi => FS.exists_ (fs w) (App.dest_of root fi) = true).
  set (Inv := fun (st : @Pool.State FileInfo (gmap string nat * nat)) (w1 : World) =>
                fs w1 = fs w /\ requests w1 = requests w
                /\ Pool.fault st = None
                /\ Forall ok (Pool.pending st) /\ Forall ok (Pool.in_flight st)
                /\ (App.count (fst (Pool.acc st)) "skipped" + unfinished st = total)%nat
                /\ App.count (fst (Pool.acc st)) "downloaded" = 0%nat
                /\ App.count (fst (Pool.acc st)) "failed" = 0%nat
                /\ App.count (fst (Pool.acc st)) "dryrun" = 0%nat).
  destruct (pool_rule (fun fi => App.download_file net fi root false)
              (App.tally total) App.stop workers Inv) with
    (ks := ks) (items := all_files) (a := (App.counts0, 0%nat)) (w := w)
    as (st & w2 & _ & HI & Hp & Hf & Hrun).
  - intros st w0 t q Ep (H1 & H2 & H3 & H4 & H5 & H6 & H7).
    rewrite Ep in H4. inversion H4 as [|? ? Ht Hq]; subst.
    unfold Inv, unfinished in *. cbn [Pool.pending Pool.in_flight Pool.acc Pool.fault].
    rewrite Ep in H6. rewrite List.length_app. cbn [List.length] in *.
    repeat split; auto; try (apply Forall_app; now auto); lia.
  - intros st w0 i t Ei (H1 & H2 & H3 & H4 & H5 & H6 & H7 & H8 & H9).
    assert (Ht : ok t) by (eapply Forall_at; eauto).
    unfold Pool.settle. rewrite app_download_skips by (rewrite H1; exact Ht).
    rewrite H3. destruct (Pool.acc st) as [c d] eqn:Ea. rewrite app_tally_run.
    unfold Inv, unfinished in *. cbn [fst snd Pool.pending Pool.in_flight Pool.acc Pool.fault]
      in *.
    rewrite !count_insert.
    repeat case_decide; try discriminate; try congruence.
    pose proof (length_delete_lookup _ _ _ Ei).
    cbn [fs requests after]. rewrite Nat.add_0_r.
    repeat split; auto; try (now apply Forall_delete_at); lia.
  - intros st w0 (H1 & H2 & H3). rewrite stop_run. cbn [snd].
    unfold Inv. cbn [fs requests]. auto.
  - unfold Inv, unfinished. cbn [Pool.init Pool.pending Pool.in_flight Pool.acc Pool.fault
                             fst snd List.length].
    repeat split; auto;
      try (apply List.Forall_forall; exact Hall);
      try (unfold total; change (App.count App.counts0 "skipped") with 0%nat; lia).
  - destruct HI as (H1 & H2 & H3 & H4 & H5 & H6 & H7 & H8 & H9).
    rewrite H3 in Hrun. destruct (Pool.acc st) as [c d] eqn:Ea.
    exists c, d, w2. split; [exact Hrun|].
    unfold unfinished in H6. rewrite Hp, Hf in H6. cbn in H6, H7, H8, H9.
    repeat split; auto. lia.
Qed.

Variable DOWNLOAD_DIR : Path.

(** The same for the pool of [main]. *)
Lemma scraper_pool_skips ks all_files workers w :
  (forall fi, In fi all_files ->
              FS.exists_ (fs w) (Scraper.dest_of DOWNLOAD_DIR fi) = true) ->
  exists c w',
    Pool.run (fun fi => Scraper.download_file net DOWNLOAD_DIR fi false)
             Scraper.tally (mret tt) workers ks all_files
             {| Scraper.downloaded := 0; Scraper.skipped := 0;
                Scraper.failed := 0; Scraper.dry_count := 0 |} w
    = (inr c, w')
    /\ Scraper.skipped c = List.length all_files
    /\ Scraper.downloaded c = 0%nat
    /\ Scraper.failed c = 0%nat
    /\ Scraper.dry_count c = 0%nat
    /\ w' = w.
Proof.
  intros Hall. set (total := List.length all_files).
  set (ok := fun fi => FS.exists_ (fs w) (Scraper.dest_of DOWNLOAD_DIR fi) = true).
  set (Inv := fun (st : @Pool.State FileInfo Scraper.Counters) (w1 : World) =>
                w1 = w /\ Pool.fault st = None
                /\ Forall ok (Pool.pending st) /\ Forall ok (Pool.in_flight st)
                /\ (Scraper.skipped (Pool.acc st) + unfinished st = total)%nat
                /\ Scraper.downloaded (Pool.acc st) = 0%nat
                /\ Scraper.failed (Pool.acc st) = 0%nat
                /\ Scraper.dry_count (Pool.acc st) = 0%nat).
  destruct (pool_rule (fun fi => Scraper.download_file net DOWNLOAD_DIR fi false)
              Scraper.tally (mret tt) workers Inv) with
    (ks := ks) (items := all_files)
    (a := {| Scraper.downloaded := 0; Scraper.skipped := 0;
             Scraper.failed := 0; Scraper.dry_count := 0 |}) (w := w)
    as (st & w2 & _ & HI & Hp & Hf & Hrun).
  - intros st w0 t q Ep (H1 & H3 & H4 & H5 & H6 & H7).
    rewrite Ep in H4. inversion H4 as [|? ? Ht Hq]; subst.
    unfold Inv, unfinished in *. cbn [Pool.pending Pool.in_flight Pool.acc Pool.fault].
    rewrite Ep in H6. rewrite List.length_app. cbn [List.length] in *.
    repeat split; auto; try (apply Forall_app; now auto); lia.
  - intros st w0 i t Ei (H1 & H3 & H4 & H5 & H6 & H7 & H8 & H9).
    assert (Ht : ok t) by (eapply Forall_at; eauto).
    unfold Pool.settle. subst w0. rewrite scraper_download_skips by exact Ht.
    rewrite H3. unfold Scraper.tally. cbn [Scraper.res_status String.eqb Ascii.eqb
                                           Bool.eqb andb].
    cbn [mret M_ret fst snd].
    unfold Inv, unfinished in *. cbn [fst snd Pool.pending Pool.in_flight Pool.acc Pool.fault
                                  Scraper.skipped Scraper.downloaded Scraper.failed
                                  Scraper.dry_count] in *.
    pose proof (length_delete_lookup _ _ _ Ei).
    repeat split; auto; try (now apply Forall_delete_at); lia.
  - intros st w0 HI. exact HI.
  - unfold Inv, unfinished. cbn [Pool.init Pool.pending Pool.in_flight Pool.acc Pool.fault
                             Scraper.skipped Scraper.downloaded Scraper.failed
                             Scraper.dry_count List.length].
    repeat split; auto;
      try (apply List.Forall_forall; exact Hall); try (unfold total; lia).
  - destruct HI as (H1 & H3 & H4 & H5 & H6 & H7 & H8 & H9).
    rewrite H3 in Hrun. exists (Pool.acc st), w2. split; [exact Hrun|].
    unfold unfinished in H6. rewrite Hp, Hf in H6. cbn in H6.
    repeat split; auto. lia.
Qed.

End SkipFacts.

Lemma In_delete_or {A} (l : list A) (i : nat) (t x : A) :
  l !! i = Some t -> In x l -> In x (delete i l) \/ x = t.
Proof.
  revert i. induction l as [|y l IH]; intros [|i] E H; cbn in E; try discriminate E.
  - injection E as <-. destruct H as [<-|H]; auto.
  - destruct H as [<-|H]; [left; now left|].
    destruct (IH i E H) as [H'|H']; [left; now right | now right].
Qed.

Section FirstRunFacts.
Variable net : Net.

Lemma app_download_keeps fi root dry_run w r w' :
  App.download_file net fi root dry_run w = (r, w') -> keeps (fs w) (fs w').
Proof.
  intros H. pose proof (app_download_file_spec net fi root dry_run w) as S.
  cbv zeta in S. destruct dry_run.
  { rewrite S in H. injection H as _ <-. apply keeps_refl. }
  destruct (FS.exists_ (fs w) (App.dest_of root fi)).
  { rewrite S in H. injection H as _ <-. apply keeps_refl. }
  destruct (FS.mkdir_parents _ _) as [q|f'] eqn:Em.
  { rewrite S in H. injection H as _ <-. apply keeps_refl. }
  destruct (mkdir_parents_spec _ _ _ Em) as (_ & _ & Hk & _).
  destruct S as (o & k & es & _ & S). destruct o as [resp|].
  - destruct (FS.write _ _ f') as [q|f2] eqn:Ew; rewrite S in H;
      injection H as _ <-; cbn [fs evolve]; [exact Hk|].
    apply write_spec in Ew. destruct Ew as [_ Hk2]. eapply keeps_trans; eauto.
  - rewrite S in H. injection H as _ <-. exact Hk.
Qed.

(** A download that is not a dry run ends as failed, or with the file
    there. *)
Lemma app_download_present fi root w r w' :
  App.download_file net fi root false w = (inr r, w') ->
  r = "failed" \/ FS.exists_ (fs w') (App.dest_of root fi) = true.
Proof.
  intros H. pose proof (app_download_file_spec net fi root false w) as S.
  cbv zeta in S. cbn match in S.
  destruct (FS.exists_ (fs w) (App.dest_of root fi)) eqn:Ex.
  { rewrite S in H. injection H as _ <-. now right. }
  destruct (FS.mkdir_parents _ _) as [q|f'] eqn:Em; [rewrite S in H; discriminate H|].
  destruct S as (o & k & es & _ & S). destruct o as [resp|].
  - destruct (FS.write _ _ f') as [q|f2] eqn:Ew; rewrite S in H;
      [discriminate H|]. injection H as _ <-. right. cbn [fs evolve].
    apply write_spec in Ew. destruct Ew as [Ew _]. unfold FS.exists_. now rewrite Ew.
  - rewrite S in H. injection H as <- _. now left.
Qed.

Lemma count_failed_grows (counts : gmap string nat) (r : string) :
  (App.count counts "failed"
   <= App.count (<[r := (App.count counts r + 1)%nat]> counts) "failed")%nat
  /\ (r = "failed" ->
      (0 < App.count (<[r := (App.count counts r + 1)%nat]> counts) "failed")%nat).
Proof.
  rewrite count_insert. destruct (decide (r = "failed")) as [->|Hne].
  - split; [lia | intros _; lia].
  - split; [lia | congruence].
Qed.

(** After a run of the pool that was not a dry run, every file is there,
    unless something raised or some download failed. *)
Lemma app_pool_leaves_files ks all_files root workers w counts done w' :
  Pool.run (fun fi => App.download_file net fi root false)
           (App.tally (List.length all_files)) App.stop workers
           ks all_files (App.counts0, 0%nat) w
  = (inr (counts, done), w') ->
  App.count counts "failed" = 0%nat ->
  forall fi, In fi all_files -> FS.exists_ (fs w') (App.dest_of root fi) = true.
Proof.
  set (total := List.length all_files).
  set (Inv := fun (st : @Pool.State FileInfo (gmap string nat * nat)) (w1 : World) =>
                forall fi, In fi all_files ->
                  In fi (Pool.pending st) \/ In fi (Pool.in_flight st)
                  \/ FS.exists_ (fs w1) (App.dest_of root fi) = true
                  \/ Pool.fault st <> None
                  \/ (0 < App.count (fst (Pool.acc st)) "failed")%nat).
  intros H Hnf.
  destruct (pool_rule (fun fi => App.download_file net fi root false)
              (App.tally total) App.stop workers Inv) with
    (ks := ks) (items := all_files) (a := (App.counts0, 0%nat)) (w := w)
    as (st & w2 & _ & HI & Hp & Hf & Hrun).
  - intros st w0 t q Ep HI fi Hfi.
    cbn [Pool.pending Pool.in_flight Pool.acc Pool.fault].
    destruct (HI fi Hfi) as [Hq|[Hq|Hq]]; [| |tauto].
    + rewrite Ep in Hq. destruct Hq as [<-|Hq]; [|tauto].
      right. left. apply List.in_or_app. right. now left.
    + right. left. apply List.in_or_app. now left.
  - intros st w0 i t Ei HI fi Hfi. unfold Pool.settle.
    destruct (App.download_file net t root false w0) as [[e|r] w1] eqn:Et.
    { cbn [fst snd Pool.fault]. right. right. right. left. discriminate. }
    pose proof (app_download_keeps _ _ _ _ _ _ Et) as Hk.
    assert (Hcase : In fi (Pool.pending st) \/ In fi (delete i (Pool.in_flight st))
                    \/ FS.exists_ (fs w1) (App.dest_of root fi) = true
                    \/ Pool.fault st <> None
                    \/ (0 < App.count (fst (Pool.acc st)) "failed")%nat
                    \/ r = "failed").
    { destruct (HI fi Hfi) as [Hq|[Hq|[Hq|Hq]]]; [tauto| |eauto using keeps_exists|tauto].
      destruct (In_delete_or _ _ _ _ Ei Hq) as [Hd| ->]; [tauto|].
      destruct (app_download_present _ _ _ _ _ Et); tauto. }
    destruct (Pool.fault st) eqn:Ef.
    { cbn [fst snd Pool.pending Pool.in_flight Pool.fault Pool.acc].
      right. right. right. left. congruence. }
    destruct (Pool.acc st) as [c d] eqn:Ea. rewrite app_tally_run.
    cbn [fst snd Pool.pending Pool.in_flight Pool.fault Pool.acc fs after] in *.
    destruct (count_failed_grows c r) as [Hg1 Hg2].
    destruct Hcase as [Hq|[Hq|[Hq|[Hq|[Hq|Hq]]]]]; try tauto;
      right; right; right; right; lia.
  - intros st w0 HI fi Hfi. rewrite stop_run. cbn [snd fs]. auto.
  - intros fi Hfi. left. exact Hfi.
  - fold total in H. rewrite Hrun in H.
    destruct (Pool.fault st) eqn:Ef; [discriminate H|].
    injection H as Ha <-. intros fi Hfi.
    destruct (HI fi Hfi) as [Hq|[Hq|[Hq|[Hq|Hq]]]].
    + rewrite Hp in Hq. destruct Hq.
    + rewrite Hf in Hq. destruct Hq.
    + exact Hq.
    + congruence.
    + rewrite Ha in Hq. cbn [fst] in Hq. lia.
Qed.

End FirstRunFacts.

(** C3: in a run that is not a dry run, a file descriptor whose destination
    is there is recorded as skipped with no request and no other effect; so
    a download stage over a file list whose destinations are all there
    records every descriptor as skipped, none as downloaded, and issues no
    request; and that is the case for a second run after a first run of the
    same list and root in which no download failed. *)
Theorem skip_if_exists :
  (forall net fi root w,
      FS.exists_ (fs w) (App.dest_of root fi) = true ->
      App.download_file net fi root false w = (inr "skipped", w))
  /\ (forall net dir fi w,
         FS.exists_ (fs w) (Scraper.dest_of dir fi) = true ->
         Scraper.download_file net dir fi false w
         = (inr {| Scraper.res_url := fi_url fi;
                   Scraper.res_path := Scraper.dest_of dir fi;
                   Scraper.res_status := "skipped (exists)" |}, w))
  /\ (forall net ks all_files root threads w,
         (0 < threads)%Z ->
         (forall fi, In fi all_files ->
                     FS.exists_ (fs w) (App.dest_of root fi) = true) ->
         exists counts w',
           App.download_all net ks all_files root false threads w = (inr counts, w')
           /\ App.count counts "downloaded" = 0%nat
           /\ App.count counts "skipped" = List.length all_files
           /\ fs w' = fs w /\ requests w' = requests w)
  /\ (forall net ks1 ks2 all_files root threads w counts1 w1,
         App.download_all net ks1 all_files root false threads w = (inr counts1, w1) ->
         App.count counts1 "failed" = 0%nat ->
         exists counts2 w2,
           App.download_all net ks2 all_files root false threads w1 = (inr counts2, w2)
           /\ App.count counts2 "downloaded" = 0%nat
           /\ App.count counts2 "skipped" = List.length all_files
           /\ fs w2 = fs w1 /\ requests w2 = requests w1)
  /\ (forall net dir ks all_files threads w,
         (0 < threads)%Z ->
         (forall fi, In fi all_files ->
                     FS.exists_ (fs w) (Scraper.dest_of dir fi) = true) ->
         exists c,
           Scraper.download_all net dir ks all_files false threads w = (inr c, w)
           /\ Scraper.downloaded c = 0%nat
           /\ Scraper.skipped c = List.length all_files).
Proof.
  assert (Happ : forall net ks all_files root threads w,
             (0 < threads)%Z ->
             (forall fi, In fi all_files ->
                         FS.exists_ (fs w) (App.dest_of root fi) = true) ->
             exists counts w',
               App.download_all net ks all_files root false threads w
               = (inr counts, w')
               /\ App.count counts "downloaded" = 0%nat
               /\ App.count counts "skipped" = List.length all_files
               /\ fs w' = fs w /\ requests w' = requests w).
  { intros net ks all_files root threads w Ht Hall.
    destruct (app_pool_skips net ks all_files root (Z.to_nat threads) w Hall)
      as (counts & done & w' & E & H1 & H2 & _ & _ & H5 & H6).
    exists counts, w'. split; [|auto].
    unfold App.download_all, Pool.executor.
    destruct (Z.leb_spec threads 0); [lia|].
    rewrite bind_run. cbn [mret M_ret]. rewrite bind_run, E. reflexivity. }
  split; [exact app_download_skips|]. split; [exact scraper_download_skips|].
  split; [exact Happ|]. split.
  - intros net ks1 ks2 all_files root threads w counts1 w1 E Hnf.
    assert (Ht : (0 < threads)%Z).
    { unfold App.download_all, Pool.executor in E.
      destruct (Z.leb_spec threads 0); [discriminate E | assumption]. }
    apply Happ; [exact Ht|].
    unfold App.download_all, Pool.executor in E.
    destruct (threads <=? 0)%Z; [discriminate E|].
    rewrite bind_run in E. cbn [mret M_ret] in E. rewrite bind_run in E.
    destruct (Pool.run _ _ _ _ _ _ _ _) as [[e|[c d]] w2] eqn:Er; [discriminate E|].
    injection E as <- <-.
    eapply app_pool_leaves_files; eauto.
  - intros net dir ks all_files threads w Ht Hall.
    destruct (scraper_pool_skips net dir ks all_files (Z.to_nat threads) w Hall)
      as (c & w' & E & H1 & H2 & _ & _ & ->).
    exists c. split; [|auto].
    unfold Scraper.download_all, Pool.executor.
    destruct (Z.leb_spec threads 0); [lia|].
    rewrite bind_run. cbn [mret M_ret]. exact E.
Qed.

Lemma skip_if_exists_witness :
  let w := {| fs := <[ App.dest_of "downloads" Ref.p1 := File "paper one" ]> ∅;
              requests := 0; job_active := true; trace := [] |} in
  FS.exists_ (fs w) (App.dest_of "downloads" Ref.p1) = true
  /\ App.download_file Ref.net_site Ref.p1 "downloads" false w = (inr "skipped", w).
Proof.
  intros w.
  assert (Ex : FS.exists_ (fs w) (App.dest_of "downloads" Ref.p1) = true)
    by (vm_compute; reflexivity).
  split; [exact Ex|].
  exact (proj1 skip_if_exists Ref.net_site Ref.p1 "downloads" w Ex).
Defined.

(** Two runs over the small site: the first downloads both papers, the
    second skips both. *)
Example second_run_skips :
  let counts_of (r : (Exc + gmap string nat) * World) :=
    match fst r with
    | inr c => Some (App.count c "downloaded", App.count c "skipped")
    | inl _ => None
    end in
  let run1 := App.download_all Ref.net_site [Pool.Dispatch; Pool.Finish 0]
                               [Ref.p1; Ref.p2] "downloads" false 1 Ref.w0 in
  let run2 := App.download_all Ref.net_site [] [Ref.p1; Ref.p2] "downloads"
                               false 1 (snd run1) in
  counts_of run1 = Some (2%nat, 0%nat) /\ counts_of run2 = Some (0%nat, 2%nat).
Proof. vm_compute. split; reflexivity. Qed.

(** ** The stop request *)

(** Whether a worker takes the next queued item does not depend on the
    world, so not on [_job_active] either: after a stop request the pool
    dispatches as before. *)
Lemma dispatch_ignores_stop {T R Acc} (task : T -> M R) (body : R -> Acc -> M Acc)
    (workers : nat) (st : @Pool.State T Acc) (w : World) :
  Pool.tick task body App.stop workers Pool.Dispatch (st, snd (App.stop w))
  = (fst (Pool.tick task body App.stop workers Pool.Dispatch (st, w)),
     snd (App.stop w)).
Proof.
  cbn [Pool.tick]. destruct (Pool.pending st) as [|t q]; [reflexivity|].
  destruct (_ <? _)%nat; reflexivity.
Qed.

(** C9, on the code: a job over the small site with one worker, where the
    stop request comes after both downloads were submitted and before any
    was dispatched.  Nothing is in flight at the stop; both papers are
    dispatched and fetched after it, and the job reports two downloads. *)
Theorem stop_does_not_hold_back_downloads :
  let ks := [Pool.External; Pool.Dispatch; Pool.Finish 0;
             Pool.Dispatch; Pool.Finish 0] in
  let run := App.run_job Ref.net_site Ref.urljoin Ref.url_path Ref.path_suffix
                         Ref.path_stem ks [] [] "downloads" false 1 Ref.w0 in
  let at_stop :=
    Pool.run_ticks (fun fi => App.download_file Ref.net_site fi "downloads" false)
                   (App.tally 2) App.stop 1 [Pool.External]
                   (Pool.init [Ref.p1; Ref.p2] (App.counts0, 0%nat), Ref.w0) in
  Pool.in_flight (fst at_stop) = []
  /\ job_active (snd at_stop) = false
  /\ requests_and_stops (trace (snd run))
     = [ HttpGet INDEX_URL; HttpGet Ref.session_url; StopRequested;
         HttpGet Ref.p1_url; HttpGet Ref.p2_url ]
  /\ last (trace (snd run)) = Some (Emit "done" (MCounts 2 0 0 0)).
Proof. vm_compute. repeat split; reflexivity. Qed.

(** * Further properties *)

(** ** More on the sanitiser *)

Lemma rstrip_clean (y : list ascii) :
  Forall legal y -> ws_normal false y -> starts_ws y = false ->
  (List.length y <= 120)%nat ->
  clean_name (rstrip y).
Proof.
  intros H1 H2 H3 H4. destruct (rstrip_head y) as [t Ht].
  unfold clean_name. repeat split.
  - rewrite Ht in H1. now apply Forall_head in H1.
  - rewrite Ht in H2. now apply ws_normal_head in H2.
  - rewrite Ht in H3. now apply starts_ws_head in H3.
  - unfold rstrip. rewrite rev_involutive. apply lstrip_head.
  - apply (f_equal (@List.length ascii)) in Ht. rewrite List.length_app in Ht. lia.
Qed.

Lemma clean_name_fixed (l : list ascii) : clean_name l -> sanitise_chars l = l.
Proof.
  intros (H1 & H2 & H3 & H4 & H5). unfold sanitise_chars.
  rewrite (sub_illegal_id l H1). unfold Regex.sub_ws.
  rewrite (sub_ws_from_id false l H2). unfold strip.
  rewrite (lstrip_id l H3), (rstrip_id l H4).
  now apply List.firstn_all2.
Qed.

(** X1: whatever the input, the sanitised name holds none of the nine
    illegal characters, its only whitespace is single spaces (never two in
    a row, none in front), and it has at most 120 characters. *)
Theorem sanitise_normal_form (x : string) :
  let y := chars (sanitise x) in
  Forall (fun c => PyChar.illegal c = false) y
  /\ ws_normal false y
  /\ (forall c, In c y -> PyChar.isspace c = true -> c = " "%char)
  /\ starts_ws y = false
  /\ (String.length (sanitise x) <= 120)%nat.
Proof.
  cbv zeta. rewrite <- length_chars. unfold sanitise. rewrite chars_str.
  destruct (sanitise_chars_shape (chars x)) as (H1 & H2 & H3 & H4).
  repeat split; auto.
  intros c Hc Hs. eapply ws_normal_In; eauto.
Qed.

(** X2: the sanitiser returns a name unchanged exactly when the name is
    clean: no illegal character, whitespace as single spaces only, none at
    either end, at most 120 characters. *)
Theorem sanitise_fixed_points (x : string) :
  sanitise x = x <-> clean_name (chars x).
Proof.
  split.
  - intros H.
    assert (H2 : sanitise (sanitise x) = sanitise x) by (now rewrite H).
    apply sanitise_fixed_only_without_space in H2.
    rewrite sanitise_ends_space in H2.
    destruct (sanitise_chars_shape (chars x)) as (S1 & S2 & S3 & S4).
    assert (E : sanitise_chars (chars x) = chars x).
    { rewrite <- H at 2. unfold sanitise. now rewrite chars_str. }
    rewrite E in *. unfold clean_name. auto.
  - intros H. unfold sanitise. rewrite (clean_name_fixed _ H). apply str_chars.
Qed.

(** X3: a second pass of the sanitiser always gives a clean name, so a
    third pass changes nothing; the folder of a session, named by the
    sanitised form of its already sanitised title, is such a name. *)
Theorem sanitise_second_pass_is_final (x : string) :
  clean_name (chars (sanitise (sanitise x)))
  /\ sanitise (sanitise (sanitise x)) = sanitise (sanitise x).
Proof.
  assert (C : clean_name (chars (sanitise (sanitise x)))).
  { rewrite sanitise_twice, chars_str.
    destruct (sanitise_chars_shape (chars x)) as (S1 & S2 & S3 & S4).
    now apply rstrip_clean. }
  split; [exact C|]. unfold sanitise at 1.
  rewrite (clean_name_fixed _ C). apply str_chars.
Qed.

(** ** The labels of the classifier *)

Lemma span_fst_Forall (f : ascii -> bool) (l : list ascii) :
  Forall (fun c => f c = true) (fst (span f l)).
Proof.
  induction l as [|c r IH]; cbn [span]; [constructor|].
  destruct (f c) eqn:E; [|constructor].
  destruct (span f r) as [a b]. cbn [fst] in *. now constructor.
Qed.

Lemma match_grade_digits (l g : list ascii) :
  Direct.match_grade_at l = Some g ->
  g <> [] /\ Forall (fun c => PyChar.isdecimal c = true) g.
Proof.
  unfold Direct.match_grade_at.
  destruct (strip_prefix (chars "gr") l) as [r1|]; [|discriminate].
  set (r4 := snd (span PyChar.isspace _)).
  pose proof (span_fst_Forall PyChar.isdecimal r4) as H.
  destruct (fst (span PyChar.isdecimal r4)) as [|d ds]; [discriminate|].
  intros [= <-]. split; [discriminate | exact H].
Qed.

Lemma search_grade_digits (l g : list ascii) :
  Direct.search_grade l = Some g ->
  g <> [] /\ Forall (fun c => PyChar.isdecimal c = true) g.
Proof.
  induction l as [|c r IH]; cbn [Direct.search_grade].
  - destruct (Direct.match_grade_at []) eqn:E; [|discriminate].
    intros [= <-]. eapply match_grade_digits; eauto.
  - destruct (Direct.match_grade_at (c :: r)) eqn:E; [|exact IH].
    intros [= <-]. eapply match_grade_digits; eauto.
Qed.

Lemma contains_startswith (p l : list ascii) :
  startswith p l = true -> contains p l = true.
Proof. intros H. destruct l; cbn [contains]; now rewrite H. Qed.

Lemma contains_cons (p l : list ascii) (c : ascii) :
  contains p l = true -> contains p (c :: l) = true.
Proof. intros H. cbn [contains]. rewrite H. apply orb_true_r. Qed.

Lemma match_year_shape (prev : option ascii) (l y : list ascii) :
  Direct.match_year_at prev l = Some y ->
  (exists c d, PyChar.isdecimal c = true /\ PyChar.isdecimal d = true
               /\ y = ["2"; "0"; c; d]%char)
  /\ startswith y l = true.
Proof.
  unfold Direct.match_year_at.
  destruct l as [|c1 [|c2 [|c3 [|c4 rest]]]]; try discriminate.
  destruct (Regex.word_boundary prev (Some c1)); [|discriminate].
  destruct (Ascii.eqb_spec c1 "2") as [->|]; [|discriminate].
  destruct (Ascii.eqb_spec c2 "0") as [->|]; [|discriminate].
  destruct (PyChar.isdecimal c3) eqn:E3; [|discriminate].
  destruct (PyChar.isdecimal c4) eqn:E4; [|discriminate].
  destruct (Regex.word_boundary (Some c4) (head rest)); [|discriminate].
  intros [= <-]. split; [now exists c3, c4|].
  apply (startswith_app ["2"; "0"; c3; c4]%char rest).
Qed.

Lemma search_year_shape (prev : option ascii) (l y : list ascii) :
  Direct.search_year prev l = Some y ->
  (exists c d, PyChar.isdecimal c = true /\ PyChar.isdecimal d = true
               /\ y = ["2"; "0"; c; d]%char)
  /\ contains y l = true.
Proof.
  revert prev. induction l as [|c r IH]; intros prev;
    cbn [Direct.search_year].
  - destruct (Direct.match_year_at prev []) eqn:E; [|discriminate].
    intros [= <-]. apply match_year_shape in E. destruct E as [E1 E2].
    split; [exact E1 | now apply contains_startswith].
  - destruct (Direct.match_year_at prev (c :: r)) eqn:E.
    + intros [= <-]. apply match_year_shape in E. destruct E as [E1 E2].
      split; [exact E1 | now apply contains_startswith].
    + intros H. apply IH in H. destruct H as [H1 H2].
      split; [exact H1 | now apply contains_cons].
Qed.

(** X4: the grade label of any text is the word Grade followed by a
    space and a non-empty run of decimal digits, or one of the three fixed
    labels Grade 9 (GEC), ANA (Grades 1-6 & 9) and Other. *)
Theorem detect_grade_labels (text : string) :
  (exists ds, ds <> [] /\ Forall (fun c => PyChar.isdecimal c = true) ds
              /\ detect_grade text = String.append "Grade " (str ds))
  \/ detect_grade text = "Grade 9 (GEC)"
  \/ detect_grade text = "ANA (Grades 1-6 & 9)"
  \/ detect_grade text = "Other".
Proof.
  unfold detect_grade. cbv zeta.
  destruct (Regex.search_grade _) as [g|] eqn:E.
  - left. unfold Regex.search_grade in E. rewrite search_grade_direct in E.
    apply search_grade_digits in E. destruct E as [E1 E2].
    exists g. auto.
  - right. destruct (_ || _); [now left|].
    destruct (_ || _); [right; now left | right; now right].
Qed.

(** X5: the year label of any text is Unknown Year, or four characters,
    20 followed by two decimal digits, that occur in the text. *)
Theorem detect_year_labels (text : string) :
  detect_year text = "Unknown Year"
  \/ (exists c d, PyChar.isdecimal c = true /\ PyChar.isdecimal d = true
                  /\ detect_year text = str ["2"; "0"; c; d]%char)
     /\ S.contains (detect_year text) text = true.
Proof.
  unfold detect_year.
  destruct (Regex.search_year (chars text)) as [y|] eqn:E; [|now left].
  right. unfold Regex.search_year in E. rewrite search_year_direct in E.
  apply search_year_shape in E. destruct E as [(c & d & Hc & Hd & ->) E2].
  split; [now exists c, d|].
  unfold S.contains. now rewrite chars_str.
Qed.

(** ** More on the index extractor *)

Lemma NoDup_snoc {A} (l : list A) (x : A) :
  List.NoDup l -> ~ In x l -> List.NoDup (l ++ [x]).
Proof.
  induction 1 as [|y l Hy Hl IH]; cbn [app]; intros Hx.
  - constructor; [intros [] | constructor].
  - constructor.
    + intros H. apply List.in_app_or in H. destruct H as [H|[->|[]]]; [tauto|].
      apply Hx. now left.
    + apply IH. intros H. apply Hx. now right.
Qed.

Section IndexMore.
Variable urljoin : string -> string -> string.

Lemma known_url (ss : list ExamSession) (u : string) :
  existsb (fun s => String.eqb (es_url s) u) ss = false ->
  ~ In u (map es_url ss).
Proof.
  intros H Hin. apply List.in_map_iff in Hin. destruct Hin as (s & <- & Hs).
  assert (E : existsb (fun s' => String.eqb (es_url s') (es_url s)) ss = true).
  { apply List.existsb_exists. exists s. split; [exact Hs | apply String.eqb_refl]. }
  congruence.
Qed.

Lemma index_round_NoDup gp yp ss a :
  List.NoDup (map es_url ss) ->
  List.NoDup (map es_url (index_round urljoin gp yp ss a)).
Proof.
  intros H. unfold index_round. cbv zeta.
  destruct (candidate urljoin a && _ && _) ; [|exact H].
  destruct (existsb _ ss) eqn:E; [exact H|]. cbn [andb negb].
  rewrite List.map_app. cbn [map].
  apply NoDup_snoc; [exact H | now apply known_url].
Qed.

Lemma index_rounds_NoDup gp yp anchors ss :
  List.NoDup (map es_url ss) ->
  List.NoDup (map es_url (index_rounds urljoin gp yp anchors ss)).
Proof.
  unfold index_rounds. revert ss.
  induction anchors as [|a r IH]; cbn [fold_left]; intros ss H; [exact H|].
  apply IH. now apply index_round_NoDup.
Qed.

Lemma index_round_ext gp yp gp' yp' ss a :
  (forall g, gp g = gp' g) -> (forall y, yp y = yp' y) ->
  index_round urljoin gp yp ss a = index_round urljoin gp' yp' ss a.
Proof. intros Hg Hy. unfold index_round. cbv zeta. now rewrite Hg, Hy. Qed.

Lemma index_rounds_ext gp yp gp' yp' anchors ss :
  (forall g, gp g = gp' g) -> (forall y, yp y = yp' y) ->
  index_rounds urljoin gp yp anchors ss = index_rounds urljoin gp' yp' anchors ss.
Proof.
  intros Hg Hy. unfold index_rounds. revert ss.
  induction anchors as [|a r IH]; cbn [fold_left]; intros ss; [reflexivity|].
  rewrite (index_round_ext gp yp gp' yp' ss a Hg Hy). apply IH.
Qed.

End IndexMore.

Lemma grade_passes_as_list (gf : option string) (grade : string) :
  App.grade_passes (as_list gf) grade = Scraper.grade_passes gf grade.
Proof.
  unfold App.grade_passes, Scraper.grade_passes, as_list.
  destruct gf as [s|]; [|reflexivity].
  destruct (S.truthy s); [|reflexivity].
  cbn [existsb]. rewrite bool_decide_eq_false_2 by discriminate.
  cbn [negb andb]. now rewrite orb_false_r.
Qed.

Lemma year_passes_as_list (yf : option string) (year : string) :
  App.year_passes (as_list yf) year = Scraper.year_passes yf year.
Proof.
  unfold App.year_passes, Scraper.year_passes, as_list, S.member.
  destruct yf as [s|]; [|reflexivity].
  destruct (S.truthy s); [|reflexivity].
  cbn [existsb]. rewrite bool_decide_eq_false_2 by discriminate.
  cbn [negb andb]. now rewrite orb_false_r, String.eqb_sym.
Qed.

(** X6: the sessions an index loop returns have pairwise different
    URLs, with any filters, in the web front end and in the command line
    tool. *)
Theorem index_urls_are_distinct :
  forall (urljoin : string -> string -> string) (anchors : list Anchor),
    (forall gfs yfs,
        List.NoDup (map es_url (App.index_loop urljoin gfs yfs anchors)))
    /\ (forall gf yf,
           List.NoDup (map es_url (Scraper.index_loop urljoin gf yf anchors))).
Proof.
  intros urljoin anchors. split; intros.
  - rewrite app_index_loop_rounds. apply index_rounds_NoDup. constructor.
  - rewrite scraper_index_loop_rounds. apply index_rounds_NoDup. constructor.
Qed.

(** X7: filters only narrow the result: every session URL found with
    filters is also found without any. *)
Theorem filters_only_narrow :
  forall (urljoin : string -> string -> string) (anchors : list Anchor),
    (forall gfs yfs,
        incl (map es_url (App.index_loop urljoin gfs yfs anchors))
             (map es_url (App.index_loop urljoin [] [] anchors)))
    /\ (forall gf yf,
           incl (map es_url (Scraper.index_loop urljoin gf yf anchors))
                (map es_url (Scraper.index_loop urljoin None None anchors))).
Proof.
  intros urljoin anchors. split.
  - intros gfs yfs u H. apply List.in_map_iff in H. destruct H as (s & <- & H).
    apply app_index_loop_in in H.
    destruct H as (a & Ha & -> & Hc & _).
    rewrite app_index_loop_rounds.
    destruct (index_rounds_take urljoin (App.grade_passes []) (App.year_passes [])
                anchors [] a Ha Hc eq_refl eq_refl) as (s & Hs & <-).
    now apply List.in_map.
  - intros gf yf u H. apply List.in_map_iff in H. destruct H as (s & <- & H).
    apply scraper_index_loop_in in H.
    destruct H as (a & Ha & -> & Hc & _).
    rewrite scraper_index_loop_rounds.
    destruct (index_rounds_take urljoin (Scraper.grade_passes None)
                (Scraper.year_passes None)
                anchors [] a Ha Hc eq_refl eq_refl) as (s & Hs & <-).
    now apply List.in_map.
Qed.

(** X8: with one grade filter and one year filter the index loop of the
    web front end returns exactly the sessions of the index loop of the
    command line tool; a missing or empty filter of the tool corresponds
    to the empty list. *)
Theorem index_loops_agree :
  forall (urljoin : string -> string -> string) (gf yf : option string)
         (anchors : list Anchor),
    App.index_loop urljoin (as_list gf) (as_list yf) anchors
    = Scraper.index_loop urljoin gf yf anchors.
Proof.
  intros. rewrite app_index_loop_rounds, scraper_index_loop_rounds.
  apply index_rounds_ext.
  - intros g. apply grade_passes_as_list.
  - intros y. apply year_passes_as_list.
Qed.

(** ** More on the session extractor *)

Section SessionMore.
Variable urljoin : string -> string -> string.
Variables url_path path_suffix path_stem : string -> string.

Lemma truthy_false (s : string) : S.truthy s = false -> s = "".
Proof.
  unfold S.truthy. intros H. apply negb_false_iff in H. now apply String.eqb_eq.
Qed.

Lemma session_steps_agree es st a :
  S.member (S.lower (path_suffix (url_path ""))) doc_exts = false ->
  Scraper.session_step urljoin url_path path_suffix path_stem es st a
  = App.session_step urljoin url_path path_suffix path_stem es st a.
Proof.
  intros H. unfold Scraper.session_step, App.session_step, App._sanitise.
  destruct st as [files seen]. cbv zeta.
  destruct (S.truthy (S.strip (a_href a))) eqn:Et; cbn [negb].
  - destruct (negb (S.member _ doc_exts)); [reflexivity|].
    destruct (bool_decide _); [reflexivity|].
    now destruct (S.endswith _ _).
  - apply truthy_false in Et. rewrite Et, H. reflexivity.
Qed.

Lemma app_session_step_ok es st a :
  seen_ok st ->
  seen_ok (App.session_step urljoin url_path path_suffix path_stem es st a).
Proof.
  intros [H1 H2]. unfold App.session_step. destruct st as [files seen].
  cbv zeta. cbn [fst snd] in *.
  destruct (negb (S.member _ doc_exts)); [now split|].
  destruct (bool_decide_reflect (urljoin (es_url es) (S.strip (a_href a)) ∈ seen))
    as [Hin|Hin]; [now split|].
  split; cbn [fst snd]; rewrite List.map_app; cbn [map fi_url].
  - apply NoDup_snoc; [exact H1|]. intros H. apply Hin. now apply H2.
  - intros u. rewrite elem_of_union, elem_of_singleton, H2, List.in_app_iff.
    cbn [In]. intuition congruence.
Qed.

Lemma app_session_step_session es st a :
  Forall (fun fi => fi_exam_session fi = es) (fst st) ->
  Forall (fun fi => fi_exam_session fi = es)
         (fst (App.session_step urljoin url_path path_suffix path_stem es st a)).
Proof.
  intros H. unfold App.session_step. destruct st as [files seen].
  cbv zeta. cbn [fst snd] in *.
  destruct (negb (S.member _ doc_exts)); [exact H|].
  destruct (bool_decide _); [exact H|]. cbn [fst].
  apply Forall_app. split; [exact H|]. repeat constructor.
Qed.

Lemma app_session_loop_ok es anchors :
  List.NoDup (map fi_url
    (App.session_loop urljoin url_path path_suffix path_stem es anchors))
  /\ Forall (fun fi => fi_exam_session fi = es)
       (App.session_loop urljoin url_path path_suffix path_stem es anchors).
Proof.
  unfold App.session_loop.
  assert (G : forall st,
             seen_ok st /\ Forall (fun fi => fi_exam_session fi = es) (fst st) ->
             let st' := fold_left (App.session_step urljoin url_path path_suffix
                                     path_stem es) anchors st in
             seen_ok st' /\ Forall (fun fi => fi_exam_session fi = es) (fst st')).
  { induction anchors as [|a r IH]; cbn [fold_left]; intros st H; [exact H|].
    apply IH. destruct H as [H1 H2].
    split; [now apply app_session_step_ok | now apply app_session_step_session]. }
  destruct (G ([], ∅)) as [[H1 _] H2].
  - split; [split|]; cbn [fst snd map].
    + constructor.
    + intros u. rewrite elem_of_empty. cbn [In]. tauto.
    + constructor.
  - split; assumption.
Qed.

Lemma scraper_session_step_ok es st a :
  seen_ok st ->
  seen_ok (Scraper.session_step urljoin url_path path_suffix path_stem es st a).
Proof.
  intros [H1 H2]. unfold Scraper.session_step. destruct st as [files seen].
  cbv zeta. cbn [fst snd] in *.
  destruct (negb (S.truthy _)); [now split|].
  destruct (negb (S.member _ doc_exts)); [now split|].
  destruct (bool_decide_reflect (urljoin (es_url es) (S.strip (a_href a)) ∈ seen))
    as [Hin|Hin]; [now split|].
  split; cbn [fst snd]; rewrite List.map_app; cbn [map fi_url].
  - apply NoDup_snoc; [exact H1|]. intros H. apply Hin. now apply H2.
  - intros u. rewrite elem_of_union, elem_of_singleton, H2, List.in_app_iff.
    cbn [In]. intuition congruence.
Qed.

Lemma scraper_session_step_session es st a :
  Forall (fun fi => fi_exam_session fi = es) (fst st) ->
  Forall (fun fi => fi_exam_session fi = es)
         (fst (Scraper.session_step urljoin url_path path_suffix path_stem es st a)).
Proof.
  intros H. unfold Scraper.session_step. destruct st as [files seen].
  cbv zeta. cbn [fst snd] in *.
  destruct (negb (S.truthy _)); [exact H|].
  destruct (negb (S.member _ doc_exts)); [exact H|].
  destruct (bool_decide _); [exact H|]. cbn [fst].
  apply Forall_app. split; [exact H|]. repeat constructor.
Qed.

Lemma scraper_session_loop_ok es anchors :
  List.NoDup (map fi_url
    (Scraper.session_loop urljoin url_path path_suffix path_stem es anchors))
  /\ Forall (fun fi => fi_exam_session fi = es)
       (Scraper.session_loop urljoin url_path path_suffix path_stem es anchors).
Proof.
  unfold Scraper.session_loop.
  assert (G : forall st,
             seen_ok st /\ Forall (fun fi => fi_exam_session fi = es) (fst st) ->
             let st' := fold_left (Scraper.session_step urljoin url_path path_suffix
                                     path_stem es) anchors st in
             seen_ok st' /\ Forall (fun fi => fi_exam_session fi = es) (fst st')).
  { induction anchors as [|a r IH]; cbn [fold_left]; intros st H; [exact H|].
    apply IH. destruct H as [H1 H2].
    split; [now apply scraper_session_step_ok
           | now apply scraper_session_step_session]. }
  destruct (G ([], ∅)) as [[H1 _] H2].
  - split; [split|]; cbn [fst snd map].
    + constructor.
    + intros u. rewrite elem_of_empty. cbn [In]. tauto.
    + constructor.
  - split; assumption.
Qed.

Lemma session_loops_agree es anchors :
  S.member (S.lower (path_suffix (url_path ""))) doc_exts = false ->
  Scraper.session_loop urljoin url_path path_suffix path_stem es anchors
  = App.session_loop urljoin url_path path_suffix path_stem es anchors.
Proof.
  intros H. unfold Scraper.session_loop, App.session_loop. f_equal.
  generalize (@nil FileInfo, (∅ : gset string)).
  induction anchors as [|a r IH]; cbn [fold_left]; intros st; [reflexivity|].
  rewrite (session_steps_agree es st a H). apply IH.
Qed.

End SessionMore.

(** X9: when the suffix of the empty path is not a document extension
    (as with [pathlib]), the session loop of the command line tool, which
    skips links with an empty target first, returns exactly the files of
    the session loop of the web front end. *)
Theorem session_extractors_agree :
  forall (urljoin : string -> string -> string)
         (url_path path_suffix path_stem : string -> string)
         (es : ExamSession) (anchors : list Anchor),
    S.member (S.lower (path_suffix (url_path ""))) doc_exts = false ->
    Scraper.session_loop urljoin url_path path_suffix path_stem es anchors
    = App.session_loop urljoin url_path path_suffix path_stem es anchors.
Proof. intros. now apply session_loops_agree. Qed.

Lemma session_extractors_agree_witness :
  S.member (S.lower (Ref.path_suffix (Ref.url_path ""))) doc_exts = false
  /\ Scraper.session_loop Ref.urljoin Ref.url_path Ref.path_suffix Ref.path_stem
       Ref.the_session
       [ {| a_href := ""; a_text := "Top" |};
         {| a_href := "p1.pdf"; a_text := "Maths P1" |} ]
     = App.session_loop Ref.urljoin Ref.url_path Ref.path_suffix Ref.path_stem
         Ref.the_session
         [ {| a_href := ""; a_text := "Top" |};
           {| a_href := "p1.pdf"; a_text := "Maths P1" |} ].
Proof.
  split; [reflexivity|].
  apply (session_extractors_agree Ref.urljoin Ref.url_path Ref.path_suffix
           Ref.path_stem). reflexivity.
Defined.

(** X10: the files a session loop returns have pairwise different URLs
    and all carry the session they were found in. *)
Theorem session_files_are_distinct :
  forall (urljoin : string -> string -> string)
         (url_path path_suffix path_stem : string -> string)
         (es : ExamSession) (anchors : list Anchor),
    let app_files := App.session_loop urljoin url_path path_suffix path_stem
                                      es anchors in
    let cli_files := Scraper.session_loop urljoin url_path path_suffix path_stem
                                          es anchors in
    List.NoDup (map fi_url app_files)
    /\ Forall (fun fi => fi_exam_session fi = es) app_files
    /\ List.NoDup (map fi_url cli_files)
    /\ Forall (fun fi => fi_exam_session fi = es) cli_files.
Proof.
  intros. 
  destruct (app_session_loop_ok urljoin url_path path_suffix path_stem es anchors).
  destruct (scraper_session_loop_ok urljoin url_path path_suffix path_stem es anchors).
  auto.
Qed.

(** ** The fetch with retries *)

Section FetchMore.
Variable net : Net.

Lemma app_get_first (url : string) (w : World) :
  exists o k es,
    App._get net url w = (inr o, after w k es)
    /\ fetched net App.DELAY url w o k es.
Proof.
  unfold App._get, App._get_from, App.MAX_RETRY, App.DELAY, sleep, App.emit.
  mrun. rewrite Nat.add_0_r.
  destruct (net (requests w) url) as [e1|r1] eqn:E1.
  - mrun. destruct (net (requests w + 1)%nat url) as [e2|r2] eqn:E2.
    + mrun. destruct (net (requests w + 2)%nat url) as [e3|r3] eqn:E3.
      * mrun. eexists None, 3%nat, _. split; [reflexivity|].
        unfold fetched; cbn [requested flat_map app repeat total_sleep fold_right].
        split; [lia|]. split.
        { intros i Hi. assert (i = 0 \/ i = 1)%nat as [-> | ->] by lia;
            [rewrite Nat.add_0_r|]; eauto. }
        split; [eauto|]. split; [reflexivity|]. split; [reflexivity|].
        repeat constructor.
      * mrun. eexists (Some r3), 3%nat, _. split; [reflexivity|].
        unfold fetched; cbn [requested flat_map app repeat total_sleep fold_right].
        split; [lia|]. split.
        { intros i Hi. assert (i = 0 \/ i = 1)%nat as [-> | ->] by lia;
            [rewrite Nat.add_0_r|]; eauto. }
        split; [exact E3|]. split; [reflexivity|]. split; [reflexivity|].
        repeat constructor.
    + eexists (Some r2), 2%nat, _. split; [reflexivity|].
      unfold fetched; cbn [requested flat_map app repeat total_sleep fold_right].
      split; [lia|]. split.
      { intros i Hi. assert (i = 0)%nat as -> by lia. rewrite Nat.add_0_r. eauto. }
      split; [exact E2|]. split; [reflexivity|]. split; [reflexivity|].
      repeat constructor.
  - eexists (Some r1), 1%nat, _. split; [reflexivity|].
    unfold fetched; cbn [requested flat_map app repeat total_sleep fold_right].
    split; [lia|]. split; [intros i Hi; lia|].
    split; [now rewrite Nat.add_0_r|]. split; [reflexivity|]. split; [reflexivity|].
    repeat constructor.
Qed.

Lemma scraper_get_first (url : string) (w : World) :
  exists o k es,
    Scraper.safe_get net url w = (inr o, after w k es)
    /\ fetched net Scraper.DELAY_BETWEEN_REQUESTS url w o k es.
Proof.
  unfold Scraper.safe_get, Scraper.safe_get_from, Scraper.MAX_RETRIES,
    Scraper.DELAY_BETWEEN_REQUESTS, sleep, Scraper.log.
  mrun. rewrite Nat.add_0_r.
  destruct (net (requests w) url) as [e1|r1] eqn:E1.
  - mrun. destruct (net (requests w + 1)%nat url) as [e2|r2] eqn:E2.
    + mrun. destruct (net (requests w + 2)%nat url) as [e3|r3] eqn:E3.
      * mrun. eexists None, 3%nat, _. split; [reflexivity|].
        unfold fetched; cbn [requested flat_map app repeat total_sleep fold_right].
        split; [lia|]. split.
        { intros i Hi. assert (i = 0 \/ i = 1)%nat as [-> | ->] by lia;
            [rewrite Nat.add_0_r|]; eauto. }
        split; [eauto|]. split; [reflexivity|]. split; [reflexivity|].
        repeat constructor.
      * mrun. eexists (Some r3), 3%nat, _. split; [reflexivity|].
        unfold fetched; cbn [requested flat_map app repeat total_sleep fold_right].
        split; [lia|]. split.
        { intros i Hi. assert (i = 0 \/ i = 1)%nat as [-> | ->] by lia;
            [rewrite Nat.add_0_r|]; eauto. }
        split; [exact E3|]. split; [reflexivity|]. split; [reflexivity|].
        repeat constructor.
    + eexists (Some r2), 2%nat, _. split; [reflexivity|].
      unfold fetched; cbn [requested flat_map app repeat total_sleep fold_right].
      split; [lia|]. split.
      { intros i Hi. assert (i = 0)%nat as -> by lia. rewrite Nat.add_0_r. eauto. }
      split; [exact E2|]. split; [reflexivity|]. split; [reflexivity|].
      repeat constructor.
  - eexists (Some r1), 1%nat, _. split; [reflexivity|].
    unfold fetched; cbn [requested flat_map app repeat total_sleep fold_right].
    split; [lia|]. split; [intros i Hi; lia|].
    split; [now rewrite Nat.add_0_r|]. split; [reflexivity|]. split; [reflexivity|].
    repeat constructor.
Qed.

End FetchMore.

(** X11: a fetch never raises and leaves the file tree alone; it makes
    between one and three requests, all for the given URL, stops at the
    first that succeeds and returns its reply, and returns nothing only
    when all three failed; its pauses add up to one delay per request plus
    2 s and 4 s of back-off after the first and second failure, at most
    7.2 s in the web front end and 7.5 s in the command line tool. *)
Theorem fetch_returns_first_success :
  forall (net : Net) (url : string) (w : World),
    (exists o k es,
        App._get net url w = (inr o, after w k es)
        /\ fetched net 400 url w o k es
        /\ (total_sleep es <= 7200)%N)
    /\ (exists o k es,
           Scraper.safe_get net url w = (inr o, after w k es)
           /\ fetched net 500 url w o k es
           /\ (total_sleep es <= 7500)%N).
Proof.
  intros net url w. split.
  - destruct (app_get_first net url w) as (o & k & es & E & F).
    exists o, k, es. split; [exact E|]. split; [exact F|].
    destruct F as ((H1 & H2) & _ & _ & _ & -> & _). unfold App.DELAY.
    assert (k = 1 \/ k = 2 \/ k = 3)%nat as [-> | [-> | ->]] by lia;
      vm_compute; discriminate.
  - destruct (scraper_get_first net url w) as (o & k & es & E & F).
    exists o, k, es. split; [exact E|]. split; [exact F|].
    destruct F as ((H1 & H2) & _ & _ & _ & -> & _).
    unfold Scraper.DELAY_BETWEEN_REQUESTS.
    assert (k = 1 \/ k = 2 \/ k = 3)%nat as [-> | [-> | ->]] by lia;
      vm_compute; discriminate.
Qed.

(** ** The scan stage *)

Lemma fetch_is_scan (e : Effect) : is_fetch_effect e = true -> is_scan_effect e = true.
Proof.
  destruct e as [ms|u|k m|l m|m|p|p c|]; cbn; try (intros; congruence).
  intros H. apply String.eqb_eq in H. now subst k.
Qed.

Lemma fetched_scan net delay url w o k es :
  fetched net delay url w o k es ->
  (1 <= k <= 3)%nat /\ Forall (fun e => is_scan_effect e = true) es.
Proof.
  intros (H1 & _ & _ & _ & _ & H2). split; [exact H1|].
  eapply List.Forall_impl; [|exact H2]. exact fetch_is_scan.
Qed.

Section ScanFacts.
Variable net : Net.
Variable urljoin : string -> string -> string.
Variables url_path path_suffix path_stem : string -> string.

Lemma app_scrape_index_shape gfs yfs (w : World) :
  exists ss k es,
    App.scrape_index net urljoin gfs yfs w = (inr ss, after w k es)
    /\ (1 <= k <= 3)%nat
    /\ Forall (fun e => is_scan_effect e = true) es.
Proof.
  unfold App.scrape_index, App.emit. mrun.
  destruct (app_get_first net INDEX_URL (after w 0 [Emit "info" MFetchingIndex]))
    as (o & k & es & E & F).
  apply fetched_scan in F. destruct F as [F1 F2].
  rewrite E. mrun. destruct o as [r|]; mrun.
  - eexists _, _, _. split; [reflexivity|]. split; [lia|].
    constructor; [reflexivity|]. apply Forall_app. split; [exact F2|].
    repeat constructor.
  - eexists _, _, _. split; [reflexivity|]. split; [lia|].
    constructor; [reflexivity|]. apply Forall_app. split; [exact F2|].
    repeat constructor.
Qed.

Lemma app_scrape_session_shape es (w : World) :
  exists files k tr,
    App.scrape_session net urljoin url_path path_suffix path_stem es w
    = (inr files, after w k tr)
    /\ (1 <= k <= 3)%nat
    /\ Forall (fun fi => fi_exam_session fi = es) files
    /\ Forall (fun e => is_scan_effect e = true) tr.
Proof.
  unfold App.scrape_session, App.emit. mrun.
  destruct (app_get_first net (es_url es)
              (after w 0 [Emit "scan" (MScanning (es_title es))]))
    as (o & k & tr & E & F).
  apply fetched_scan in F. destruct F as [F1 F2].
  rewrite E. mrun. destruct o as [r|].
  - eexists _, _, _. split; [reflexivity|]. split; [lia|].
    split; [apply app_session_loop_ok|].
    constructor; [reflexivity | exact F2].
  - eexists _, _, _. split; [reflexivity|]. split; [lia|].
    split; [constructor|].
    constructor; [reflexivity | exact F2].
Qed.

Lemma app_scan_sessions_shape sessions acc (w : World) :
  exists files k tr,
    App.scan_sessions net urljoin url_path path_suffix path_stem sessions acc w
    = (inr (acc ++ files), after w k tr)
    /\ (List.length sessions <= k <= 3 * List.length sessions)%nat
    /\ Forall (fun fi => In (fi_exam_session fi) sessions) files
    /\ Forall (fun e => is_scan_effect e = true) tr.
Proof.
  revert acc w. induction sessions as [|es rest IH]; intros acc w.
  - exists [], 0%nat, []. cbn [App.scan_sessions]. rewrite List.app_nil_r, after_zero.
    split; [reflexivity|]. split; [cbn; lia|]. split; constructor.
  - cbn [App.scan_sessions].
    destruct (app_scrape_session_shape es w) as (f1 & k1 & t1 & E1 & K1 & S1 & T1).
    rewrite bind_run, E1. unfold App.emit. mrun.
    destruct (IH (acc ++ f1)
                 (after w (k1 + 0)
                    (t1 ++ [Emit "progress" (MScanned (List.length (acc ++ f1)))])))
      as (f2 & k2 & t2 & E2 & K2 & S2 & T2).
    rewrite E2, after_after, <- List.app_assoc.
    exists (f1 ++ f2). eexists _, _. split; [reflexivity|].
    split; [cbn [List.length]; lia|]. split.
    + apply Forall_app. split.
      * eapply List.Forall_impl; [|exact S1]. intros fi ->. now left.
      * eapply List.Forall_impl; [|exact S2]. intros fi H. now right.
    + apply Forall_app. split; [|exact T2].
      apply Forall_app. split; [exact T1|]. repeat constructor.
Qed.

Lemma scraper_scrape_index_shape gf yf (w : World) :
  exists r k es,
    Scraper.scrape_index net urljoin gf yf w = (r, after w k es)
    /\ (1 <= k <= 3)%nat
    /\ Forall (fun e => is_scan_effect e = true) es.
Proof.
  unfold Scraper.scrape_index, Scraper.log. mrun.
  destruct (scraper_get_first net INDEX_URL (after w 0 [Log "info" MFetchingIndex]))
    as (o & k & es & E & F).
  apply fetched_scan in F. destruct F as [F1 F2].
  rewrite E. mrun. destruct o as [r|]; mrun.
  - eexists _, _, _. split; [reflexivity|]. split; [lia|].
    constructor; [reflexivity|]. apply Forall_app. split; [exact F2|].
    repeat constructor.
  - eexists _, _, _. split; [reflexivity|]. split; [lia|].
    constructor; [reflexivity|]. exact F2.
Qed.

Lemma scraper_scrape_session_shape es (w : World) :
  exists files k tr,
    Scraper.scrape_session_page net urljoin url_path path_suffix path_stem es w
    = (inr files, after w k tr)
    /\ (1 <= k <= 3)%nat
    /\ Forall (fun fi => fi_exam_session fi = es) files
    /\ Forall (fun e => is_scan_effect e = true) tr.
Proof.
  unfold Scraper.scrape_session_page, Scraper.log. cbv zeta. mrun.
  destruct (scraper_get_first net (es_url es)
              (after w 0 [Log "info" (MScanning (es_url es))]))
    as (o & k & tr & E & F).
  apply fetched_scan in F. destruct F as [F1 F2].
  rewrite E. mrun. destruct o as [r|]; mrun.
  - eexists _, _, _. split; [reflexivity|]. split; [lia|].
    split; [apply scraper_session_loop_ok|].
    constructor; [reflexivity|]. apply Forall_app. split; [exact F2|].
    repeat constructor.
  - eexists _, _, _. split; [reflexivity|]. split; [lia|].
    split; [constructor|].
    constructor; [reflexivity | exact F2].
Qed.

Lemma scraper_scan_sessions_shape sessions acc (w : World) :
  exists files k tr,
    Scraper.scan_sessions net urljoin url_path path_suffix path_stem sessions acc w
    = (inr (acc ++ files), after w k tr)
    /\ (List.length sessions <= k <= 3 * List.length sessions)%nat
    /\ Forall (fun fi => In (fi_exam_session fi) sessions) files
    /\ Forall (fun e => is_scan_effect e = true) tr.
Proof.
  revert acc w. induction sessions as [|es rest IH]; intros acc w.
  - exists [], 0%nat, []. cbn [Scraper.scan_sessions].
    rewrite List.app_nil_r, after_zero.
    split; [reflexivity|]. split; [cbn; lia|]. split; constructor.
  - cbn [Scraper.scan_sessions].
    destruct (scraper_scrape_session_shape es w)
      as (f1 & k1 & t1 & E1 & K1 & S1 & T1).
    rewrite bind_run, E1.
    destruct (IH (acc ++ f1) (after w k1 t1))
      as (f2 & k2 & t2 & E2 & K2 & S2 & T2).
    rewrite E2, after_after, <- List.app_assoc.
    exists (f1 ++ f2). eexists _, _. split; [reflexivity|].
    split; [cbn [List.length]; lia|]. split.
    + apply Forall_app. split.
      * eapply List.Forall_impl; [|exact S1]. intros fi ->. now left.
      * eapply List.Forall_impl; [|exact S2]. intros fi H. now right.
    + apply Forall_app. split; [exact T1 | exact T2].
Qed.

End ScanFacts.



(** ** Relations between worlds *)

Lemma extends_refl P w : extends P w w.
Proof. exists []. split; [now rewrite List.app_nil_r | constructor]. Qed.

Lemma extends_trans P a b c : extends P a b -> extends P b c -> extends P a c.
Proof.
  intros (e1 & E1 & F1) (e2 & E2 & F2). exists (e1 ++ e2).
  split; [now rewrite E2, E1, List.app_assoc | now apply Forall_app].
Qed.

Lemma extends_weaken (P Q : Effect -> bool) w w' :
  (forall e, P e = true -> Q e = true) -> extends P w w' -> extends Q w w'.
Proof.
  intros H (es & E & F). exists es. split; [exact E|].
  eapply List.Forall_impl; [|exact F]. exact H.
Qed.

Lemma extends_after P w k es :
  Forall (fun e => P e = true) es -> extends P w (after w k es).
Proof. intros H. now exists es. Qed.

Lemma extends_evolve P w f k es :
  Forall (fun e => P e = true) es -> extends P w (evolve w f k es).
Proof. intros H. now exists es. Qed.

Lemma only_adds_refl w : only_adds w w.
Proof. intros q x H. exact H. Qed.

Lemma only_adds_trans a b c : only_adds a b -> only_adds b c -> only_adds a c.
Proof. intros H1 H2 q x H. auto. Qed.

Lemma only_adds_after w k es : only_adds w (after w k es).
Proof. intros q x H. exact H. Qed.

(** [mkdir] adds directories where nothing was. *)
Lemma mkdir_each_nodes (ps : list Path) (f f' : gmap Path Node) :
  FS.mkdir_each ps f = inr f' ->
  forall q, FS.node f' q = FS.node f q
            \/ (FS.node f q = None /\ FS.node f' q = Some Dir).
Proof.
  revert f. induction ps as [|p ps IH]; intros f H q.
  - injection H as <-. now left.
  - cbn [FS.mkdir_each] in H. destruct (FS.node f p) as [[|c]|] eqn:Ep.
    + now apply IH.
    + discriminate H.
    + destruct (IH _ H q) as [E|[E1 E2]];
        rewrite node_insert in * by exact Ep;
        destruct (decide (q = p)) as [->|Hne].
      * right. split; [exact Ep | exact E].
      * now left.
      * discriminate E1.
      * right. now split.
Qed.

(** A write where no file was changes no other node. *)
Lemma write_nodes (p : Path) (c : string) (f f' : gmap Path Node) :
  FS.write p c f = inr f' ->
  forall q, q <> p -> FS.node f' q = FS.node f q.
Proof.
  unfold FS.write. intros H q Hq.
  assert (E : f' = <[p := File c]> f).
  { destruct (FS.node f p) as [[|c']|]; [discriminate H| |];
      (destruct (FS.is_dir f (PyPath.parent p)); [|discriminate H]);
      now injection H as <-. }
  subst f'. unfold FS.node.
  destruct (decide (q = [] \/ q = ["/"])); [reflexivity|].
  apply lookup_insert_ne. congruence.
Qed.

Section DownloadMore.
Variable net : Net.

Lemma download_step_adds (w : World) (dest_dir dest : Path) (c : string)
    (f' f2 : gmap Path Node) :
  FS.exists_ (fs w) dest = false ->
  FS.mkdir_parents dest_dir (fs w) = inr f' ->
  (forall q x, FS.node (fs w) q = Some x -> FS.node f' q = Some x)
  /\ (FS.write dest c f' = inr f2 ->
      forall q x, FS.node (fs w) q = Some x -> FS.node f2 q = Some x).
Proof.
  intros Ex Em.
  assert (H1 : forall q x, FS.node (fs w) q = Some x -> FS.node f' q = Some x).
  { intros q x Hq. destruct (mkdir_each_nodes _ _ _ Em q) as [E|[E _]]; congruence. }
  split; [exact H1|].
  intros Ew q x Hq.
  assert (Hne : q <> dest).
  { intros ->. unfold FS.exists_ in Ex. now rewrite Hq in Ex. }
  rewrite (write_nodes _ _ _ _ Ew q Hne). now apply H1.
Qed.

Lemma fetch_is_download (e : Effect) :
  is_fetch_effect e = true -> is_download_effect e = true.
Proof.
  destruct e as [ms|u|k m|l m|m|p|p c|]; cbn; try (intros; congruence).
  intros H. apply String.eqb_eq in H. now subst k.
Qed.

(** What a download of [app.py] does to the world, whatever its end. *)
Lemma app_download_summary fi root dry_run w :
  let w' := snd (App.download_file net fi root dry_run w) in
  extends is_download_effect w w'
  /\ only_adds w w'
  /\ job_active w' = job_active w
  /\ (dry_run = true -> fs w' = fs w /\ requests w' = requests w).
Proof.
  cbv zeta. pose proof (app_download_file_spec net fi root dry_run w) as S.
  cbv zeta in S. destruct dry_run.
  { rewrite S. cbn [snd]. split; [apply extends_after; repeat constructor|].
    split; [apply only_adds_after|]. split; [reflexivity|].
    intros _. cbn. split; [reflexivity | lia]. }
  destruct (FS.exists_ (fs w) (App.dest_of root fi)) eqn:Ex.
  { rewrite S. cbn [snd]. split; [apply extends_refl|].
    split; [apply only_adds_refl|]. split; [reflexivity | discriminate]. }
  destruct (FS.mkdir_parents _ _) as [q|f'] eqn:Em.
  { rewrite S. cbn [snd]. split; [apply extends_after; repeat constructor|].
    split; [apply only_adds_after|]. split; [reflexivity | discriminate]. }
  destruct S as (o & k & es & Hes & S).
  assert (Hes' : Forall (fun e => is_download_effect e = true) es).
  { eapply List.Forall_impl; [|exact Hes]. exact fetch_is_download. }
  destruct o as [r|].
  - destruct (download_step_adds w _ _ (r_content r) f' f' Ex Em) as [A1 _].
    destruct (FS.write _ _ f') as [q|f2] eqn:Ew; rewrite S; cbn [snd].
    + split.
      { apply extends_evolve. repeat (constructor; [reflexivity|]).
        apply Forall_app. split; [exact Hes' | repeat constructor]. }
      split; [exact A1|]. split; [reflexivity | discriminate].
    + split.
      { apply extends_evolve. repeat (constructor; [reflexivity|]).
        apply Forall_app. split; [exact Hes' | repeat constructor]. }
      destruct (download_step_adds w _ _ (r_content r) f' f2 Ex Em) as [_ A2].
      split; [exact (A2 Ew)|]. split; [reflexivity | discriminate].
  - rewrite S; cbn [snd]. split.
    { apply extends_evolve. repeat (constructor; [reflexivity|]).
      apply Forall_app. split; [exact Hes' | repeat constructor]. }
    destruct (download_step_adds w _ _ "" f' f' Ex Em) as [A1 _].
    split; [exact A1|]. split; [reflexivity | discriminate].
Qed.

End DownloadMore.

Section DownloadMoreCli.
Variable net : Net.
Variable DOWNLOAD_DIR : Path.

(** What a download of [ecexams_scraper.py] does to the world, whatever
    its end. *)
Lemma scraper_download_summary fi dry_run w :
  let w' := snd (Scraper.download_file net DOWNLOAD_DIR fi dry_run w) in
  extends is_download_effect w w'
  /\ only_adds w w'
  /\ job_active w' = job_active w
  /\ (dry_run = true -> fs w' = fs w /\ requests w' = requests w).
Proof.
  cbv zeta. pose proof (scraper_download_file_spec net DOWNLOAD_DIR fi dry_run w) as S.
  cbv zeta in S. destruct dry_run.
  { rewrite S. cbn [snd]. split; [apply extends_after; repeat constructor|].
    split; [apply only_adds_after|]. split; [reflexivity|].
    intros _. cbn. split; [reflexivity | lia]. }
  destruct (FS.exists_ (fs w) (Scraper.dest_of DOWNLOAD_DIR fi)) eqn:Ex.
  { rewrite S. cbn [snd]. split; [apply extends_refl|].
    split; [apply only_adds_refl|]. split; [reflexivity | discriminate]. }
  destruct (FS.mkdir_parents _ _) as [q|f'] eqn:Em.
  { rewrite S. cbn [snd]. split; [apply extends_after; repeat constructor|].
    split; [apply only_adds_after|]. split; [reflexivity | discriminate]. }
  destruct S as (o & k & es & Hes & S).
  assert (Hes' : Forall (fun e => is_download_effect e = true) es).
  { eapply List.Forall_impl; [|exact Hes]. exact fetch_is_download. }
  destruct o as [r|].
  - destruct (download_step_adds w _ _ (r_content r) f' f' Ex Em) as [A1 _].
    destruct (FS.write _ _ f') as [q|f2] eqn:Ew; rewrite S; cbn [snd].
    + split.
      { apply extends_evolve. repeat (constructor; [reflexivity|]).
        apply Forall_app. split; [exact Hes' | repeat constructor]. }
      split; [exact A1|]. split; [reflexivity | discriminate].
    + split.
      { apply extends_evolve. repeat (constructor; [reflexivity|]).
        apply Forall_app. split; [exact Hes' | repeat constructor]. }
      destruct (download_step_adds w _ _ (r_content r) f' f2 Ex Em) as [_ A2].
      split; [exact (A2 Ew)|]. split; [reflexivity | discriminate].
  - rewrite S; cbn [snd]. split.
    { apply extends_evolve. repeat (constructor; [reflexivity|]). exact Hes'. }
    destruct (download_step_adds w _ _ "" f' f' Ex Em) as [A1 _].
    split; [exact A1|]. split; [reflexivity | discriminate].
Qed.

End DownloadMoreCli.

(** ** A rule for relations between worlds *)

Section PoolWorld.
Context {T R Acc : Type}.
Variable task : T -> M R.
Variable body : R -> Acc -> M Acc.
Variable external : M unit.
Variable max_workers : nat.
Variable Rel : World -> World -> Prop.

Hypothesis Rel_refl : forall w, Rel w w.
Hypothesis Rel_trans : forall a b c, Rel a b -> Rel b c -> Rel a c.
Hypothesis task_ok : forall t w, Rel w (snd (task t w)).
Hypothesis body_ok : forall r a w, Rel w (snd (body r a w)).
Hypothesis external_ok : forall w, Rel w (snd (external w)).

(** A preorder on worlds that every item, every round of the loop and the
    other threads respect holds between the start and the end of the
    pool. *)
Lemma pool_world_rule (ks : list Pool.Tick) (items : list T) (a : Acc) (w : World) :
  Rel w (snd (Pool.run task body external max_workers ks items a w)).
Proof.
  destruct (pool_rule task body external max_workers (fun _ w' => Rel w w'))
    with (ks := ks) (items := items) (a := a) (w := w)
    as (st & w' & _ & HI & _ & _ & Hrun).
  - intros st w0 t q _ H. exact H.
  - intros st w0 i t _ H. unfold Pool.settle.
    pose proof (task_ok t w0) as Ht.
    destruct (task t w0) as [[e|r] w1]; cbn [snd] in *.
    + eapply Rel_trans; eauto.
    + destruct (Pool.fault st); cbn [snd]; [eapply Rel_trans; eauto|].
      pose proof (body_ok r (Pool.acc st) w1) as Hb.
      destruct (body r (Pool.acc st) w1) as [[e|a'] w2]; cbn [snd] in *;
        eapply Rel_trans; eauto.
  - intros st w0 H. eapply Rel_trans; eauto.
  - apply Rel_refl.
  - rewrite Hrun. now destruct (Pool.fault st).
Qed.

End PoolWorld.

(** ** The end of a job *)

Lemma job_step_refl d w : job_step d w w.
Proof. split; [apply extends_refl | split; [apply only_adds_refl | reflexivity]]. Qed.

Lemma job_step_trans d a b c : job_step d a b -> job_step d b c -> job_step d a c.
Proof.
  intros (H1 & H2 & H3) (H4 & H5 & H6).
  split; [eapply extends_trans; eauto|].
  split; [eapply only_adds_trans; eauto|].
  intros Hd. now rewrite H6, H3.
Qed.

Lemma job_step_after d w k es :
  Forall (fun e => is_not_done e = true) es -> job_step d w (after w k es).
Proof.
  intros H. split; [now apply extends_after|].
  split; [apply only_adds_after | reflexivity].
Qed.

Lemma download_is_not_done (e : Effect) :
  is_download_effect e = true -> is_not_done e = true.
Proof.
  destruct e as [ms|u|k m|l m|m|p|p c|]; cbn; try (intros; congruence).
  unfold is_not_done, is_done.
  intros H. repeat (apply orb_prop in H; destruct H as [H|H]);
    try discriminate H; apply String.eqb_eq in H; now subst k.
Qed.

Lemma scan_is_not_done (e : Effect) :
  is_scan_effect e = true -> is_not_done e = true.
Proof.
  destruct e as [ms|u|k m|l m|m|p|p c|]; cbn; try (intros; congruence).
  unfold is_not_done, is_done.
  intros H. repeat (apply orb_prop in H; destruct H as [H|H]);
    try discriminate H; apply String.eqb_eq in H; now subst k.
Qed.

Section JobFacts.
Variable net : Net.
Variable urljoin : string -> string -> string.
Variables url_path path_suffix path_stem : string -> string.

Lemma app_download_all_step ks all_files output_dir dry_run threads w :
  job_step dry_run w
    (snd (App.download_all net ks all_files output_dir dry_run threads w)).
Proof.
  unfold App.download_all, Pool.executor.
  destruct (threads <=? 0)%Z; [apply job_step_refl|].
  rewrite bind_run. cbn [mret M_ret]. rewrite bind_run.
  assert (Ht : forall t w0,
             job_step dry_run w0
               (snd (App.download_file net t output_dir dry_run w0))).
  { intros t w0.
    destruct (app_download_summary net t output_dir dry_run w0)
      as (H1 & H2 & _ & H3).
    split; [|split; [exact H2 | intros Hd; now apply H3]].
    eapply extends_weaken; [exact download_is_not_done | exact H1]. }
  assert (Hb : forall r a w0,
             job_step dry_run w0 (snd (App.tally (List.length all_files) r a w0))).
  { intros r [c d] w0. rewrite app_tally_run. cbn [snd].
    apply job_step_after. repeat constructor. }
  assert (He : forall w0, job_step dry_run w0 (snd (App.stop w0))).
  { intros w0. rewrite stop_run. cbn [snd]. split; [|split].
    - exists [StopRequested]. split; [reflexivity | repeat constructor].
    - intros q x H. exact H.
    - reflexivity. }
  pose proof (pool_world_rule _ _ _ (Z.to_nat threads) (job_step dry_run)
                (job_step_refl dry_run) (job_step_trans dry_run)
                Ht Hb He ks all_files (App.counts0, 0%nat) w) as H.
  destruct (Pool.run _ _ _ _ _ _ _ _) as [[e|[c d]] w2]; cbn [snd] in *; exact H.
Qed.

Lemma scraper_download_all_step dir ks all_files dry_run threads w :
  job_step dry_run w
    (snd (Scraper.download_all net dir ks all_files dry_run threads w)).
Proof.
  unfold Scraper.download_all, Pool.executor.
  destruct (threads <=? 0)%Z; [apply job_step_refl|].
  rewrite bind_run. cbn [mret M_ret].
  assert (Ht : forall t w0,
             job_step dry_run w0
               (snd (Scraper.download_file net dir t dry_run w0))).
  { intros t w0.
    destruct (scraper_download_summary net dir t dry_run w0)
      as (H1 & H2 & _ & H3).
    split; [|split; [exact H2 | intros Hd; now apply H3]].
    eapply extends_weaken; [exact download_is_not_done | exact H1]. }
  assert (Hb : forall r a w0, job_step dry_run w0 (snd (Scraper.tally r a w0))).
  { intros r c w0. unfold Scraper.tally, Scraper.log. cbv zeta.
    destruct (String.eqb _ "downloaded"); [apply job_step_refl|].
    destruct (String.eqb _ "failed").
    { mrun. cbn [snd]. apply job_step_after. repeat constructor. }
    destruct (String.eqb _ "dry-run"); apply job_step_refl. }
  assert (He : forall w0, job_step dry_run w0 (snd ((mret tt : M unit) w0))).
  { intros w0. apply job_step_refl. }
  exact (pool_world_rule _ _ _ (Z.to_nat threads) (job_step dry_run)
           (job_step_refl dry_run) (job_step_trans dry_run)
           Ht Hb He ks all_files _ w).
Qed.

Lemma scan_step d w k es :
  Forall (fun e => is_scan_effect e = true) es -> job_step d w (after w k es).
Proof.
  intros H. apply job_step_after.
  eapply List.Forall_impl; [|exact H]. exact scan_is_not_done.
Qed.

(** How the body of [run_job] can end: with the final event after a
    stretch without one, or with an exception and no final event. *)
Lemma app_run_job_body_ends ks gfs yfs output_dir dry_run threads w :
  let r := App.run_job_body net urljoin url_path path_suffix path_stem ks
                            gfs yfs output_dir dry_run threads w in
  (exists w1 c, job_step dry_run w w1
                /\ r = (inr tt, after w1 0 [Emit "done" c]))
  \/ (exists e, fst r = inl e /\ job_step dry_run w (snd r)).
Proof.
  cbv zeta. unfold App.run_job_body. rewrite bind_run.
  destruct (app_scrape_index_shape net urljoin gfs yfs w) as (ss & k & es & E & _ & F).
  rewrite E. pose proof (scan_step dry_run w k es F) as S1.
  destruct ss as [|s0 ss'].
  - left. exists (after w k es), (MCounts 0 0 0 0). split; [exact S1|].
    unfold App.emit. now rewrite effect_run.
  - rewrite bind_run.
    destruct (app_scan_sessions_shape net urljoin url_path path_suffix path_stem
                (s0 :: ss') [] (after w k es))
      as (files & k2 & t2 & E2 & _ & _ & F2).
    rewrite E2. cbn [app]. unfold App.emit. rewrite bind_run, effect_run, bind_run.
    pose proof (scan_step dry_run (after w k es) k2 t2 F2) as S2.
    set (w2 := after (after (after w k es) k2 t2) 0
                     [Emit "info" (MTotalFiles (List.length files))]).
    assert (S3 : job_step dry_run w w2).
    { eapply job_step_trans; [exact S1|]. eapply job_step_trans; [exact S2|].
      apply job_step_after. repeat constructor. }
    pose proof (app_download_all_step ks files output_dir dry_run threads w2) as S4.
    destruct (App.download_all net ks files output_dir dry_run threads w2)
      as [[e|counts] w3]; cbn [snd] in S4.
    + right. exists e. split; [reflexivity|]. cbn [snd].
      eapply job_step_trans; eauto.
    + left. eexists w3, _. split; [eapply job_step_trans; eauto|].
      now rewrite effect_run.
Qed.

End JobFacts.

(** Whatever happens, [run_job] returns, with the flag cleared, after one
    final event that is the last thing it emits. *)
Lemma app_run_job_done :
  forall (net : Net) (urljoin : string -> string -> string)
         (url_path path_suffix path_stem : string -> string)
         (ks : list Pool.Tick) (grade_filters year_filters : list string)
         (output_dir : string) (dry_run : bool) (threads : Z) (w : World),
    exists w' pre c,
      App.run_job net urljoin url_path path_suffix path_stem ks
                  grade_filters year_filters output_dir dry_run threads w
      = (inr tt, w')
      /\ job_active w' = false
      /\ trace w' = trace w ++ pre ++ [Emit "done" c]
      /\ Forall (fun e => is_done e = false) pre.
Proof.
  intros. unfold App.run_job, try_finally, try_except.
  destruct (app_run_job_body_ends net urljoin url_path path_suffix path_stem ks
              grade_filters year_filters output_dir dry_run threads w)
    as [(w1 & c & [(pre & Et & Fp) _] & E) | (e & E & [(pre & Et & Fp) _])].
  - rewrite E. cbn [set_job_active]. eexists _, pre, c.
    split; [reflexivity|]. split; [reflexivity|]. cbn [trace after].
    split; [now rewrite Et, List.app_assoc|].
    eapply List.Forall_impl; [|exact Fp].
    intros x Hx. unfold is_not_done in Hx. now apply negb_true_iff.
  - destruct (App.run_job_body _ _ _ _ _ _ _ _ _ _ _ _) as [[e'|[]] w1];
      cbn [fst snd] in *; [|discriminate E].
    unfold App.emit. mrun. cbn [set_job_active].
    eexists _, (pre ++ [Emit "error" (MUnexpected e')]), (MCounts 0 0 0 0).
    split; [reflexivity|]. split; [reflexivity|]. cbn [trace after].
    split; [now rewrite Et, <- !List.app_assoc|].
    apply Forall_app. split; [|repeat constructor].
    eapply List.Forall_impl; [|exact Fp].
    intros x Hx. unfold is_not_done in Hx. now apply negb_true_iff.
Qed.

(** X13: whatever the network, the schedule of the pool and the
    arguments, [run_job] returns without an exception, with the job flag
    cleared, and the events it emits hold exactly one done event, which is
    the last thing it emits. *)
Theorem run_job_ends_with_one_done :
  forall (net : Net) (urljoin : string -> string -> string)
         (url_path path_suffix path_stem : string -> string)
         (ks : list Pool.Tick) (grade_filters year_filters : list string)
         (output_dir : string) (dry_run : bool) (threads : Z) (w : World),
    exists w' pre c,
      App.run_job net urljoin url_path path_suffix path_stem ks
                  grade_filters year_filters output_dir dry_run threads w
      = (inr tt, w')
      /\ job_active w' = false
      /\ trace w' = trace w ++ pre ++ [Emit "done" c]
      /\ Forall (fun e => is_done e = false) pre.
Proof. exact app_run_job_done. Qed.

(** ** The file tree only grows *)

Section TreeGrows.
Variable net : Net.
Variable urljoin : string -> string -> string.
Variables url_path path_suffix path_stem : string -> string.

Lemma app_run_job_tree ks gfs yfs output_dir dry_run threads w :
  let w' := snd (App.run_job net urljoin url_path path_suffix path_stem ks
                             gfs yfs output_dir dry_run threads w) in
  only_adds w w' /\ (dry_run = true -> fs w' = fs w).
Proof.
  cbv zeta. unfold App.run_job, try_finally, try_except.
  destruct (app_run_job_body_ends net urljoin url_path path_suffix path_stem ks
              gfs yfs output_dir dry_run threads w)
    as [(w1 & c & (_ & A & D) & E) | (e & E & (_ & A & D))].
  - rewrite E. cbn [set_job_active snd]. split; [exact A | exact D].
  - destruct (App.run_job_body _ _ _ _ _ _ _ _ _ _ _ _) as [[e'|[]] w1];
      cbn [fst snd] in *; [|discriminate E].
    unfold App.emit. mrun. cbn [set_job_active snd]. split; [exact A | exact D].
Qed.

Lemma scraper_main_step ks args w :
  job_step (Scraper.arg_dry_run args) w
    (snd (Scraper.main net urljoin url_path path_suffix path_stem ks args w)).
Proof.
  unfold Scraper.main. cbv zeta. rewrite bind_run.
  match goal with
  | |- context [Scraper.scrape_index net urljoin ?gf ?yf w] =>
      destruct (scraper_scrape_index_shape net urljoin gf yf w)
        as (r & k & es & E & _ & F); rewrite E
  end.
  pose proof (scan_step (Scraper.arg_dry_run args) w k es F) as S1.
  destruct r as [e|ss]; [exact S1|].
  destruct ss as [|s0 ss'].
  { unfold Scraper.log. rewrite bind_run, effect_run. cbn [snd].
    eapply job_step_trans; [exact S1|]. apply job_step_after. repeat constructor. }
  rewrite bind_run.
  destruct (scraper_scan_sessions_shape net urljoin url_path path_suffix path_stem
              (s0 :: ss') [] (after w k es))
    as (files & k2 & t2 & E2 & _ & _ & F2).
  rewrite E2. cbn [app].
  pose proof (scan_step (Scraper.arg_dry_run args) (after w k es) k2 t2 F2) as S2.
  assert (S3 : job_step (Scraper.arg_dry_run args) w (after (after w k es) k2 t2))
    by (eapply job_step_trans; eauto).
  destruct files as [|f0 files'].
  { unfold Scraper.log. rewrite bind_run, effect_run. cbn [snd].
    eapply job_step_trans; [exact S3|]. apply job_step_after. repeat constructor. }
  unfold Scraper.log. rewrite bind_run, effect_run.
  set (w2 := after (after (after w k es) k2 t2) 0 _).
  assert (S4 : job_step (Scraper.arg_dry_run args) w w2).
  { eapply job_step_trans; [exact S3|]. apply job_step_after. repeat constructor. }
  clearbody w2. clear S1 S2 S3 E E2.
  destruct (Scraper.arg_dry_run args); rewrite bind_run, ?effect_run;
    cbn [mret M_ret]; rewrite bind_run;
    match goal with
    | |- context [Scraper.download_all ?n ?d ?k0 ?fl ?dr ?th ?w3] =>
        pose proof (scraper_download_all_step n d k0 fl dr th w3) as S5;
        destruct (Scraper.download_all n d k0 fl dr th w3) as [[e|c] w4]
    end; cbn [snd] in S5; try rewrite bind_run, effect_run; cbn [snd].
  - eapply job_step_trans; [exact S4|]. eapply job_step_trans; [|exact S5].
    apply job_step_after. repeat constructor.
  - eapply job_step_trans; [exact S4|].
    eapply job_step_trans; [|eapply job_step_trans; [exact S5|]];
      apply job_step_after; repeat constructor.
  - eapply job_step_trans; [exact S4|]. exact S5.
  - eapply job_step_trans; [exact S4|]. eapply job_step_trans; [exact S5|].
    apply job_step_after. repeat constructor.
Qed.

End TreeGrows.

(** X14: a job that makes or writes no path with a [..] part only
    adds to the file tree: every file and directory that is there before
    [run_job] or [main] runs is there afterwards, unchanged.  (A path with
    a [..] part names a node one level up; a session title that sanitises
    to two dots gives such a destination.) *)
Theorem jobs_only_add_to_the_tree :
  forall (net : Net) (urljoin : string -> string -> string)
         (url_path path_suffix path_stem : string -> string)
         (ks : list Pool.Tick) (w : World) (q : Path) (x : Node),
    FS.node (fs w) q = Some x ->
    (forall grade_filters year_filters output_dir dry_run threads,
        let w' := snd (App.run_job net urljoin url_path path_suffix path_stem ks
                                   grade_filters year_filters output_dir
                                   dry_run threads w) in
        forallb no_dotdot (file_ops (added w w')) = true ->
        FS.node (fs w') q = Some x)
    /\ (forall args,
           let w' := snd (Scraper.main net urljoin url_path path_suffix path_stem
                                       ks args w) in
           forallb no_dotdot (file_ops (added w w')) = true ->
           FS.node (fs w') q = Some x).
Proof.
  intros net urljoin url_path path_suffix path_stem ks w q x H. split.
  - intros gfs yfs output_dir dry_run threads w' _. subst w'.
    now apply app_run_job_tree.
  - intros args w' _. subst w'. now apply scraper_main_step.
Qed.

Lemma jobs_only_add_to_the_tree_witness :
  let w' := snd (App.run_job Ref.net_site Ref.urljoin Ref.url_path
                   Ref.path_suffix Ref.path_stem [] [] [] "downloads"
                   false 2 w_kept) in
  FS.node (fs w_kept) ["downloads"; "keep.txt"] = Some (File "kept")
  /\ forallb no_dotdot (file_ops (added w_kept w')) = true
  /\ FS.node (fs w') ["downloads"; "keep.txt"] = Some (File "kept").
Proof.
  intros w'.
  assert (H : FS.node (fs w_kept) ["downloads"; "keep.txt"] = Some (File "kept"))
    by (vm_compute; reflexivity).
  assert (P : forallb no_dotdot (file_ops (added w_kept w')) = true)
    by (vm_compute; reflexivity).
  split; [exact H|]. split; [exact P|].
  exact (proj1 (jobs_only_add_to_the_tree Ref.net_site Ref.urljoin Ref.url_path
                  Ref.path_suffix Ref.path_stem [] w_kept _ _ H)
               [] [] "downloads" false 2%Z P).
Defined.

(** ** Dry runs *)

Section DryFacts.
Variable net : Net.

Lemma app_pool_dry ks all_files root workers w :
  exists counts done w',
    Pool.run (fun fi => App.download_file net fi root true)
             (App.tally (List.length all_files)) App.stop workers
             ks all_files (App.counts0, 0%nat) w
    = (inr (counts, done), w')
    /\ App.count counts "dryrun" = List.length all_files
    /\ App.count counts "downloaded" = 0%nat
    /\ App.count counts "skipped" = 0%nat
    /\ App.count counts "failed" = 0%nat
    /\ fs w' = fs w /\ requests w' = requests w.
Proof.
  set (total := List.length all_files).
  set (Inv := fun (st : @Pool.State FileInfo (gmap string nat * nat)) (w1 : World) =>
                fs w1 = fs w /\ requests w1 = requests w
                /\ Pool.fault st = None
                /\ (App.count (fst (Pool.acc st)) "dryrun" + unfinished st = total)%nat
                /\ App.count (fst (Pool.acc st)) "downloaded" = 0%nat
                /\ App.count (fst (Pool.acc st)) "skipped" = 0%nat
                /\ App.count (fst (Pool.acc st)) "failed" = 0%nat).
  destruct (pool_rule (fun fi => App.download_file net fi root true)
              (App.tally total) App.stop workers Inv) with
    (ks := ks) (items := all_files) (a := (App.counts0, 0%nat)) (w := w)
    as (st & w2 & _ & HI & Hp & Hf & Hrun).
  - intros st w0 t q Ep (H1 & H2 & H3 & H4 & H5).
    unfold Inv, unfinished in *. cbn [Pool.pending Pool.in_flight Pool.acc Pool.fault].
    rewrite Ep in H4. rewrite List.length_app. cbn [List.length] in *.
    repeat split; auto; try tauto; lia.
  - intros st w0 i t Ei (H1 & H2 & H3 & H4 & H5 & H6 & H7).
    unfold Pool.settle.
    pose proof (app_download_file_spec net t root true w0) as S. cbv zeta in S.
    cbn match in S. rewrite S, H3.
    destruct (Pool.acc st) as [c d] eqn:Ea. rewrite app_tally_run.
    unfold Inv, unfinished in *.
    cbn [fst snd Pool.pending Pool.in_flight Pool.acc Pool.fault] in *.
    rewrite !count_insert.
    repeat case_decide; try discriminate; try congruence.
    pose proof (length_delete_lookup _ _ _ Ei).
    cbn [fs requests after]. rewrite !Nat.add_0_r.
    repeat split; auto; lia.
  - intros st w0 (H1 & H2 & H3). rewrite stop_run. cbn [snd].
    unfold Inv. cbn [fs requests]. auto.
  - unfold Inv, unfinished. cbn [Pool.init Pool.pending Pool.in_flight Pool.acc Pool.fault
                             fst snd List.length].
    repeat split; auto;
      try (unfold total; change (App.count App.counts0 "dryrun") with 0%nat; lia).
  - destruct HI as (H1 & H2 & H3 & H4 & H5 & H6 & H7).
    rewrite H3 in Hrun. destruct (Pool.acc st) as [c d] eqn:Ea.
    exists c, d, w2. split; [exact Hrun|].
    unfold unfinished in H4. rewrite Hp, Hf in H4. cbn in H4, H5, H6, H7.
    repeat split; auto. lia.
Qed.

Variable DOWNLOAD_DIR : Path.

Lemma scraper_pool_dry ks all_files workers w :
  exists c w',
    Pool.run (fun fi => Scraper.download_file net DOWNLOAD_DIR fi true)
             Scraper.tally (mret tt) workers ks all_files
             {| Scraper.downloaded := 0; Scraper.skipped := 0;
                Scraper.failed := 0; Scraper.dry_count := 0 |} w
    = (inr c, w')
    /\ Scraper.dry_count c = List.length all_files
    /\ Scraper.downloaded c = 0%nat
    /\ Scraper.skipped c = 0%nat
    /\ Scraper.failed c = 0%nat
    /\ fs w' = fs w /\ requests w' = requests w.
Proof.
  set (total := List.length all_files).
  set (Inv := fun (st : @Pool.State FileInfo Scraper.Counters) (w1 : World) =>
                fs w1 = fs w /\ requests w1 = requests w
                /\ Pool.fault st = None
                /\ (Scraper.dry_count (Pool.acc st) + unfinished st = total)%nat
                /\ Scraper.downloaded (Pool.acc st) = 0%nat
                /\ Scraper.skipped (Pool.acc st) = 0%nat
                /\ Scraper.failed (Pool.acc st) = 0%nat).
  destruct (pool_rule (fun fi => Scraper.download_file net DOWNLOAD_DIR fi true)
              Scraper.tally (mret tt) workers Inv) with
    (ks := ks) (items := all_files)
    (a := {| Scraper.downloaded := 0; Scraper.skipped := 0;
             Scraper.failed := 0; Scraper.dry_count := 0 |}) (w := w)
    as (st & w2 & _ & HI & Hp & Hf & Hrun).
  - intros st w0 t q Ep (H1 & H2 & H3 & H4 & H5).
    unfold Inv, unfinished in *. cbn [Pool.pending Pool.in_flight Pool.acc Pool.fault].
    rewrite Ep in H4. rewrite List.length_app. cbn [List.length] in *.
    repeat split; auto; try tauto; lia.
  - intros st w0 i t Ei (H1 & H2 & H3 & H4 & H5 & H6 & H7).
    unfold Pool.settle.
    pose proof (scraper_download_file_spec net DOWNLOAD_DIR t true w0) as S.
    cbv zeta in S. cbn match in S. rewrite S, H3.
    unfold Scraper.tally. cbn.
    unfold Inv, unfinished in *.
    cbn [fst snd Pool.pending Pool.in_flight Pool.acc Pool.fault
         Scraper.dry_count Scraper.downloaded Scraper.skipped Scraper.failed] in *.
    pose proof (length_delete_lookup _ _ _ Ei).
    cbn [fs requests after]. rewrite ?Nat.add_0_r.
    repeat split; auto; lia.
  - intros st w0 H. exact H.
  - unfold Inv, unfinished. cbn. unfold total. repeat split; auto.
  - destruct HI as (H1 & H2 & H3 & H4 & H5 & H6 & H7).
    rewrite H3 in Hrun. exists (Pool.acc st), w2. split; [exact Hrun|].
    unfold unfinished in H4. rewrite Hp, Hf in H4. cbn in H4.
    repeat split; auto. lia.
Qed.

End DryFacts.

(** X15: a dry run touches nothing: the download stage records every
    file under the dry run count and none under the other three, makes no
    request and leaves the file tree as it was, whatever the schedule; and
    the file tree after a whole job or a whole run of [main] in dry run
    mode is the one before. *)
Theorem dry_run_touches_nothing :
  forall (net : Net) (ks : list Pool.Tick) (all_files : list FileInfo) (w : World),
    (forall output_dir (threads : positive),
        exists counts w',
          App.download_all net ks all_files output_dir true (Z.pos threads) w
          = (inr counts, w')
          /\ App.count counts "dryrun" = List.length all_files
          /\ App.count counts "downloaded" = 0%nat
          /\ App.count counts "skipped" = 0%nat
          /\ App.count counts "failed" = 0%nat
          /\ fs w' = fs w /\ requests w' = requests w)
    /\ (forall dir (threads : positive),
           exists c w',
             Scraper.download_all net dir ks all_files true (Z.pos threads) w
             = (inr c, w')
             /\ Scraper.dry_count c = List.length all_files
             /\ Scraper.downloaded c = 0%nat
             /\ Scraper.skipped c = 0%nat
             /\ Scraper.failed c = 0%nat
             /\ fs w' = fs w /\ requests w' = requests w)
    /\ (forall urljoin url_path path_suffix path_stem
               grade_filters year_filters output_dir threads,
           fs (snd (App.run_job net urljoin url_path path_suffix path_stem ks
                                grade_filters year_filters output_dir true
                                threads w))
           = fs w)
    /\ (forall urljoin url_path path_suffix path_stem grade year threads output_dir,
           fs (snd (Scraper.main net urljoin url_path path_suffix path_stem ks
                      {| Scraper.arg_grade := grade; Scraper.arg_year := year;
                         Scraper.arg_dry_run := true;
                         Scraper.arg_threads := threads;
                         Scraper.arg_output_dir := output_dir |} w))
           = fs w).
Proof.
  intros net ks all_files w. split; [|split; [|split]].
  - intros output_dir threads. unfold App.download_all, Pool.executor.
    cbn [Z.leb Z.compare]. rewrite bind_run. cbn [mret M_ret]. rewrite bind_run.
    destruct (app_pool_dry net ks all_files output_dir (Z.to_nat (Z.pos threads)) w)
      as (counts & done & w' & E & H).
    rewrite E. cbn [fst]. exists counts, w'. split; [reflexivity | exact H].
  - intros dir threads. unfold Scraper.download_all, Pool.executor.
    cbn [Z.leb Z.compare]. rewrite bind_run. cbn [mret M_ret].
    destruct (scraper_pool_dry net dir ks all_files (Z.to_nat (Z.pos threads)) w)
      as (c & w' & E & H).
    exists c, w'. split; [exact E | exact H].
  - intros. now apply app_run_job_tree.
  - intros.
    apply (scraper_main_step net urljoin url_path path_suffix path_stem ks
             {| Scraper.arg_grade := grade; Scraper.arg_year := year;
                Scraper.arg_dry_run := true; Scraper.arg_threads := threads;
                Scraper.arg_output_dir := output_dir |} w).
    reflexivity.
Qed.

(** ** Progress events *)

Lemma progress_of_app (a b : list Effect) :
  progress_of (a ++ b) = progress_of a ++ progress_of b.
Proof. unfold progress_of. apply List.flat_map_app. Qed.

Lemma progress_of_download (es : list Effect) :
  Forall (fun e => is_download_effect e = true) es -> progress_of es = [].
Proof.
  induction 1 as [|e es He Hes IH]; [reflexivity|].
  change (e :: es) with ([e] ++ es). rewrite progress_of_app, IH, List.app_nil_r.
  destruct e as [ms|u|k m|l m|m|p|p c|]; try reflexivity.
  destruct m; try reflexivity. cbn in He |- *.
  destruct (String.eqb_spec k "progress") as [->|]; [discriminate He | reflexivity].
Qed.

Section ProgressFacts.
Variable net : Net.

Lemma app_pool_progress ks all_files root dry_run workers w :
  let total := List.length all_files in
  let r := Pool.run (fun fi => App.download_file net fi root dry_run)
                    (App.tally total) App.stop workers
                    ks all_files (App.counts0, 0%nat) w in
  exists d,
    (d <= total)%nat
    /\ progress_of (trace (snd r))
       = progress_of (trace w) ++ map (fun i => (i, total)) (seq 1 d)
    /\ (d = total \/ exists e, fst r = inl e).
Proof.
  intros total.
  set (Inv := fun (st : @Pool.State FileInfo (gmap string nat * nat)) (w1 : World) =>
                progress_of (trace w1)
                = progress_of (trace w)
                  ++ map (fun i => (i, total)) (seq 1 (snd (Pool.acc st)))
                /\ (snd (Pool.acc st) + unfinished st <= total)%nat
                /\ (Pool.fault st = None ->
                    (snd (Pool.acc st) + unfinished st = total)%nat)).
  destruct (pool_rule (fun fi => App.download_file net fi root dry_run)
              (App.tally total) App.stop workers Inv) with
    (ks := ks) (items := all_files) (a := (App.counts0, 0%nat)) (w := w)
    as (st & w2 & _ & HI & Hp & Hf & Hrun).
  - intros st w0 t q Ep (H1 & H2 & H3).
    unfold Inv, unfinished in *. cbn [Pool.pending Pool.in_flight Pool.acc Pool.fault].
    rewrite Ep in H2, H3. rewrite List.length_app. cbn [List.length] in *.
    split; [exact H1|]. split; [lia|]. intros Hn. specialize (H3 Hn). lia.
  - intros st w0 i t Ei (H1 & H2 & H3).
    pose proof (length_delete_lookup _ _ _ Ei) as Hl.
    unfold Pool.settle.
    destruct (app_download_summary net t root dry_run w0) as ((es & Et & Fe) & _).
    destruct (App.download_file net t root dry_run w0) as [[e|r] w1];
      cbn [snd] in Et.
    + unfold Inv, unfinished in *.
      cbn [fst snd Pool.pending Pool.in_flight Pool.acc Pool.fault].
      rewrite Et, progress_of_app, (progress_of_download es Fe), List.app_nil_r.
      split; [exact H1|]. split; [lia|]. intros Hn. discriminate Hn.
    + destruct (Pool.fault st) as [e0|] eqn:Ef.
      * unfold Inv, unfinished in *.
        cbn [fst snd Pool.pending Pool.in_flight Pool.acc Pool.fault].
        rewrite Et, progress_of_app, (progress_of_download es Fe), List.app_nil_r.
        split; [exact H1|]. split; [lia|]. intros Hn. discriminate Hn.
      * destruct (Pool.acc st) as [c d] eqn:Ea. rewrite app_tally_run.
        unfold Inv, unfinished in *.
        cbn [fst snd Pool.pending Pool.in_flight Pool.acc Pool.fault trace after] in *.
        rewrite Et, !progress_of_app, (progress_of_download es Fe), List.app_nil_r, H1.
        specialize (H3 eq_refl).
        split; [|split; [lia | intros _; lia]].
        rewrite <- List.app_assoc. f_equal.
        replace (d + 1)%nat with (S d) by lia.
        rewrite List.seq_S, List.map_app. reflexivity.
  - intros st w0 (H1 & H2 & H3). rewrite stop_run. cbn [snd].
    unfold Inv. cbn [trace]. rewrite progress_of_app.
    cbn [progress_of flat_map]. rewrite !List.app_nil_r. auto.
  - unfold Inv, unfinished.
    cbn [Pool.init Pool.pending Pool.in_flight Pool.acc Pool.fault fst snd
         List.length seq map].
    rewrite List.app_nil_r, Nat.add_0_r. fold total. auto.
  - destruct HI as (H1 & H2 & H3). cbv zeta. rewrite Hrun.
    unfold unfinished in *. rewrite Hp, Hf in H2, H3. cbn [List.length] in *.
    exists (snd (Pool.acc st)).
    destruct (Pool.fault st) as [e|]; cbn [fst snd].
    + split; [lia|]. split; [exact H1|]. right. now exists e.
    + split; [lia|]. split; [exact H1|]. left. specialize (H3 eq_refl). lia.
Qed.

End ProgressFacts.

(** X16: the progress events of the download stage of [run_job] count
    up by one from 1, all with the number of files as total; when the
    stage ends without an exception the last one has done equal to
    total. *)
Theorem progress_counts_up :
  forall (net : Net) (ks : list Pool.Tick) (all_files : list FileInfo)
         (output_dir : string) (dry_run : bool) (threads : Z) (w : World),
    let total := List.length all_files in
    let r := App.download_all net ks all_files output_dir dry_run threads w in
    exists d,
      (d <= total)%nat
      /\ progress_of (trace (snd r))
         = progress_of (trace w) ++ map (fun i => (i, total)) (seq 1 d)
      /\ (d = total \/ exists e, fst r = inl e).
Proof.
  intros. subst r. unfold App.download_all, Pool.executor.
  destruct (threads <=? 0)%Z.
  { exists 0%nat. cbn [seq map fst snd raise]. rewrite List.app_nil_r.
    split; [lia|]. split; [reflexivity|]. right. eauto. }
  rewrite bind_run. cbn [mret M_ret]. rewrite bind_run.
  destruct (app_pool_progress net ks all_files output_dir dry_run
              (Z.to_nat threads) w) as (d & H1 & H2 & H3).
  fold total in H2, H3.
  destruct (Pool.run _ _ _ _ _ _ _ _) as [[e|[c n]] w2]; cbn [fst snd] in *;
    exists d.
  - split; [exact H1|]. split; [exact H2|]. right. now exists e.
  - split; [exact H1|]. split; [exact H2|].
    destruct H3 as [H3|[e0 H3]]; [now left | discriminate H3].
Qed.

(** ** What a download stores *)

Section ContentFacts.
Variable net : Net.

Lemma app_download_content fi root w w' :
  App.download_file net fi root false w = (inr "downloaded", w') ->
  exists i r,
    (requests w <= i < requests w')%nat
    /\ (requests w' <= requests w + 3)%nat
    /\ net i (fi_url fi) = Ok r
    /\ (forall j, (requests w <= j < i)%nat ->
                  exists e, net j (fi_url fi) = Failed e)
    /\ FS.node (fs w') (App.dest_of root fi) = Some (File (r_content r)).
Proof.
  unfold App.download_file, path_exists. cbv zeta. rewrite bind_run.
  destruct (FS.exists_ (fs w) (App.dest_of root fi)); [discriminate|].
  rewrite bind_run, mkdir_run.
  destruct (FS.mkdir_parents _ _) as [q|f']; [discriminate|].
  rewrite bind_run.
  destruct (app_get_first net (fi_url fi)
              (evolve w f' 0 [Mkdir (App.dest_dir_of root fi)]))
    as (o & k & es & E & (K & Hfail & Ho & _)).
  rewrite E. cbn [requests evolve] in Hfail, Ho.
  destruct o as [r|]; [|unfold App.emit; mrun; discriminate].
  rewrite bind_run, write_bytes_run. cbn [fs after evolve].
  destruct (FS.write _ _ f') as [q|f2] eqn:Ew; [discriminate|].
  unfold App.emit. mrun. intros [= <-]. cbn [fs requests after evolve].
  exists (requests w + 0 + (k - 1))%nat, r.
  split; [lia|]. split; [lia|]. split; [exact Ho|]. split.
  - intros j Hj. destruct (Hfail (j - (requests w + 0))%nat) as [e He]; [lia|].
    exists e. rewrite <- He. f_equal. lia.
  - apply write_spec in Ew. tauto.
Qed.

Variable DOWNLOAD_DIR : Path.

Lemma scraper_download_content fi w res w' :
  Scraper.download_file net DOWNLOAD_DIR fi false w = (inr res, w') ->
  Scraper.res_status res = "downloaded" ->
  exists i r,
    (requests w <= i < requests w')%nat
    /\ (requests w' <= requests w + 3)%nat
    /\ net i (fi_url fi) = Ok r
    /\ (forall j, (requests w <= j < i)%nat ->
                  exists e, net j (fi_url fi) = Failed e)
    /\ FS.node (fs w') (Scraper.dest_of DOWNLOAD_DIR fi) = Some (File (r_content r)).
Proof.
  unfold Scraper.download_file, path_exists. cbv zeta. rewrite bind_run.
  destruct (FS.exists_ (fs w) (Scraper.dest_of DOWNLOAD_DIR fi));
    [intros [= <- _]; discriminate|].
  rewrite bind_run, mkdir_run.
  destruct (FS.mkdir_parents _ _) as [q|f']; [discriminate|].
  unfold Scraper.log. rewrite bind_run, effect_run, bind_run, after_evolve.
  match goal with
  | |- context [Scraper.safe_get net ?u ?w0] =>
      destruct (scraper_get_first net u w0) as (o & k & es & E & (K & Hfail & Ho & _))
  end.
  rewrite E. cbn [requests evolve] in Hfail, Ho.
  destruct o as [r|]; [|intros [= <- _]; discriminate].
  rewrite bind_run, write_bytes_run. cbn [fs after evolve].
  destruct (FS.write _ _ f') as [q|f2] eqn:Ew; [discriminate|].
  intros [= _ <-] _. cbn [fs requests after evolve].
  exists (requests w + (0 + 0) + (k - 1))%nat, r.
  split; [lia|]. split; [lia|]. split; [exact Ho|]. split.
  - intros j Hj. destruct (Hfail (j - (requests w + (0 + 0)))%nat) as [e He]; [lia|].
    exists e. rewrite <- He. f_equal. lia.
  - apply write_spec in Ew. tauto.
Qed.

End ContentFacts.

(** X17: a download that ends as downloaded has stored, at the
    destination, the payload of the first reply for the URL of the file
    that succeeded, after at most three requests. *)
Theorem downloaded_file_holds_the_reply :
  forall (net : Net) (fi : FileInfo) (w w' : World),
    (forall root,
        App.download_file net fi root false w = (inr "downloaded", w') ->
        exists i r,
          (requests w <= i < requests w')%nat
          /\ (requests w' <= requests w + 3)%nat
          /\ net i (fi_url fi) = Ok r
          /\ (forall j, (requests w <= j < i)%nat ->
                        exists e, net j (fi_url fi) = Failed e)
          /\ FS.node (fs w') (App.dest_of root fi) = Some (File (r_content r)))
    /\ (forall dir res,
           Scraper.download_file net dir fi false w = (inr res, w') ->
           Scraper.res_status res = "downloaded" ->
           exists i r,
             (requests w <= i < requests w')%nat
             /\ (requests w' <= requests w + 3)%nat
             /\ net i (fi_url fi) = Ok r
             /\ (forall j, (requests w <= j < i)%nat ->
                           exists e, net j (fi_url fi) = Failed e)
             /\ FS.node (fs w') (Scraper.dest_of dir fi)
                = Some (File (r_content r))).
Proof.
  intros net fi w w'. split.
  - intros root. apply app_download_content.
  - intros dir res. apply scraper_download_content.
Qed.

Lemma downloaded_file_holds_the_reply_witness :
  exists w' i r,
    App.download_file Ref.net_site Ref.p1 "downloads" false Ref.w0
    = (inr "downloaded", w')
    /\ Ref.net_site i Ref.p1_url = Ok r
    /\ FS.node (fs w') (App.dest_of "downloads" Ref.p1) = Some (File (r_content r)).
Proof.
  assert (F : fst (App.download_file Ref.net_site Ref.p1 "downloads" false Ref.w0)
              = inr "downloaded") by (vm_compute; reflexivity).
  destruct (App.download_file Ref.net_site Ref.p1 "downloads" false Ref.w0)
    as [o w'] eqn:E.
  cbn [fst] in F. subst o.
  destruct (proj1 (downloaded_file_holds_the_reply Ref.net_site Ref.p1 Ref.w0 w')
                  "downloads" E) as (i & r & _ & _ & H1 & _ & H2).
  exists w', i, r. split; [reflexivity|]. split; [exact H1 | exact H2].
Defined.

(** ** Where a file goes *)

Section PathFacts.
Import PyChar.

Lemma split_slash_plain (cur l : list ascii) :
  Forall (fun c => Ascii.eqb c "/" = false) l ->
  PyPath.split_slash cur l = [str (rev cur ++ l)].
Proof.
  intros H. revert cur. induction H as [|c r Hc Hr IH]; intros cur;
    cbn [PyPath.split_slash].
  - now rewrite List.app_nil_r.
  - rewrite Hc, IH. cbn [rev]. now rewrite <- List.app_assoc.
Qed.

(** A name without a slash is one part of a path, or none when it is
    empty or a single dot. *)
Lemma rel_parts_plain (s : string) :
  Forall (fun c => Ascii.eqb c "/" = false) (chars s) ->
  PyPath.rel_parts s = (if String.eqb s "" || String.eqb s "." then [] else [s])
  /\ PyPath.is_absolute s = false.
Proof.
  intros H. split.
  - unfold PyPath.rel_parts. rewrite (split_slash_plain [] _ H).
    cbn [rev app List.filter]. rewrite str_chars.
    now destruct (String.eqb s "" || String.eqb s ".").
  - unfold PyPath.is_absolute, startswith.
    destruct (chars s) as [|c r]; [reflexivity|].
    cbn [chars list_ascii_of_string strip_prefix].
    inversion H as [|? ? Hc Hr]; subst.
    rewrite Ascii.eqb_sym, Hc. reflexivity.
Qed.

Lemma div_plain (p : Path) (s : string) :
  Forall (fun c => Ascii.eqb c "/" = false) (chars s) ->
  PyPath.div p s = p ++ (if String.eqb s "" || String.eqb s "." then [] else [s]).
Proof.
  intros H. destruct (rel_parts_plain s H) as [E1 E2].
  unfold PyPath.div. now rewrite E2, E1.
Qed.

Lemma legal_no_slash (l : list ascii) :
  Forall legal l -> Forall (fun c => Ascii.eqb c "/" = false) l.
Proof.
  apply List.Forall_impl. intros c Hc. unfold legal, illegal in Hc.
  destruct (Ascii.eqb_spec c "/") as [->|]; [discriminate Hc | reflexivity].
Qed.

Lemma digit_no_slash (c : ascii) :
  isdecimal c = true -> Ascii.eqb c "/" = false.
Proof.
  intros H. destruct (Ascii.eqb_spec c "/") as [->|]; [discriminate H | reflexivity].
Qed.

Lemma digit_plain (c : ascii) :
  isdecimal c = true -> illegal c = false /\ isspace c = false.
Proof.
  destruct c as [[] [] [] [] [] [] [] []]; intros H; try discriminate H;
    split; reflexivity.
Qed.

Lemma lstrip_snoc (a : list ascii) (c : ascii) :
  isspace c = false -> exists y, lstrip (a ++ [c]) = y ++ [c].
Proof.
  intros Hc. induction a as [|d a [y IH]]; cbn [app lstrip].
  - rewrite Hc. now exists [].
  - destruct (isspace d); [now exists y|]. now exists (d :: a).
Qed.

(** The sanitiser keeps a first character that is neither illegal nor
    whitespace. *)
Lemma sanitise_chars_head (c : ascii) (t : list ascii) :
  illegal c = false -> isspace c = false ->
  exists t', sanitise_chars (c :: t) = c :: t'.
Proof.
  intros Hi Hs. unfold sanitise_chars, Regex.sub_illegal, Regex.sub_ws.
  cbn [List.filter]. rewrite Hi. cbn [negb Regex.sub_ws_from]. rewrite Hs.
  unfold strip. cbn [lstrip]. rewrite Hs. unfold rstrip. cbn [rev].
  destruct (lstrip_snoc (rev (Regex.sub_ws_from false
                                (List.filter (fun c0 => negb (illegal c0)) t))) c Hs)
    as [y ->].
  rewrite rev_app_distr. cbn [rev app firstn]. eauto.
Qed.

End PathFacts.

(** What [detect_grade] returns starts with a letter, so its sanitised
    form is a name of a directory. *)
Lemma grade_dir_plain (text : string) :
  let g := sanitise (detect_grade text) in
  PyPath.div [] g = [g] /\ forall p, PyPath.div p g = p ++ [g].
Proof.
  cbv zeta.
  assert (H : exists c t, chars (detect_grade text) = c :: t
                          /\ PyChar.illegal c = false /\ PyChar.isspace c = false
                          /\ Ascii.eqb c "." = false).
  { unfold detect_grade. cbv zeta.
    destruct (Regex.search_grade _) as [g|].
    - exists "G"%char. eexists. split; [reflexivity|]. repeat split.
    - destruct (_ || _).
      + exists "G"%char. eexists. split; [reflexivity|]. repeat split.
      + destruct (_ || _).
        * exists "A"%char. eexists. split; [reflexivity|]. repeat split.
        * exists "O"%char. eexists. split; [reflexivity|]. repeat split. }
  destruct H as (c & t & E & Hi & Hs & Hd).
  destruct (sanitise_chars_head c t Hi Hs) as [t' E'].
  assert (Hp : Forall (fun c => Ascii.eqb c "/" = false)
                 (chars (sanitise (detect_grade text)))).
  { unfold sanitise. rewrite chars_str. apply legal_no_slash.
    apply sanitise_chars_shape. }
  assert (Hne : String.eqb (sanitise (detect_grade text)) ""
                || String.eqb (sanitise (detect_grade text)) "." = false).
  { unfold sanitise. rewrite E, E'. cbn [str string_of_list_ascii String.eqb].
    destruct t' as [|d t'']; cbn [string_of_list_ascii String.eqb].
    - now rewrite Hd.
    - destruct (Ascii.eqb c "."); reflexivity. }
  assert (G : forall p, PyPath.div p (sanitise (detect_grade text))
                        = p ++ [sanitise (detect_grade text)]).
  { intros p. rewrite (div_plain p _ Hp). now rewrite Hne. }
  split; [apply (G [])| exact G].
Qed.

Lemma year_dir_plain (x : string) (p : Path) :
  PyPath.div p (detect_year x) = p ++ [detect_year x].
Proof.
  unfold detect_year.
  destruct (Regex.search_year (chars x)) as [y|] eqn:E; [|reflexivity].
  unfold Regex.search_year in E. rewrite search_year_direct in E.
  apply search_year_shape in E. destruct E as [(c & d & Hc & Hd & ->) _].
  rewrite div_plain.
  - reflexivity.
  - rewrite chars_str. repeat constructor; try reflexivity;
      now apply digit_no_slash.
Qed.

Lemma startswith_length (p l : list ascii) :
  startswith p l = true -> (List.length p <= List.length l)%nat.
Proof.
  unfold startswith. revert l.
  induction p as [|a p IH]; intros l; cbn [strip_prefix List.length]; [lia|].
  destruct l as [|b l]; [discriminate|]. cbn [List.length].
  destruct (Ascii.eqb a b); [|discriminate]. intros H. apply IH in H. lia.
Qed.

Lemma endswith_length (s ext : string) :
  S.endswith s ext = true -> (String.length ext <= String.length s)%nat.
Proof.
  unfold S.endswith, endswith. intros H. apply startswith_length in H.
  now rewrite !List.length_rev, !length_chars in H.
Qed.

Lemma length_lower (s : string) : String.length (S.lower s) = String.length s.
Proof.
  unfold S.lower, lower.
  now rewrite <- length_chars, chars_str, List.length_map, length_chars.
Qed.

(** The name of a file of a session page is one part of a path. *)
Lemma filename_plain urljoin url_path path_suffix path_stem es a (p : Path) :
  S.member (link_ext url_path path_suffix a) doc_exts = true ->
  let f := fi_filename (file_of urljoin url_path path_suffix path_stem es a) in
  PyPath.div p f = p ++ [f] /\ f <> "".
Proof.
  intros Hm.
  destruct (file_of_shape urljoin url_path path_suffix path_stem es a Hm)
    as (_ & _ & Hl & He).
  cbv zeta in *.
  set (f := fi_filename _) in *.
  apply endswith_length in He. rewrite length_lower in He.
  assert (H4 : (4 <= String.length f)%nat).
  { destruct (doc_ext_cases _ Hm) as [E | [E | E]]; rewrite E in He;
      cbn [String.length] in He; lia. }
  assert (Hne : String.eqb f "" || String.eqb f "." = false).
  { destruct f as [|c [|d f']]; cbn [String.length] in H4; try lia.
    cbn [String.eqb]. destruct (Ascii.eqb c "."); reflexivity. }
  split.
  - rewrite div_plain by (now apply legal_no_slash). now rewrite Hne.
  - intros E. rewrite E in H4. cbn in H4. lia.
Qed.

Section LayoutFacts.
Variable urljoin : string -> string -> string.
Variables url_path path_suffix path_stem : string -> string.

Lemma layout_of (root : string) (a b : Anchor) :
  let s := session_of urljoin a in
  let fi := file_of urljoin url_path path_suffix path_stem s b in
  S.member (link_ext url_path path_suffix b) doc_exts = true ->
  App.dest_of root fi
  = PyPath.of_string root
    ++ [sanitise (es_grade s); es_year s]
    ++ PyPath.rel_parts (sanitise (es_title s))
    ++ [fi_filename fi]
  /\ (List.length (PyPath.rel_parts (sanitise (es_title s))) <= 1)%nat
  /\ fi_filename fi <> "".
Proof.
  cbv zeta. intros Hm.
  unfold App.dest_of, App.dest_dir_of, App._sanitise.
  cbn [fi_exam_session file_of].
  destruct (filename_plain urljoin url_path path_suffix path_stem
              (session_of urljoin a) b
              (PyPath.div
                 (PyPath.div
                    (PyPath.div (PyPath.of_string root)
                       (sanitise (es_grade (session_of urljoin a))))
                    (es_year (session_of urljoin a)))
                 (sanitise (es_title (session_of urljoin a)))) Hm) as [E1 E2].
  cbv zeta in E1, E2. cbn [file_of fi_filename] in E1, E2 |- *.
  rewrite E1.
  assert (Ey : forall p, PyPath.div p (es_year (session_of urljoin a))
                         = p ++ [es_year (session_of urljoin a)]).
  { intros p. cbn [es_year session_of]. unfold session_year.
    destruct (String.eqb _ "Unknown Year"); apply year_dir_plain. }
  rewrite Ey.
  assert (Eg : forall p, PyPath.div p (sanitise (es_grade (session_of urljoin a)))
                         = p ++ [sanitise (es_grade (session_of urljoin a))]).
  { cbn [es_grade session_of]. unfold session_grade. apply grade_dir_plain. }
  rewrite Eg.
  assert (Ht : Forall (fun c => Ascii.eqb c "/" = false)
                 (chars (sanitise (es_title (session_of urljoin a))))).
  { unfold sanitise at 1. rewrite chars_str. apply legal_no_slash.
    apply sanitise_chars_shape. }
  destruct (rel_parts_plain _ Ht) as [R1 R2].
  unfold PyPath.div at 1. rewrite R2.
  split; [now rewrite <- !List.app_assoc|].
  split; [|exact E2].
  rewrite R1. destruct (_ || _); cbn; lia.
Qed.

End LayoutFacts.

Lemma grade_dir_not_dots (text : string) : sanitise (detect_grade text) <> "..".
Proof.
  assert (H : exists c t, chars (detect_grade text) = c :: t
                          /\ PyChar.illegal c = false /\ PyChar.isspace c = false
                          /\ Ascii.eqb c "." = false).
  { unfold detect_grade. cbv zeta.
    destruct (Regex.search_grade _) as [g|].
    - exists "G"%char. eexists. split; [reflexivity|]. repeat split.
    - destruct (_ || _).
      + exists "G"%char. eexists. split; [reflexivity|]. repeat split.
      + destruct (_ || _).
        * exists "A"%char. eexists. split; [reflexivity|]. repeat split.
        * exists "O"%char. eexists. split; [reflexivity|]. repeat split. }
  destruct H as (c & t & E & Hi & Hs & Hd).
  destruct (sanitise_chars_head c t Hi Hs) as [t' E'].
  unfold sanitise. rewrite E, E'. cbn [str string_of_list_ascii].
  intros [= -> _]. discriminate Hd.
Qed.

Lemma year_dir_not_dots (x : string) : detect_year x <> "..".
Proof.
  unfold detect_year.
  destruct (Regex.search_year (chars x)) as [y|] eqn:E; [|discriminate].
  unfold Regex.search_year in E. rewrite search_year_direct in E.
  apply search_year_shape in E. destruct E as [(c & d & Hc & Hd & ->) _].
  discriminate.
Qed.

Lemma filename_not_dots urljoin url_path path_suffix path_stem es a :
  S.member (link_ext url_path path_suffix a) doc_exts = true ->
  fi_filename (file_of urljoin url_path path_suffix path_stem es a) <> "..".
Proof.
  intros Hm.
  destruct (file_of_shape urljoin url_path path_suffix path_stem es a Hm)
    as (_ & _ & _ & He).
  cbv zeta in *. intros E. rewrite E in He.
  apply endswith_length in He. rewrite length_lower in He.
  destruct (doc_ext_cases _ Hm) as [E' | [E' | E']]; rewrite E' in He;
    cbn [String.length] in He; lia.
Qed.

(** X18: for a session of the index page whose title does not sanitise
    to two dots, and a root that does not start with two slashes, every
    file of a session page goes to root / grade label / year label / title
    / file name: the sanitised grade label and the year label (which the
    code does not sanitise) are always one directory each, the sanitised
    title is one directory, or none when it is empty or a single dot, and
    the file name is one non-empty name; none of these parts is [..], so
    the file lies below the year directory of its grade; both front ends
    compute the same destination. *)
Theorem files_go_under_grade_and_year :
  forall (urljoin : string -> string -> string)
         (url_path path_suffix path_stem : string -> string)
         (grade_filters year_filters : list string)
         (grade_filter year_filter : option string)
         (index_anchors session_anchors : list Anchor)
         (s : ExamSession) (fi : FileInfo) (root : string),
    In s (App.index_loop urljoin grade_filters year_filters index_anchors)
    \/ In s (Scraper.index_loop urljoin grade_filter year_filter index_anchors) ->
    In fi (App.session_loop urljoin url_path path_suffix path_stem s session_anchors)
    \/ In fi (Scraper.session_loop urljoin url_path path_suffix path_stem s
                session_anchors) ->
    sanitise (es_title s) <> ".." ->
    S.startswith root "//" = false ->
    let below := [sanitise (es_grade s); es_year s]
                 ++ PyPath.rel_parts (sanitise (es_title s))
                 ++ [fi_filename fi] in
    App.dest_of root fi = PyPath.of_string root ++ below
    /\ Scraper.dest_of (PyPath.of_string root) fi = App.dest_of root fi
    /\ (List.length (PyPath.rel_parts (sanitise (es_title s))) <= 1)%nat
    /\ fi_filename fi <> ""
    /\ ~ In ".." below.
Proof.
  intros urljoin url_path path_suffix path_stem gfs yfs gf yf ia sa s fi root
         Hs Hfi Ht _ below.
  assert (Ha : exists a, s = session_of urljoin a).
  { destruct Hs as [H|H];
      [apply app_index_loop_in in H | apply scraper_index_loop_in in H];
      destruct H as (a & _ & -> & _); now exists a. }
  assert (Hb : exists b, fi = file_of urljoin url_path path_suffix path_stem s b
                         /\ S.member (link_ext url_path path_suffix b) doc_exts = true).
  { destruct Hfi as [H|H];
      [apply app_session_loop_in in H | apply scraper_session_loop_in in H];
      destruct H as (b & _ & -> & Hm); now exists b. }
  destruct Ha as [a ->]. destruct Hb as (b & -> & Hm).
  destruct (layout_of urljoin url_path path_suffix path_stem root a b Hm)
    as (H1 & H2 & H3).
  split; [exact H1|]. split; [reflexivity|]. split; [exact H2|].
  split; [exact H3|].
  subst below. cbn [app In]. intros [E|[E|E]].
  - revert E. cbn [es_grade session_of]. unfold session_grade.
    apply grade_dir_not_dots.
  - revert E. cbn [es_year session_of]. unfold session_year.
    destruct (String.eqb _ "Unknown Year"); apply year_dir_not_dots.
  - apply in_app_or in E. destruct E as [E|[E|[]]].
    + assert (Hp : Forall (fun c => Ascii.eqb c "/" = false)
                     (chars (sanitise (es_title (session_of urljoin a))))).
      { unfold sanitise at 1. rewrite chars_str. apply legal_no_slash.
        apply sanitise_chars_shape. }
      destruct (rel_parts_plain _ Hp) as [R1 _]. rewrite R1 in E.
      destruct (_ || _); [destruct E|]. destruct E as [E|[]]. now apply Ht.
    + revert E. now apply filename_not_dots.
Qed.

Lemma files_go_under_grade_and_year_witness :
  In Ref.the_session (App.index_loop Ref.urljoin [] [] index_links)
  /\ In Ref.p1 (App.session_loop Ref.urljoin Ref.url_path Ref.path_suffix
                  Ref.path_stem Ref.the_session session_links)
  /\ sanitise (es_title Ref.the_session) <> ".."
  /\ S.startswith "downloads" "//" = false
  /\ App.dest_of "downloads" Ref.p1
     = PyPath.of_string "downloads"
       ++ [sanitise (es_grade Ref.the_session); es_year Ref.the_session]
       ++ PyPath.rel_parts (sanitise (es_title Ref.the_session))
       ++ [fi_filename Ref.p1].
Proof.
  assert (H1 : In Ref.the_session (App.index_loop Ref.urljoin [] [] index_links))
    by (vm_compute; left; reflexivity).
  assert (H2 : In Ref.p1 (App.session_loop Ref.urljoin Ref.url_path Ref.path_suffix
                            Ref.path_stem Ref.the_session session_links))
    by (vm_compute; left; reflexivity).
  assert (H3 : sanitise (es_title Ref.the_session) <> "..")
    by (vm_compute; discriminate).
  assert (H4 : S.startswith "downloads" "//" = false) by reflexivity.
  split; [exact H1|]. split; [exact H2|]. split; [exact H3|]. split; [exact H4|].
  exact (proj1 (files_go_under_grade_and_year Ref.urljoin Ref.url_path
                  Ref.path_suffix Ref.path_stem [] [] None None
                  index_links session_links Ref.the_session Ref.p1 "downloads"
                  (or_introl H1) (or_introl H2) H3 H4)).
Defined.

(** ** The event stream *)

Lemma generate_goes_on (polls rest : list Stream.Poll) :
  Forall (fun p => goes_on p = true) polls ->
  Stream.generate (polls ++ rest)
  = (map step_of polls ++ fst (Stream.generate rest), snd (Stream.generate rest)).
Proof.
  induction 1 as [|p polls Hp Hs IH]; cbn [app map].
  - now destruct (Stream.generate rest).
  - destruct p as [|k m|active]; cbn [Stream.generate goes_on step_of] in *.
    + now rewrite IH.
    + apply negb_true_iff in Hp. now rewrite Hp, IH.
    + rewrite Hp. cbn [negb]. now rewrite IH.
Qed.

Lemma emitted_app (a b : list Effect) : emitted (a ++ b) = emitted a ++ emitted b.
Proof. unfold emitted. apply List.flat_map_app. Qed.

Lemma emitted_go_on (es : list Effect) :
  Forall (fun e => is_done e = false) es ->
  Forall (fun p => goes_on p = true) (emitted es).
Proof.
  induction 1 as [|e es He Hes IH]; [constructor|].
  change (e :: es) with ([e] ++ es). rewrite emitted_app.
  apply Forall_app. split; [|exact IH].
  destruct e as [ms|u|k m|l m|m|p|p c|]; cbn [emitted flat_map app];
    try constructor; [|constructor].
  cbn [goes_on]. cbn [is_done] in He. now rewrite He.
Qed.

(** X19: as long as the generator of the event stream meets no done
    message and no idle second with the job flag cleared, it goes on: it
    passes on every message in order, sends a ping for every idle second
    and pauses 0.1 s while there is no queue; it returns right after the
    first done message, and right after the ping of the first idle second
    in which the job flag is cleared, whatever is in the queue then. *)
Theorem stream_ends_at_done_or_idle :
  forall (polls rest : list Stream.Poll),
    Forall (fun p => goes_on p = true) polls ->
    Stream.generate polls = (map step_of polls, false)
    /\ (forall m,
           Stream.generate (polls ++ Stream.Got "done" m :: rest)
           = (map step_of polls ++ [Stream.Data "done" m], true))
    /\ Stream.generate (polls ++ Stream.Empty false :: rest)
       = (map step_of polls ++ [Stream.Ping], true).
Proof.
  intros polls rest H. split; [|split].
  - rewrite <- (List.app_nil_r polls) at 1.
    rewrite (generate_goes_on polls [] H). cbn. now rewrite List.app_nil_r.
  - intros m. now rewrite (generate_goes_on polls _ H).
  - now rewrite (generate_goes_on polls _ H).
Qed.

Lemma stream_ends_at_done_or_idle_witness :
  Stream.generate
    ([Stream.NoQueue; Stream.Got "info" MFetchingIndex; Stream.Empty true]
     ++ Stream.Got "done" (MCounts 0 0 0 0) :: [Stream.Got "info" MFetchingIndex])
  = ([Stream.Pause 100; Stream.Data "info" MFetchingIndex; Stream.Ping;
      Stream.Data "done" (MCounts 0 0 0 0)], true).
Proof.
  apply (stream_ends_at_done_or_idle
           [Stream.NoQueue; Stream.Got "info" MFetchingIndex; Stream.Empty true]
           [Stream.Got "info" MFetchingIndex]).
  repeat constructor.
Defined.

Lemma passed_on_app (a b : list Stream.Step) :
  passed_on (a ++ b) = passed_on a ++ passed_on b.
Proof. unfold passed_on. apply List.flat_map_app. Qed.

Lemma messages_app (a b : list Stream.Poll) :
  messages (a ++ b) = messages a ++ messages b.
Proof. unfold messages. apply List.filter_app. Qed.

Lemma passed_on_steps (polls : list Stream.Poll) :
  passed_on (map step_of polls) = messages polls.
Proof.
  induction polls as [|p polls IH]; [reflexivity|].
  destruct p as [|k m|active]; cbn [map step_of passed_on flat_map messages
                                     List.filter app];
    fold (passed_on (map step_of polls)); fold (messages polls);
    now rewrite IH.
Qed.

Lemma messages_emitted (es : list Effect) : messages (emitted es) = emitted es.
Proof.
  induction es as [|e es IH]; [reflexivity|].
  change (e :: es) with ([e] ++ es). rewrite emitted_app, messages_app, IH.
  f_equal. now destruct e.
Qed.

Lemma emitted_not_idle (es : list Effect) : existsb idle_stop (emitted es) = false.
Proof.
  induction es as [|e es IH]; [reflexivity|].
  change (e :: es) with ([e] ++ es). rewrite emitted_app, List.existsb_app, IH.
  now destruct e.
Qed.

(** Rounds without an idle stop whose messages go on all go on. *)
Lemma rounds_go_on (polls : list Stream.Poll) :
  existsb idle_stop polls = false ->
  Forall (fun p => goes_on p = true) (messages polls) ->
  Forall (fun p => goes_on p = true) polls.
Proof.
  induction polls as [|p polls IH]; intros Hi Hm; [constructor|].
  cbn [existsb] in Hi. apply orb_false_iff in Hi. destruct Hi as [Hp Hi].
  destruct p as [|k m|active]; cbn [messages List.filter] in Hm;
    fold (messages polls) in Hm.
  - constructor; [reflexivity | auto].
  - inversion Hm; subst. constructor; auto.
  - constructor; [|auto]. cbn [idle_stop] in Hp. cbn [goes_on].
    now destruct active.
Qed.

(** Rounds without an idle stop whose messages end with the first done
    message: the generator goes on up to that message. *)
Lemma rounds_up_to_done (polls pre : list Stream.Poll) (c : Msg) :
  messages polls = pre ++ [Stream.Got "done" c] ->
  Forall (fun p => goes_on p = true) pre ->
  existsb idle_stop polls = false ->
  exists before rest,
    polls = before ++ Stream.Got "done" c :: rest
    /\ Forall (fun p => goes_on p = true) before
    /\ messages before = pre.
Proof.
  revert pre. induction polls as [|p polls IH]; intros pre Hm Hp Hi.
  - destruct pre; discriminate Hm.
  - cbn [existsb] in Hi. apply orb_false_iff in Hi. destruct Hi as [Hq Hi].
    destruct p as [|k m|active]; cbn [messages List.filter] in Hm;
      fold (messages polls) in Hm.
    + destruct (IH pre Hm Hp Hi) as (b & r & -> & Hb & Eb).
      exists (Stream.NoQueue :: b), r. split; [reflexivity|].
      split; [constructor; [reflexivity | exact Hb] | exact Eb].
    + destruct pre as [|p0 pre'].
      * cbn [app] in Hm. injection Hm as -> -> Hm.
        exists [], polls. split; [reflexivity|]. split; [constructor | reflexivity].
      * cbn [app] in Hm. injection Hm as <- Hm.
        inversion Hp as [|? ? Hp0 Hp']; subst.
        destruct (IH pre' Hm Hp' Hi) as (b & r & -> & Hb & Eb).
        exists (Stream.Got k m :: b), r. split; [reflexivity|].
        split; [constructor; [exact Hp0 | exact Hb]|].
        cbn [messages List.filter]. fold (messages b). now rewrite Eb.
    + destruct (IH pre Hm Hp Hi) as (b & r & -> & Hb & Eb).
      exists (Stream.Empty active :: b), r. split; [reflexivity|].
      split; [|exact Eb]. constructor; [|exact Hb].
      cbn [idle_stop] in Hq. cbn [goes_on]. now destruct active.
Qed.

(** A proper start of messages that end with the only done message holds
    no done message. *)
Lemma start_goes_on (a b pre : list Stream.Poll) (c : Msg) :
  a ++ b = pre ++ [Stream.Got "done" c] ->
  b <> [] ->
  Forall (fun p => goes_on p = true) pre ->
  Forall (fun p => goes_on p = true) a.
Proof.
  intros E Hb Hp.
  destruct (List.exists_last Hb) as (b' & x & ->).
  rewrite List.app_assoc in E. apply List.app_inj_tail in E. destruct E as [E _].
  rewrite <- E in Hp. apply Forall_app in Hp. tauto.
Qed.

(** X20: the generator of the event stream over the messages one run
    of [run_job] puts in its queue, whatever the timing of its rounds (idle
    seconds and rounds without a queue in between): when no idle second
    finds the job flag cleared, it passes on every message in order and
    returns right after the last, the done event, reading nothing that
    comes later; when an idle second finds the flag cleared before the last
    message is read (as after a stop request, which does not end the job),
    it returns at that ping, and the messages not read by then, the done
    event among them, are never passed on. *)
Theorem stream_passes_on_a_whole_job :
  forall (net : Net) (urljoin : string -> string -> string)
         (url_path path_suffix path_stem : string -> string)
         (ks : list Pool.Tick) (grade_filters year_filters : list string)
         (output_dir : string) (dry_run : bool) (threads : Z) (w : World),
    let w' := snd (App.run_job net urljoin url_path path_suffix path_stem ks
                               grade_filters year_filters output_dir dry_run
                               threads w) in
    exists es,
      trace w' = trace w ++ es
      /\ (forall later,
             Stream.generate (emitted es ++ later) = (map step_of (emitted es), true))
      /\ (forall polls later,
             messages polls = emitted es ->
             existsb idle_stop polls = false ->
             exists steps c,
               Stream.generate (polls ++ later)
               = (steps ++ [Stream.Data "done" c], true)
               /\ passed_on (steps ++ [Stream.Data "done" c]) = emitted es)
      /\ (forall before rest later,
             messages (before ++ rest) = emitted es ->
             existsb idle_stop before = false ->
             messages rest <> [] ->
             Stream.generate (before ++ Stream.Empty false :: rest ++ later)
             = (map step_of before ++ [Stream.Ping], true)
             /\ passed_on (map step_of before ++ [Stream.Ping]) ++ messages rest
                = emitted es).
Proof.
  intros.
  destruct (app_run_job_done net urljoin url_path path_suffix path_stem ks
              grade_filters year_filters output_dir dry_run threads w)
    as (w1 & pre & c & E & _ & Et & Fp).
  subst w'. rewrite E. cbn [snd]. exists (pre ++ [Emit "done" c]).
  split; [exact Et|].
  assert (Ee : emitted (pre ++ [Emit "done" c])
               = emitted pre ++ [Stream.Got "done" c])
    by (now rewrite emitted_app).
  pose proof (emitted_go_on pre Fp) as Hpre.
  split; [|split].
  - intros later. rewrite Ee, <- List.app_assoc.
    rewrite (generate_goes_on (emitted pre) _ Hpre).
    cbn. now rewrite List.map_app.
  - intros polls later Hm Hi. rewrite Ee in Hm |- *.
    destruct (rounds_up_to_done polls (emitted pre) c Hm Hpre Hi)
      as (b & r & -> & Hb & Eb).
    exists (map step_of b), c. rewrite <- List.app_assoc.
    rewrite (generate_goes_on b _ Hb). cbn [app Stream.generate String.eqb fst snd].
    split; [reflexivity|].
    rewrite passed_on_app, passed_on_steps, Eb. reflexivity.
  - intros before rest later Hm Hi Hr. rewrite Ee in Hm |- *.
    rewrite messages_app in Hm.
    assert (Hb : Forall (fun p => goes_on p = true) before).
    { apply rounds_go_on; [exact Hi|].
      exact (start_goes_on _ _ _ _ Hm Hr Hpre). }
    rewrite (generate_goes_on before _ Hb). cbn [Stream.generate negb fst snd].
    split; [reflexivity|].
    rewrite passed_on_app, passed_on_steps. cbn [passed_on flat_map].
    now rewrite List.app_nil_r.
Qed.

Lemma stream_passes_on_a_whole_job_witness :
  let w' := snd (App.run_job Ref.net_site Ref.urljoin Ref.url_path Ref.path_suffix
                             Ref.path_stem [] [] [] "downloads" false 3 Ref.w0) in
  exists es steps,
    trace w' = trace Ref.w0 ++ es
    /\ Stream.generate (Stream.NoQueue :: Stream.Empty true :: emitted es)
       = (steps, true)
    /\ passed_on steps = emitted es.
Proof.
  intros w'.
  destruct (stream_passes_on_a_whole_job Ref.net_site Ref.urljoin Ref.url_path
              Ref.path_suffix Ref.path_stem [] [] [] "downloads" false 3 Ref.w0)
    as (es & Et & _ & Hall & _).
  destruct (Hall (Stream.NoQueue :: Stream.Empty true :: emitted es) [])
    as (steps & c & Hg & Hp).
  - cbn [messages List.filter]. apply messages_emitted.
  - cbn [existsb idle_stop negb orb]. apply emitted_not_idle.
  - exists es, (steps ++ [Stream.Data "done" c]). split; [exact Et|].
    rewrite List.app_nil_r in Hg. split; [exact Hg | exact Hp].
Defined.

(** ** Starting and stopping jobs *)

Lemma lstrip_twice (l : list ascii) : lstrip (lstrip l) = lstrip l.
Proof. apply lstrip_id. apply lstrip_head. Qed.

Lemma strip_twice (l : list ascii) : strip (strip l) = strip l.
Proof.
  unfold strip at 1. rewrite (lstrip_id (strip l)) by apply strip_starts.
  unfold strip, rstrip. rewrite rev_involutive. now rewrite lstrip_twice.
Qed.

Lemma start_accepts (data : App.StartRequest) (w : World) :
  job_active w = false ->
  exists args,
    App.start data w
    = (inr (Some args),
       {| fs := fs w; requests := requests w; job_active := true;
          trace := trace w |})
    /\ S.truthy (App.output_dir args) = true
    /\ S.strip (App.output_dir args) = App.output_dir args
    /\ (App.req_output_dir data = None -> App.output_dir args = "downloads").
Proof.
  intros H. unfold App.start. rewrite H. eexists. split; [reflexivity|].
  cbn [App.output_dir].
  destruct (S.truthy (S.strip (default "downloads" (App.req_output_dir data))))
    eqn:E.
  - split; [exact E|]. split.
    + unfold S.strip. rewrite chars_str. now rewrite strip_twice.
    + intros Hn. rewrite Hn in E |- *. reflexivity.
  - split; [reflexivity|]. split; [reflexivity|]. reflexivity.
Qed.

(** X21: [start] answers with a refusal and changes nothing while the
    job flag is set, and otherwise sets it; so the second of two start
    requests in a row is always refused, while a start request after a stop
    request, or after [run_job] has returned, is accepted. *)
Theorem one_job_at_a_time :
  forall (data data2 : App.StartRequest) (w : World),
    (job_active w = true -> App.start data w = (inr None, w))
    /\ (job_active w = false ->
        exists args,
          App.start data w
          = (inr (Some args),
             {| fs := fs w; requests := requests w; job_active := true;
                trace := trace w |}))
    /\ fst ((_ ← App.start data; App.start data2) w) = inr None
    /\ (exists args, fst ((_ ← App.stop; App.start data) w) = inr (Some args))
    /\ (forall net urljoin url_path path_suffix path_stem ks
               grade_filters year_filters output_dir dry_run threads,
           exists args,
             fst ((_ ← App.run_job net urljoin url_path path_suffix path_stem ks
                                   grade_filters year_filters output_dir dry_run
                                   threads;
                   App.start data) w)
             = inr (Some args)).
Proof.
  intros data data2 w. split; [|split; [|split; [|split]]].
  - intros H. unfold App.start. now rewrite H.
  - intros H. destruct (start_accepts data w H) as (args & E & _). eauto.
  - rewrite bind_run. destruct (job_active w) eqn:H.
    + unfold App.start at 1. rewrite H. unfold App.start. now rewrite H.
    + destruct (start_accepts data w H) as (args & E & _). rewrite E.
      reflexivity.
  - rewrite bind_run, stop_run.
    destruct (start_accepts data
                {| fs := fs w; requests := requests w; job_active := false;
                   trace := trace w ++ [StopRequested] |} eq_refl)
      as (args & E & _).
    exists args. now rewrite E.
  - intros. rewrite bind_run.
    destruct (app_run_job_done net urljoin url_path path_suffix path_stem ks
                grade_filters year_filters output_dir dry_run threads w)
      as (w1 & pre & c & E & Ha & _).
    rewrite E. destruct (start_accepts data w1 Ha) as (args & E2 & _).
    exists args. now rewrite E2.
Qed.

Lemma one_job_at_a_time_witness :
  job_active Ref.w0 = true
  /\ App.start {| App.req_grades := ["12"]; App.req_years := [];
                  App.req_output_dir := None; App.req_dry_run := false;
                  App.req_threads := None |} Ref.w0
     = (inr None, Ref.w0).
Proof.
  split; [reflexivity|].
  apply (one_job_at_a_time
           {| App.req_grades := ["12"]; App.req_years := [];
              App.req_output_dir := None; App.req_dry_run := false;
              App.req_threads := None |}
           {| App.req_grades := []; App.req_years := [];
              App.req_output_dir := None; App.req_dry_run := false;
              App.req_threads := None |} Ref.w0).
  reflexivity.
Defined.

(** X22: the output directory of a job that [start] accepts is never
    empty and has no whitespace at either end; it is downloads when the
    request names none. *)
Theorem start_output_dir_is_never_blank :
  forall (data : App.StartRequest) (w w' : World) (args : App.JobArgs),
    App.start data w = (inr (Some args), w') ->
    S.truthy (App.output_dir args) = true
    /\ S.strip (App.output_dir args) = App.output_dir args
    /\ (App.req_output_dir data = None -> App.output_dir args = "downloads").
Proof.
  intros data w w' args H.
  destruct (job_active w) eqn:Ha.
  - unfold App.start in H. rewrite Ha in H. discriminate H.
  - destruct (start_accepts data w Ha) as (args' & E & H1).
    rewrite E in H. injection H as <- _. exact H1.
Qed.

Lemma start_output_dir_is_never_blank_witness :
  exists args w',
    App.start {| App.req_grades := []; App.req_years := ["2023"];
                 App.req_output_dir := Some "  papers  ";
                 App.req_dry_run := true; App.req_threads := Some 5%Z |}
              {| fs := ∅; requests := 0; job_active := false; trace := [] |}
    = (inr (Some args), w')
    /\ App.output_dir args = "papers"
    /\ S.truthy (App.output_dir args) = true
    /\ S.strip (App.output_dir args) = App.output_dir args.
Proof.
  eexists _, _. split; [reflexivity|]. split; [reflexivity|].
  refine (let H := start_output_dir_is_never_blank
                     {| App.req_grades := []; App.req_years := ["2023"];
                        App.req_output_dir := Some "  papers  ";
                        App.req_dry_run := true; App.req_threads := Some 5%Z |}
                     {| fs := ∅; requests := 0; job_active := false; trace := [] |}
                     _ _ eq_refl in _).
  split; [exact (proj1 H) | exact (proj1 (proj2 H))].
Defined.

(** ** A grade selection and the sessions without a grade *)

Lemma startswith_prefix (p q l : list ascii) :
  startswith (p ++ q) l = true -> startswith p l = true.
Proof.
  unfold startswith. revert l.
  induction p as [|a p IH]; intros l; cbn [app strip_prefix]; [reflexivity|].
  destruct l as [|b l]; [discriminate|].
  destruct (Ascii.eqb a b); [apply IH | discriminate].
Qed.

Lemma contains_prefix (p q l : list ascii) :
  contains (p ++ q) l = true -> contains p l = true.
Proof.
  induction l as [|c l IH]; cbn [contains]; intros H.
  - rewrite orb_false_r in H |- *. now apply startswith_prefix in H.
  - apply orb_prop in H. destruct H as [H|H].
    + apply startswith_prefix in H. now rewrite H.
    + rewrite (IH H). apply orb_true_r.
Qed.

Lemma grade_filter_needs_grade (g grade : string) :
  S.contains (String.append "Grade " g) grade = true ->
  grade <> "Other" /\ grade <> "ANA (Grades 1-6 & 9)".
Proof.
  unfold S.contains. rewrite chars_append. intros H.
  apply contains_prefix in H.
  split; intros ->; vm_compute in H; discriminate H.
Qed.

(** X23: with a grade selection, the sessions without a grade never
    come through: no session extracted under a non-empty list of grade
    numbers in the web front end, or under a grade filter in the command
    line tool, has the label Other or ANA (Grades 1-6 & 9). *)
Theorem grade_selection_hides_unclassified :
  forall (urljoin : string -> string -> string) (grades : list string)
         (g : string) (years : list string) (year : option string)
         (anchors : list Anchor) (s : ExamSession),
    (grades <> []
     /\ In s (App.index_loop urljoin (map (String.append "Grade ") grades)
                             years anchors))
    \/ In s (Scraper.index_loop urljoin (Some (String.append "Grade " g))
                                year anchors) ->
    es_grade s <> "Other" /\ es_grade s <> "ANA (Grades 1-6 & 9)".
Proof.
  intros urljoin grades g years year anchors s [[Hne H]|H].
  - apply app_index_loop_in in H. destruct H as (a & _ & _ & _ & Hg & _).
    apply app_grade_passes_nonempty in Hg.
    + destruct Hg as (gf & Hin & Hc). apply List.in_map_iff in Hin.
      destruct Hin as (g0 & <- & _). eapply grade_filter_needs_grade; eauto.
    + destruct grades; [congruence | discriminate].
  - apply scraper_index_loop_in in H. destruct H as (a & _ & _ & _ & Hg & _).
    apply scraper_grade_passes_given in Hg; [|reflexivity].
    eapply grade_filter_needs_grade; eauto.
Qed.

Lemma grade_selection_hides_unclassified_witness :
  In Ref.the_session
     (App.index_loop Ref.urljoin (map (String.append "Grade ") ["12"]) [] index_links)
  /\ es_grade Ref.the_session <> "Other"
  /\ es_grade Ref.the_session <> "ANA (Grades 1-6 & 9)".
Proof.
  assert (H : In Ref.the_session
                 (App.index_loop Ref.urljoin (map (String.append "Grade ") ["12"])
                                 [] index_links))
    by (vm_compute; left; reflexivity).
  split; [exact H|].
  apply (grade_selection_hides_unclassified Ref.urljoin ["12"] "" [] None
           index_links Ref.the_session).
  left. split; [discriminate | exact H].
Defined.

(** ** The loops as lists *)

Lemma member_add (u x : string) (seen : gset string) :
  String.eqb u x || bool_decide (u ∈ seen) = bool_decide (u ∈ seen ∪ {[x]}).
Proof.
  destruct (String.eqb_spec u x) as [->|Hne]; cbn [orb].
  - symmetry. apply bool_decide_eq_true. apply elem_of_union_r.
    now apply elem_of_singleton.
  - apply bool_decide_ext. rewrite elem_of_union, elem_of_singleton. tauto.
Qed.

Section LoopsAsLists.
Variable urljoin : string -> string -> string.
Variables url_path path_suffix path_stem : string -> string.

Lemma index_rounds_first gp yp anchors ss seen :
  (forall u, S.member u seen = existsb (fun s => String.eqb (es_url s) u) ss) ->
  index_rounds urljoin gp yp anchors ss
  = ss ++ first_of_each es_url seen
            (map (session_of urljoin) (List.filter (taken urljoin gp yp) anchors)).
Proof.
  unfold index_rounds. revert ss seen.
  induction anchors as [|a r IH]; intros ss seen Hs; cbn [fold_left List.filter map].
  - cbn [first_of_each]. now rewrite List.app_nil_r.
  - unfold index_round at 2. cbv zeta. fold (taken urljoin gp yp a).
    destruct (taken urljoin gp yp a); cbn [andb map first_of_each].
    + rewrite Hs.
      destruct (existsb _ ss) eqn:E; cbn [negb].
      * now apply IH.
      * rewrite (IH (ss ++ [session_of urljoin a])
                    (es_url (session_of urljoin a) :: seen)).
        { now rewrite <- List.app_assoc. }
        intros u. unfold S.member in *. cbn [existsb].
        rewrite List.existsb_app. cbn [existsb]. rewrite orb_false_r, Hs.
        rewrite orb_comm. f_equal. apply String.eqb_sym.
    + now apply IH.
Qed.

Lemma app_session_rounds_first es anchors files (seen : gset string) seenl :
  (forall u, S.member u seenl = bool_decide (u ∈ seen)) ->
  fst (fold_left (App.session_step urljoin url_path path_suffix path_stem es)
                 anchors (files, seen))
  = files ++ first_of_each fi_url seenl
               (map (file_of urljoin url_path path_suffix path_stem es)
                    (List.filter (is_doc url_path path_suffix) anchors)).
Proof.
  revert files seen seenl.
  induction anchors as [|a r IH]; intros files seen seenl Hs;
    cbn [fold_left List.filter map].
  - cbn [first_of_each fst]. now rewrite List.app_nil_r.
  - unfold App.session_step at 2, App._sanitise. cbv zeta.
    fold (link_ext url_path path_suffix a). fold (is_doc url_path path_suffix a).
    destruct (is_doc url_path path_suffix a); cbn [negb map first_of_each].
    + change (fi_url (file_of urljoin url_path path_suffix path_stem es a))
        with (urljoin (es_url es) (S.strip (a_href a))).
      rewrite Hs.
      destruct (bool_decide (urljoin (es_url es) (S.strip (a_href a)) ∈ seen)) eqn:E.
      * now apply IH.
      * rewrite (IH _ _ (urljoin (es_url es) (S.strip (a_href a)) :: seenl)).
        { rewrite <- List.app_assoc. cbn [app]. do 2 f_equal.
          unfold file_of, filename_of. cbv zeta.
          now destruct (S.endswith _ _). }
        intros u. unfold S.member in *. cbn [existsb]. rewrite Hs.
        apply member_add.
    + now apply IH.
Qed.

Lemma scraper_session_rounds_first es anchors files (seen : gset string) seenl :
  (forall u, S.member u seenl = bool_decide (u ∈ seen)) ->
  fst (fold_left (Scraper.session_step urljoin url_path path_suffix path_stem es)
                 anchors (files, seen))
  = files ++ first_of_each fi_url seenl
               (map (file_of urljoin url_path path_suffix path_stem es)
                    (List.filter (fun a => S.truthy (S.strip (a_href a))
                                           && is_doc url_path path_suffix a)
                                 anchors)).
Proof.
  revert files seen seenl.
  induction anchors as [|a r IH]; intros files seen seenl Hs;
    cbn [fold_left List.filter map].
  - cbn [first_of_each fst]. now rewrite List.app_nil_r.
  - unfold Scraper.session_step at 2. cbv zeta.
    fold (link_ext url_path path_suffix a). fold (is_doc url_path path_suffix a).
    destruct (S.truthy (S.strip (a_href a))); cbn [negb andb]; [|now apply IH].
    destruct (is_doc url_path path_suffix a); cbn [negb map first_of_each].
    + change (fi_url (file_of urljoin url_path path_suffix path_stem es a))
        with (urljoin (es_url es) (S.strip (a_href a))).
      rewrite Hs.
      destruct (bool_decide (urljoin (es_url es) (S.strip (a_href a)) ∈ seen)) eqn:E.
      * now apply IH.
      * rewrite (IH _ _ (urljoin (es_url es) (S.strip (a_href a)) :: seenl)).
        { rewrite <- List.app_assoc. reflexivity. }
        intros u. unfold S.member in *. cbn [existsb]. rewrite Hs.
        apply member_add.
    + now apply IH.
Qed.

End LoopsAsLists.

(** X24: an index loop returns, in the order of the page, the sessions
    of the links it takes (session candidates whose labels pass both
    filters), the first one for each URL. *)
Theorem index_loop_takes_first_of_each_url :
  forall (urljoin : string -> string -> string) (anchors : list Anchor),
    (forall gfs yfs,
        App.index_loop urljoin gfs yfs anchors
        = first_of_each es_url []
            (map (session_of urljoin)
                 (List.filter (taken urljoin (App.grade_passes gfs)
                                     (App.year_passes yfs)) anchors)))
    /\ (forall gf yf,
           Scraper.index_loop urljoin gf yf anchors
           = first_of_each es_url []
               (map (session_of urljoin)
                    (List.filter (taken urljoin (Scraper.grade_passes gf)
                                        (Scraper.year_passes yf)) anchors))).
Proof.
  intros urljoin anchors. split; intros.
  - rewrite app_index_loop_rounds.
    now rewrite (index_rounds_first urljoin _ _ anchors [] []).
  - rewrite scraper_index_loop_rounds.
    now rewrite (index_rounds_first urljoin _ _ anchors [] []).
Qed.

(** X25: a session loop returns, in the order of the page, the files
    of the links with a document extension, the first one for each URL;
    the command line tool leaves out links with an empty target
    before. *)
Theorem session_loop_takes_first_of_each_url :
  forall (urljoin : string -> string -> string)
         (url_path path_suffix path_stem : string -> string)
         (es : ExamSession) (anchors : list Anchor),
    App.session_loop urljoin url_path path_suffix path_stem es anchors
    = first_of_each fi_url []
        (map (file_of urljoin url_path path_suffix path_stem es)
             (List.filter (is_doc url_path path_suffix) anchors))
    /\ Scraper.session_loop urljoin url_path path_suffix path_stem es anchors
       = first_of_each fi_url []
           (map (file_of urljoin url_path path_suffix path_stem es)
                (List.filter (fun a => S.truthy (S.strip (a_href a))
                                       && is_doc url_path path_suffix a)
                             anchors)).
Proof.
  intros. split.
  - unfold App.session_loop.
    rewrite (app_session_rounds_first urljoin url_path path_suffix path_stem
               es anchors [] ∅ []); [reflexivity|].
    intros u. cbn. symmetry. apply bool_decide_eq_false. apply not_elem_of_empty.
  - unfold Scraper.session_loop.
    rewrite (scraper_session_rounds_first urljoin url_path path_suffix path_stem
               es anchors [] ∅ []); [reflexivity|].
    intros u. cbn. symmetry. apply bool_decide_eq_false. apply not_elem_of_empty.
Qed.

(** ** Where sessions come from *)

(** X26: every session an index loop returns comes from a link of the
    page whose target, stripped, ends in .htm and starts with none of the
    skipped prefixes, and whose text has at least five characters; its URL
    is that target joined to the base URL and is not the index page, and
    its title is the sanitised link text. *)
Theorem sessions_come_from_page_links :
  forall (urljoin : string -> string -> string)
         (grade_filters year_filters : list string)
         (grade_filter year_filter : option string)
         (anchors : list Anchor) (s : ExamSession),
    In s (App.index_loop urljoin grade_filters year_filters anchors)
    \/ In s (Scraper.index_loop urljoin grade_filter year_filter anchors) ->
    exists a,
      In a anchors
      /\ es_url s = urljoin BASE_URL (S.strip (a_href a))
      /\ es_title s = sanitise (a_text a)
      /\ S.endswith (S.strip (a_href a)) ".htm" = true
      /\ Forall (fun p => S.startswith (S.strip (a_href a)) p = false)
                skipped_prefixes
      /\ es_url s <> INDEX_URL
      /\ (5 <= String.length (a_text a))%nat.
Proof.
  intros urljoin gfs yfs gf yf anchors s H.
  assert (G : exists a, In a anchors /\ s = session_of urljoin a
                        /\ candidate urljoin a = true).
  { destruct H as [H|H];
      [apply app_index_loop_in in H | apply scraper_index_loop_in in H];
      destruct H as (a & Ha & -> & Hc & _); eauto. }
  destruct G as (a & Ha & -> & Hc). exists a.
  unfold candidate in Hc. cbv zeta in Hc.
  apply andb_prop in Hc. destruct Hc as [Hc H4].
  apply andb_prop in Hc. destruct Hc as [Hc H3].
  apply andb_prop in Hc. destruct Hc as [H1 H2].
  apply negb_true_iff in H1, H3, H4.
  apply orb_false_iff in H4. destruct H4 as [_ H4].
  split; [exact Ha|]. split; [reflexivity|]. split; [reflexivity|].
  split; [exact H2|]. split.
  - apply List.Forall_forall. intros p Hp.
    destruct (S.startswith (S.strip (a_href a)) p) eqn:E; [|reflexivity].
    assert (X : existsb (S.startswith (S.strip (a_href a))) skipped_prefixes = true)
      by (apply List.existsb_exists; eauto).
    congruence.
  - split.
    + cbn [es_url session_of]. intros E. rewrite E, String.eqb_refl in H3.
      discriminate H3.
    + apply Nat.ltb_ge in H4. exact H4.
Qed.

Lemma sessions_come_from_page_links_witness :
  In Ref.the_session (App.index_loop Ref.urljoin [] [] index_links)
  /\ exists a,
       In a index_links
       /\ es_url Ref.the_session = Ref.urljoin BASE_URL (S.strip (a_href a))
       /\ es_title Ref.the_session = sanitise (a_text a).
Proof.
  assert (H : In Ref.the_session (App.index_loop Ref.urljoin [] [] index_links))
    by (vm_compute; left; reflexivity).
  split; [exact H|].
  destruct (sessions_come_from_page_links Ref.urljoin [] [] None None index_links
              Ref.the_session (or_introl H))
    as (a & H1 & H2 & H3 & _).
  exists a. split; [exact H1|]. split; [exact H2 | exact H3].
Defined.

(** ** The summary of the command line tool *)

Section SummaryFacts.
Variable net : Net.
Variable DOWNLOAD_DIR : Path.

Lemma scraper_pool_no_dry ks all_files workers w c w' :
  Pool.run (fun fi => Scraper.download_file net DOWNLOAD_DIR fi false)
           Scraper.tally (mret tt) workers ks all_files
           {| Scraper.downloaded := 0; Scraper.skipped := 0;
              Scraper.failed := 0; Scraper.dry_count := 0 |} w
  = (inr c, w') ->
  Scraper.dry_count c = 0%nat.
Proof.
  set (Inv := fun (st : @Pool.State FileInfo Scraper.Counters) (_ : World) =>
                Scraper.dry_count (Pool.acc st) = 0%nat).
  intros H.
  destruct (pool_rule (fun fi => Scraper.download_file net DOWNLOAD_DIR fi false)
              Scraper.tally (mret tt) workers Inv) with
    (ks := ks) (items := all_files)
    (a := {| Scraper.downloaded := 0; Scraper.skipped := 0;
             Scraper.failed := 0; Scraper.dry_count := 0 |}) (w := w)
    as (st & w2 & _ & HI & _ & _ & Hrun).
  - intros st w0 t q _ HI. exact HI.
  - intros st w0 i t _ HI. unfold Pool.settle.
    pose proof (scraper_download_file_spec net DOWNLOAD_DIR t false w0) as S.
    cbv zeta in S. cbn match in S.
    destruct (Scraper.download_file net DOWNLOAD_DIR t false w0) as [[e|r] w1];
      [exact HI|].
    destruct (Pool.fault st); [exact HI|].
    assert (Hr : Scraper.res_status r <> "dry-run").
    { destruct (FS.exists_ _ _); [injection S as -> _; discriminate|].
      destruct (FS.mkdir_parents _ _); [discriminate S|].
      destruct S as (o & k & es & _ & S). destruct o as [resp|].
      - destruct (FS.write _ _ _); [discriminate S|].
        injection S as -> _. discriminate.
      - injection S as -> _. discriminate. }
    unfold Scraper.tally, Scraper.log. cbv zeta.
    destruct (String.eqb _ "downloaded"); [exact HI|].
    destruct (String.eqb _ "failed"); [mrun; exact HI|].
    destruct (String.eqb_spec (Scraper.res_status r) "dry-run");
      [contradiction | exact HI].
  - intros st w0 HI. exact HI.
  - reflexivity.
  - rewrite Hrun in H. destruct (Pool.fault st); [discriminate H|].
    injection H as <- _. exact HI.
Qed.

End SummaryFacts.

Lemma scraper_download_all_split net dir ks files dry_run threads w c w' :
  Scraper.download_all net dir ks files dry_run threads w = (inr c, w') ->
  (if dry_run then Scraper.dry_count c = List.length files
   else (Scraper.downloaded c + Scraper.skipped c + Scraper.failed c)%nat
        = List.length files)
  /\ exists es, trace w' = trace w ++ es.
Proof.
  intros H. split.
  - destruct dry_run.
    + unfold Scraper.download_all, Pool.executor in H.
      destruct (threads <=? 0)%Z; [discriminate H|].
      rewrite bind_run in H. cbn [mret M_ret] in H.
      destruct (scraper_pool_dry net dir ks files (Z.to_nat threads) w)
        as (c1 & w2 & Ep & Hd & _).
      rewrite Ep in H. now injection H as <- _.
    + pose proof (scraper_download_all_counts net dir ks files false threads w c w' H)
        as Hs.
      unfold Scraper.download_all, Pool.executor in H.
      destruct (threads <=? 0)%Z; [discriminate H|].
      rewrite bind_run in H. cbn [mret M_ret] in H.
      apply scraper_pool_no_dry in H. unfold sum_counters in Hs. lia.
  - destruct (scraper_download_all_step net dir ks files dry_run threads w)
      as ((es & E & _) & _).
    rewrite H in E. cbn [snd] in E. now exists es.
Qed.

(** X27: when [main] ends with its summary, the number of files it
    logged before the download stage is, in a dry run, the one number the
    summary prints, and otherwise the sum of the three numbers it prints
    (downloaded, skipped and failed), the summary being the last thing it
    does. *)
Theorem summary_accounts_for_every_file :
  forall (net : Net) (urljoin : string -> string -> string)
         (url_path path_suffix path_stem : string -> string)
         (ks : list Pool.Tick) (args : Scraper.Args) (w : World)
         (c : Scraper.Counters) (w' : World),
    Scraper.main net urljoin url_path path_suffix path_stem ks args w
    = (inr (Some c), w') ->
    exists n es,
      trace w' = trace w ++ es
      /\ In (Log "info" (MTotalFiles n)) es
      /\ (if Scraper.arg_dry_run args
          then last es = Some (Print (MSummaryDry n))
               /\ Scraper.dry_count c = n
          else last es
               = Some (Print (MSummary (Scraper.downloaded c) (Scraper.skipped c)
                                       (Scraper.failed c)
                                       (PyPath.of_string (Scraper.arg_output_dir args))))
               /\ (Scraper.downloaded c + Scraper.skipped c + Scraper.failed c)%nat
                  = n).
Proof.
  intros net urljoin url_path path_suffix path_stem ks args w c w'.
  unfold Scraper.main. cbv zeta. rewrite bind_run.
  match goal with
  | |- context [Scraper.scrape_index net urljoin ?gf ?yf w] =>
      destruct (scraper_scrape_index_shape net urljoin gf yf w)
        as (r & k & es & E & _ & _); rewrite E
  end.
  destruct r as [e|ss]; [discriminate|].
  destruct ss as [|s0 ss']; [unfold Scraper.log; mrun; discriminate|].
  rewrite bind_run.
  destruct (scraper_scan_sessions_shape net urljoin url_path path_suffix path_stem
              (s0 :: ss') [] (after w k es))
    as (files & k2 & t2 & E2 & _ & _ & _).
  rewrite E2. cbn [app].
  destruct files as [|f0 files']; [unfold Scraper.log; mrun; discriminate|].
  set (files := f0 :: files').
  unfold Scraper.log. rewrite bind_run, effect_run, after_after, after_after.
  set (pre := es ++ t2 ++ [Log "info" (MTotalFiles (List.length files))]).
  assert (Hin : forall tl, In (Log "info" (MTotalFiles (List.length files)))
                              (pre ++ tl)).
  { intros tl. unfold pre. rewrite !List.in_app_iff. cbn [In]. auto. }
  destruct (Scraper.arg_dry_run args) eqn:Ed.
  - rewrite bind_run, effect_run, after_after, bind_run.
    match goal with
    | |- context [Scraper.download_all net ?d ks files true ?th ?w1] =>
        destruct (Scraper.download_all net d ks files true th w1)
          as [[e|c1] w2] eqn:Ec; [discriminate|];
        apply scraper_download_all_split in Ec; destruct Ec as (Hc & tl & Et)
    end.
    rewrite bind_run, effect_run. intros [= <- <-].
    exists (List.length files),
      (((pre ++ [Log "info" MDryRunMode]) ++ tl)
       ++ [Print (MSummaryDry (Scraper.dry_count c1))]).
    cbn [trace after] in Et |- *.
    split; [rewrite Et, <- !List.app_assoc; reflexivity|].
    split; [apply List.in_or_app; left; rewrite <- List.app_assoc; apply Hin|].
    split; [|exact Hc]. rewrite Hc. apply last_snoc.
  - rewrite bind_run. cbn [mret M_ret]. rewrite bind_run.
    match goal with
    | |- context [Scraper.download_all net ?d ks files false ?th ?w1] =>
        destruct (Scraper.download_all net d ks files false th w1)
          as [[e|c1] w2] eqn:Ec; [discriminate|];
        apply scraper_download_all_split in Ec; destruct Ec as (Hc & tl & Et)
    end.
    rewrite bind_run, effect_run. intros [= <- <-].
    exists (List.length files),
      ((pre ++ tl)
       ++ [Print (MSummary (Scraper.downloaded c1) (Scraper.skipped c1)
                           (Scraper.failed c1)
                           (PyPath.of_string (Scraper.arg_output_dir args)))]).
    cbn [trace after] in Et |- *.
    split; [rewrite Et, <- !List.app_assoc; reflexivity|].
    split; [apply List.in_or_app; left; apply Hin|].
    split; [|exact Hc]. apply last_snoc.
Qed.

Lemma summary_accounts_for_every_file_witness :
  exists c w' n es,
    Scraper.main Ref.net_site Ref.urljoin Ref.url_path Ref.path_suffix
                 Ref.path_stem [] some_args Ref.w0
    = (inr (Some c), w')
    /\ trace w' = trace Ref.w0 ++ es
    /\ In (Log "info" (MTotalFiles n)) es
    /\ (Scraper.downloaded c + Scraper.skipped c + Scraper.failed c)%nat = n.
Proof.
  assert (F : returned_some
                (Scraper.main Ref.net_site Ref.urljoin Ref.url_path Ref.path_suffix
                   Ref.path_stem [] some_args Ref.w0) = true)
    by (vm_compute; reflexivity).
  destruct (Scraper.main Ref.net_site Ref.urljoin Ref.url_path Ref.path_suffix
              Ref.path_stem [] some_args Ref.w0) as [[e|[c|]] w'] eqn:E;
    try discriminate F.
  destruct (summary_accounts_for_every_file Ref.net_site Ref.urljoin Ref.url_path
              Ref.path_suffix Ref.path_stem [] some_args Ref.w0 c w' E)
    as (n & es & H1 & H2 & H3).
  exists c, w', n, es. split; [reflexivity|]. split; [exact H1|].
  split; [exact H2 | exact (proj2 H3)].
Defined.

(** ** The requests of a job *)

Section BudgetFacts.
Variable net : Net.

Lemma app_download_requests fi root dry_run w :
  let w' := snd (App.download_file net fi root dry_run w) in
  (requests w <= requests w' <= requests w + 3)%nat.
Proof.
  cbv zeta. unfold App.download_file, path_exists. cbv zeta.
  destruct dry_run; [unfold App.emit; mrun; cbn; lia|].
  rewrite bind_run.
  destruct (FS.exists_ (fs w) (App.dest_of root fi)); [cbn; lia|].
  rewrite bind_run, mkdir_run.
  destruct (FS.mkdir_parents _ _) as [q|f']; [cbn; lia|].
  rewrite bind_run.
  destruct (app_get_first net (fi_url fi)
              (evolve w f' 0 [Mkdir (App.dest_dir_of root fi)]))
    as (o & k & es & E & (K & _)).
  rewrite E.
  destruct o as [r|]; [|unfold App.emit; mrun; cbn; lia].
  rewrite bind_run, write_bytes_run. cbn [fs after evolve].
  destruct (FS.write _ _ f') as [q|f2]; [cbn; lia|].
  unfold App.emit. mrun. cbn. lia.
Qed.

Lemma scraper_download_requests dir fi dry_run w :
  let w' := snd (Scraper.download_file net dir fi dry_run w) in
  (requests w <= requests w' <= requests w + 3)%nat.
Proof.
  cbv zeta. unfold Scraper.download_file, path_exists. cbv zeta.
  destruct dry_run; [unfold Scraper.log; mrun; cbn; lia|].
  rewrite bind_run.
  destruct (FS.exists_ (fs w) (Scraper.dest_of dir fi)); [cbn; lia|].
  rewrite bind_run, mkdir_run.
  destruct (FS.mkdir_parents _ _) as [q|f']; [cbn; lia|].
  unfold Scraper.log. rewrite bind_run, effect_run, bind_run, after_evolve.
  match goal with
  | |- context [Scraper.safe_get net ?u ?w0] =>
      destruct (scraper_get_first net u w0) as (o & k & es & E & (K & _))
  end.
  rewrite E.
  destruct o as [r|]; [|cbn; lia].
  rewrite bind_run, write_bytes_run. cbn [fs after evolve].
  destruct (FS.write _ _ f') as [q|f2]; cbn; lia.
Qed.

Lemma app_pool_requests ks all_files root dry_run workers w :
  let w' := snd (Pool.run (fun fi => App.download_file net fi root dry_run)
                          (App.tally (List.length all_files)) App.stop workers
                          ks all_files (App.counts0, 0%nat) w) in
  (requests w <= requests w' <= requests w + 3 * List.length all_files)%nat.
Proof.
  cbv zeta. set (total := List.length all_files).
  set (Inv := fun (st : @Pool.State FileInfo (gmap string nat * nat)) (w1 : World) =>
                (requests w <= requests w1)%nat
                /\ (requests w1 + 3 * unfinished st <= requests w + 3 * total)%nat).
  destruct (pool_rule (fun fi => App.download_file net fi root dry_run)
              (App.tally total) App.stop workers Inv) with
    (ks := ks) (items := all_files) (a := (App.counts0, 0%nat)) (w := w)
    as (st & w2 & _ & HI & Hp & Hf & Hrun).
  - intros st w0 t q Ep (H1 & H2).
    unfold Inv, unfinished in *. cbn [Pool.pending Pool.in_flight].
    rewrite Ep in H2. rewrite List.length_app. cbn [List.length] in *. lia.
  - intros st w0 i t Ei (H1 & H2).
    pose proof (length_delete_lookup _ _ _ Ei) as Hl.
    pose proof (app_download_requests t root dry_run w0) as Hr. cbv zeta in Hr.
    unfold Pool.settle.
    destruct (App.download_file net t root dry_run w0) as [[e|r] w1];
      cbn [snd] in Hr; unfold Inv, unfinished in *.
    + cbn [fst snd Pool.pending Pool.in_flight]. lia.
    + destruct (Pool.fault st).
      * cbn [fst snd Pool.pending Pool.in_flight]. lia.
      * destruct (Pool.acc st) as [c d]. rewrite app_tally_run.
        cbn [fst snd Pool.pending Pool.in_flight requests after]. lia.
  - intros st w0 (H1 & H2). rewrite stop_run. cbn [snd]. unfold Inv in *.
    cbn [requests]. lia.
  - unfold Inv, unfinished. cbn [Pool.init Pool.pending Pool.in_flight List.length].
    fold total. lia.
  - rewrite Hrun. destruct HI as [H1 H2]. unfold unfinished in H2.
    rewrite Hp, Hf in H2. cbn [List.length] in H2.
    destruct (Pool.fault st); cbn [snd]; lia.
Qed.

Lemma scraper_pool_requests dir ks all_files dry_run workers w :
  let w' := snd (Pool.run (fun fi => Scraper.download_file net dir fi dry_run)
                          Scraper.tally (mret tt) workers ks all_files
                          {| Scraper.downloaded := 0; Scraper.skipped := 0;
                             Scraper.failed := 0; Scraper.dry_count := 0 |} w) in
  (requests w <= requests w' <= requests w + 3 * List.length all_files)%nat.
Proof.
  cbv zeta. set (total := List.length all_files).
  set (Inv := fun (st : @Pool.State FileInfo Scraper.Counters) (w1 : World) =>
                (requests w <= requests w1)%nat
                /\ (requests w1 + 3 * unfinished st <= requests w + 3 * total)%nat).
  destruct (pool_rule (fun fi => Scraper.download_file net dir fi dry_run)
              Scraper.tally (mret tt) workers Inv) with
    (ks := ks) (items := all_files)
    (a := {| Scraper.downloaded := 0; Scraper.skipped := 0;
             Scraper.failed := 0; Scraper.dry_count := 0 |}) (w := w)
    as (st & w2 & _ & HI & Hp & Hf & Hrun).
  - intros st w0 t q Ep (H1 & H2).
    unfold Inv, unfinished in *. cbn [Pool.pending Pool.in_flight].
    rewrite Ep in H2. rewrite List.length_app. cbn [List.length] in *. lia.
  - intros st w0 i t Ei (H1 & H2).
    pose proof (length_delete_lookup _ _ _ Ei) as Hl.
    pose proof (scraper_download_requests dir t dry_run w0) as Hr. cbv zeta in Hr.
    unfold Pool.settle.
    destruct (Scraper.download_file net dir t dry_run w0) as [[e|r] w1];
      cbn [snd] in Hr; unfold Inv, unfinished in *.
    + cbn [fst snd Pool.pending Pool.in_flight]. lia.
    + destruct (Pool.fault st).
      * cbn [fst snd Pool.pending Pool.in_flight]. lia.
      * destruct (scraper_tally_sum r (Pool.acc st) w1) as (c' & es & -> & _).
        cbn [fst snd Pool.pending Pool.in_flight requests after]. lia.
  - intros st w0 H. exact H.
  - unfold Inv, unfinished. cbn [Pool.init Pool.pending Pool.in_flight List.length].
    fold total. lia.
  - rewrite Hrun. destruct HI as [H1 H2]. unfold unfinished in H2.
    rewrite Hp, Hf in H2. cbn [List.length] in H2.
    destruct (Pool.fault st); cbn [snd]; lia.
Qed.

End BudgetFacts.

(** X28: the download stage makes at most three requests per file,
    whatever the schedule of the pool and however it ends. *)
Theorem at_most_three_requests_per_file :
  forall (net : Net) (ks : list Pool.Tick) (all_files : list FileInfo)
         (dry_run : bool) (threads : Z) (w : World),
    (forall output_dir,
        let w' := snd (App.download_all net ks all_files output_dir dry_run
                                        threads w) in
        (requests w <= requests w' <= requests w + 3 * List.length all_files)%nat)
    /\ (forall dir,
           let w' := snd (Scraper.download_all net dir ks all_files dry_run
                                               threads w) in
           (requests w <= requests w' <= requests w + 3 * List.length all_files)%nat).
Proof.
  intros net ks all_files dry_run threads w. split.
  - intros output_dir. cbv zeta. unfold App.download_all, Pool.executor.
    destruct (threads <=? 0)%Z; [rewrite bind_run; unfold raise; cbn [snd]; lia|].
    rewrite bind_run. cbn [mret M_ret]. rewrite bind_run.
    pose proof (app_pool_requests net ks all_files output_dir dry_run
                  (Z.to_nat threads) w) as H. cbv zeta in H.
    destruct (Pool.run _ _ _ _ _ _ _ _) as [[e|[c d]] w2]; cbn [snd] in *; exact H.
  - intros dir. cbv zeta. unfold Scraper.download_all, Pool.executor.
    destruct (threads <=? 0)%Z; [rewrite bind_run; unfold raise; cbn [snd]; lia|].
    rewrite bind_run. cbn [mret M_ret].
    apply scraper_pool_requests.
Qed.

(** ** Exceptions in a job *)

(** X29: when the body of [run_job] raises an exception, whatever its
    kind, [run_job] emits an error event with it and then a done event
    whose four counts are zero, whatever was downloaded before, clears the
    job flag and returns; what was written before stays in the file
    tree. *)
Theorem run_job_reports_zeros_after_an_exception :
  forall (net : Net) (urljoin : string -> string -> string)
         (url_path path_suffix path_stem : string -> string)
         (ks : list Pool.Tick) (grade_filters year_filters : list string)
         (output_dir : string) (dry_run : bool) (threads : Z)
         (w : World) (e : Exc) (w1 : World),
    App.run_job_body net urljoin url_path path_suffix path_stem ks
                     grade_filters year_filters output_dir dry_run threads w
    = (inl e, w1) ->
    App.run_job net urljoin url_path path_suffix path_stem ks
                grade_filters year_filters output_dir dry_run threads w
    = (inr tt,
       {| fs := fs w1; requests := requests w1; job_active := false;
          trace := trace w1 ++ [Emit "error" (MUnexpected e);
                                Emit "done" (MCounts 0 0 0 0)] |}).
Proof.
  intros net urljoin url_path path_suffix path_stem ks gfs yfs output_dir dry_run
         threads w e w1 H.
  unfold App.run_job, try_finally, try_except. rewrite H.
  unfold App.emit. mrun. cbn [set_job_active].
  unfold after. cbn [fs requests trace job_active]. now rewrite Nat.add_0_r.
Qed.

Lemma run_job_reports_zeros_after_an_exception_witness :
  exists e w1,
    App.run_job_body net_two Ref.urljoin Ref.url_path Ref.path_suffix
                     Ref.path_stem [] [] [] "downloads" false 1 w_blocked
    = (inl e, w1)
    /\ e = OSError ["downloads"; "Grade 12"; "2022"]
    /\ FS.node (fs w1) ["downloads"; "Grade 12"; "2023"; "Grade 12 November 2023";
                        "Maths P1.pdf"]
       = Some (File "paper one")
    /\ App.run_job net_two Ref.urljoin Ref.url_path Ref.path_suffix
                   Ref.path_stem [] [] [] "downloads" false 1 w_blocked
       = (inr tt,
          {| fs := fs w1; requests := requests w1; job_active := false;
             trace := trace w1 ++ [Emit "error" (MUnexpected e);
                                   Emit "done" (MCounts 0 0 0 0)] |}).
Proof.
  assert (F : fst (App.run_job_body net_two Ref.urljoin Ref.url_path
                     Ref.path_suffix Ref.path_stem [] [] [] "downloads"
                     false 1 w_blocked)
              = inl (OSError ["downloads"; "Grade 12"; "2022"]))
    by (vm_compute; reflexivity).
  assert (G : FS.node (fs (snd (App.run_job_body net_two Ref.urljoin Ref.url_path
                                  Ref.path_suffix Ref.path_stem [] [] [] "downloads"
                                  false 1 w_blocked)))
                      ["downloads"; "Grade 12"; "2023"; "Grade 12 November 2023";
                       "Maths P1.pdf"]
              = Some (File "paper one"))
    by (vm_compute; reflexivity).
  destruct (App.run_job_body net_two Ref.urljoin Ref.url_path
              Ref.path_suffix Ref.path_stem [] [] [] "downloads" false 1 w_blocked)
    as [r w1] eqn:E.
  cbn [fst snd] in F, G. subst r.
  eexists _, w1. split; [reflexivity|]. split; [reflexivity|]. split; [exact G|].
  exact (run_job_reports_zeros_after_an_exception net_two Ref.urljoin
           Ref.url_path Ref.path_suffix Ref.path_stem [] [] []
           "downloads" false 1 w_blocked _ w1 E).
Defined.

(** ** Two files with one name *)

(** X30: the session loops tell files apart by URL, not by name; when two
    file descriptors have the same destination and the first is
    downloaded, a download of the second right after it is recorded as
    skipped and makes no request, so its content is never fetched. *)
Theorem files_with_one_name_collide :
  forall (net : Net) (fi1 fi2 : FileInfo) (w w1 : World),
    (forall root,
        App.dest_of root fi1 = App.dest_of root fi2 ->
        App.download_file net fi1 root false w = (inr "downloaded", w1) ->
        App.download_file net fi2 root false w1 = (inr "skipped", w1))
    /\ (forall dir res,
           Scraper.dest_of dir fi1 = Scraper.dest_of dir fi2 ->
           Scraper.download_file net dir fi1 false w = (inr res, w1) ->
           Scraper.res_status res = "downloaded" ->
           Scraper.download_file net dir fi2 false w1
           = (inr {| Scraper.res_url := fi_url fi2;
                     Scraper.res_path := Scraper.dest_of dir fi2;
                     Scraper.res_status := "skipped (exists)" |}, w1)).
Proof.
  intros net fi1 fi2 w w1. split.
  - intros root Hd H. apply app_download_skips. rewrite <- Hd.
    destruct (app_download_content net fi1 root w w1 H) as (i & r & _ & _ & _ & _ & Hn).
    unfold FS.exists_. now rewrite Hn.
  - intros dir res Hd H Hs. apply scraper_download_skips. rewrite <- Hd.
    destruct (scraper_download_content net dir fi1 w res w1 H Hs)
      as (i & r & _ & _ & _ & _ & Hn).
    unfold FS.exists_. now rewrite Hn.
Qed.

Lemma files_with_one_name_collide_witness :
  let links := [ {| a_href := "p1.pdf"; a_text := "Memo" |};
                 {| a_href := "p2.pdf"; a_text := "Memo" |} ] in
  let files := App.session_loop Ref.urljoin Ref.url_path Ref.path_suffix
                                Ref.path_stem Ref.the_session links in
  exists fi1 fi2 w1,
    files = [fi1; fi2]
    /\ fi_url fi1 <> fi_url fi2
    /\ App.dest_of "downloads" fi1 = App.dest_of "downloads" fi2
    /\ App.download_file Ref.net_site fi1 "downloads" false Ref.w0
       = (inr "downloaded", w1)
    /\ App.download_file Ref.net_site fi2 "downloads" false w1
       = (inr "skipped", w1).
Proof.
  intros links files.
  set (fi1 := {| fi_url := Ref.p1_url; fi_filename := "Memo.pdf";
                 fi_exam_session := Ref.the_session |}).
  set (fi2 := {| fi_url := Ref.p2_url; fi_filename := "Memo.pdf";
                 fi_exam_session := Ref.the_session |}).
  assert (F : fst (App.download_file Ref.net_site fi1 "downloads" false Ref.w0)
              = inr "downloaded") by (vm_compute; reflexivity).
  destruct (App.download_file Ref.net_site fi1 "downloads" false Ref.w0)
    as [o w1] eqn:E.
  cbn [fst] in F. subst o.
  exists fi1, fi2, w1.
  split; [vm_compute; reflexivity|].
  split; [discriminate|].
  split; [reflexivity|].
  split; [exact E|].
  exact (proj1 (files_with_one_name_collide Ref.net_site fi1 fi2 Ref.w0 w1)
               "downloads" eq_refl E).
Defined.
